(** * Personal expense tracker (src/main.py): a shallow embedding

    The program is one Python class, [PersonalExpenseTracker], holding a list
    of expense dictionaries and a monthly budget, with a CSV file behind it.
    The embedding follows the class method by method: [__init__],
    [_load_expenses], [_save_expenses], [_validate_date], [add_expense],
    [view_expenses], [set_budget] and [track_budget]; the menu loop of [run]
    only dispatches to them.  The interpreter services the methods call (str
    methods, [float], [str] of a float, [sum], [datetime.strptime], the
    [csv] module, text-mode file reading) are embedded from CPython's
    behaviour on ASCII text, each in a module of its own, so that the
    methods read like the source.

    Conventions:
    - a Python [str] is a [string]; the character classes are those of the
      ASCII range;
    - a Python [float] is a [spec_float] at precision 53 and maximal exponent
      1024 (IEEE binary64), with the arithmetic of [SpecFloat];
    - [input()] is a list of pending lines, [print] a list of printed lines;
    - the file system is the content of "expenses.csv", if the file exists. *)

From Stdlib Require Import ZArith List String Ascii Bool Lia.
From Stdlib Require Import Floats.SpecFloat.
Import ListNotations.
Local Open Scope string_scope.
Local Open Scope Z_scope.

(** ** Python [str] methods on ASCII text *)

Module PyStr.

Definition code (c : ascii) : Z := Z.of_nat (nat_of_ascii c).

Definition in_range (lo hi : Z) (c : ascii) : bool :=
  (lo <=? code c) && (code c <=? hi).

(** [str.isspace] on one ASCII character: TAB..CR, FS..US and the space. *)
Definition isspace (c : ascii) : bool :=
  in_range 9 13 c || in_range 28 32 c.

Definition isdigit (c : ascii) : bool := in_range 48 57 c.
Definition isupper (c : ascii) : bool := in_range 65 90 c.
Definition islower (c : ascii) : bool := in_range 97 122 c.
Definition isalpha_char (c : ascii) : bool := isupper c || islower c.

Definition upper_char (c : ascii) : ascii :=
  if islower c then ascii_of_nat (nat_of_ascii c - 32) else c.
Definition lower_char (c : ascii) : ascii :=
  if isupper c then ascii_of_nat (nat_of_ascii c + 32) else c.

Fixpoint forallb_str (p : ascii -> bool) (s : string) : bool :=
  match s with
  | EmptyString => true
  | String c r => p c && forallb_str p r
  end.

Fixpoint map_str (f : ascii -> ascii) (s : string) : string :=
  match s with
  | EmptyString => EmptyString
  | String c r => String (f c) (map_str f r)
  end.

Definition is_empty (s : string) : bool :=
  match s with EmptyString => true | _ => false end.

(** [s.isalpha()]: at least one character and all of them alphabetic. *)
Definition isalpha (s : string) : bool :=
  negb (is_empty s) && forallb_str isalpha_char s.

(** [s.capitalize()]: first character upper-cased, the rest lower-cased. *)
Definition capitalize (s : string) : string :=
  match s with
  | EmptyString => EmptyString
  | String c r => String (upper_char c) (map_str lower_char r)
  end.

Fixpoint lstrip (s : string) : string :=
  match s with
  | EmptyString => EmptyString
  | String c r => if isspace c then lstrip r else s
  end.

Fixpoint rstrip (s : string) : string :=
  match s with
  | EmptyString => EmptyString
  | String c r =>
      let r' := rstrip r in
      if is_empty r' && isspace c then EmptyString else String c r'
  end.

(** [s.strip()] *)
Definition strip (s : string) : string := rstrip (lstrip s).

Definition digit_val (c : ascii) : Z := code c - 48.

(** Value of a string of decimal digits, most significant first. *)
Fixpoint digits_val_acc (acc : Z) (s : string) : Z :=
  match s with
  | EmptyString => acc
  | String c r => digits_val_acc (10 * acc + digit_val c) r
  end.

Definition digits_val (s : string) : Z := digits_val_acc 0 s.

Definition char_eqb (a b : ascii) : bool := Ascii.eqb a b.

(** [s[:n]] and [s[n:]] *)
Fixpoint take (n : nat) (s : string) : string :=
  match n, s with
  | S n', String c r => String c (take n' r)
  | _, _ => EmptyString
  end.

Fixpoint drop (n : nat) (s : string) : string :=
  match n, s with
  | S n', String c r => drop n' r
  | _, _ => s
  end.


End PyStr.

(** ** [datetime.strptime(s, '%d-%m-%Y')]

    [_strptime] compiles the format to the regular expression
    [(3[0-1]|[1-2]\d|0[1-9]|[1-9]| [1-9])-(1[0-2]|0[1-9]|[1-9])-(\d\d\d\d)],
    matches it at the start of the string, refuses unconverted data after the
    match, and builds a date from the three numbers, which refuses a year
    below 1 and a day the month does not have.  An alternation is embedded as
    the list of its successful matches in priority order. *)

Module Strptime.
Import PyStr.

(** One successful match of a group: the matched text and what follows. *)
Definition split := (string * string)%type.

Definition two (p1 p2 : ascii -> bool) (s : string) : list split :=
  match s with
  | String a (String b r) =>
      if p1 a && p2 b then [(String a (String b EmptyString), r)] else []
  | _ => []
  end.

Definition one (p : ascii -> bool) (s : string) : list split :=
  match s with
  | String a r => if p a then [(String a EmptyString, r)] else []
  | _ => []
  end.

Definition lit (c : ascii) (d : ascii) : bool := char_eqb c d.

(** [%d]: [3[0-1]|[1-2]\d|0[1-9]|[1-9]| [1-9]] *)
Definition re_d (s : string) : list split :=
  two (lit "3") (in_range 48 49) s ++
  two (in_range 49 50) isdigit s ++
  two (lit "0") (in_range 49 57) s ++
  one (in_range 49 57) s ++
  two (lit " ") (in_range 49 57) s.

(** [%m]: [1[0-2]|0[1-9]|[1-9]] *)
Definition re_m (s : string) : list split :=
  two (lit "1") (in_range 48 50) s ++
  two (lit "0") (in_range 49 57) s ++
  one (in_range 49 57) s.

(** [%Y]: [\d\d\d\d] *)
Definition re_Y (s : string) : list split :=
  match s with
  | String a (String b (String c (String d r))) =>
      if isdigit a && isdigit b && isdigit c && isdigit d
      then [(String a (String b (String c (String d EmptyString))), r)]
      else []
  | _ => []
  end.

(** The literal [-] of the format. *)
Definition dash (s : string) : option string :=
  match s with
  | String c r => if lit "-" c then Some r else None
  | EmptyString => None
  end.

(** First alternative, in order, after which the continuation succeeds:
    the backtracking of the regular expression engine. *)
Fixpoint first_match {A : Type} (alts : list split)
    (k : string -> string -> option A) : option A :=
  match alts with
  | [] => None
  | (m, rest) :: more =>
      match k m rest with
      | Some r => Some r
      | None => first_match more k
      end
  end.

(** [format_regex.match(data_string)]: the groups d, m, Y and the text left
    after the match. *)
Definition regex_match (s : string) : option (string * string * string * string) :=
  first_match (re_d s) (fun d r1 =>
    match dash r1 with
    | None => None
    | Some r2 =>
        first_match (re_m r2) (fun m r3 =>
          match dash r3 with
          | None => None
          | Some r4 =>
              first_match (re_Y r4) (fun y r5 => Some (d, m, y, r5))
          end)
    end).

Definition is_leap (y : Z) : bool :=
  (y mod 4 =? 0) && (negb (y mod 100 =? 0) || (y mod 400 =? 0)).

Definition days_in_month (y m : Z) : Z :=
  if m =? 2 then (if is_leap y then 29 else 28)
  else if (m =? 4) || (m =? 6) || (m =? 9) || (m =? 11) then 30
  else 31.

(** [datetime.date(year, month, day)] raises [ValueError] outside these
    bounds. *)
Definition date_ok (y m d : Z) : bool :=
  (1 <=? y) && (y <=? 9999) && (1 <=? m) && (m <=? 12) &&
  (1 <=? d) && (d <=? days_in_month y m).

(** [int(text)] on a group of the match: surrounding blanks are ignored. *)
Definition int_of_group (s : string) : Z := digits_val (strip s).

(** [datetime.strptime(s, '%d-%m-%Y')]: the date as (year, month, day), or
    [None] for [ValueError]. *)
Definition strptime (s : string) : option (Z * Z * Z) :=
  match regex_match s with
  | None => None
  | Some (d, m, y, rest) =>
      if negb (is_empty rest) then None
      else
        let yy := int_of_group y in
        let mm := int_of_group m in
        let dd := int_of_group d in
        if date_ok yy mm dd then Some (yy, mm, dd) else None
  end.

End Strptime.

(** ** Python [float]: IEEE binary64

    Values are [spec_float]s of precision 53 and maximal exponent 1024.  The
    arithmetic and the comparisons are those of [SpecFloat]; the conversions
    from and to text ([float(s)], [str(x)], [format(x, '.2f')]) are embedded
    here with exact integer arithmetic: CPython computes each of them
    correctly rounded. *)

Module PyFloat.
Import PyStr.

Definition float := spec_float.

Definition prec : Z := 53.
Definition emax : Z := 1024.
(** Exponent of the least significant bit of the subnormal numbers. *)
Definition emin : Z := -1074.
(** Largest exponent of the least significant bit of a finite number. *)
Definition etop : Z := 971.

Definition fadd (x y : float) : float := SFadd prec emax x y.
Definition fsub (x y : float) : float := SFsub prec emax x y.
Definition fltb (x y : float) : bool := SFltb x y.
Definition fleb (x y : float) : bool := SFleb x y.
Definition fabs (x : float) : float := SFabs x.

Definition fzero : float := S754_zero false.

(** The binary64 numbers among the [spec_float]s. *)
Definition canonical (m e : Z) : Prop :=
  (2 ^ 52 <= m < 2 ^ 53 /\ emin <= e <= etop) \/
  (0 < m < 2 ^ 52 /\ e = emin).

Definition binary64 (x : float) : Prop :=
  match x with
  | S754_finite _ m e => canonical (Zpos m) e
  | _ => True
  end.

(** *** Rounding a positive rational to the nearest binary64, ties to even *)

(** [floor (log2 (p / q))] for positive [p] and [q]. *)
Definition ilog2_ratio (p q : Z) : Z :=
  let l := Z.log2 p - Z.log2 q in
  let ge := if 0 <=? l then q * 2 ^ l <=? p else q <=? p * 2 ^ (- l) in
  if ge then l else l - 1.

(** [p / (q * 2 ^ e)] as a fraction of integers. *)
Definition scale2 (p q e : Z) : Z * Z :=
  if 0 <=? e then (p, q * 2 ^ e) else (p * 2 ^ (- e), q).

(** Nearest integer to [p / q], ties to even. *)
Definition round_half_even (p q : Z) : Z :=
  let m := p / q in
  let r := p mod q in
  if (q <? 2 * r) || ((q =? 2 * r) && Z.odd m) then m + 1 else m.

Definition of_mantissa (s : bool) (m e : Z) : float :=
  match m with
  | Zpos mp =>
      if m =? 2 ^ 53 then
        (if etop <? e + 1 then S754_infinity s
         else S754_finite s (Z.to_pos (2 ^ 52)) (e + 1))
      else if etop <? e then S754_infinity s
      else S754_finite s mp e
  | _ => S754_zero s
  end.

(** The binary64 nearest to [p / q] (for [0 < p] and [0 < q]), with sign
    [s]; overflow gives an infinity, underflow a zero. *)
Definition round_ratio (s : bool) (p q : Z) : float :=
  let e := Z.max (ilog2_ratio p q - 52) emin in
  let '(P, Q) := scale2 p q e in
  of_mantissa s (round_half_even P Q) e.

(** The value [d * 10 ^ k] as a fraction of integers. *)
Definition dec_ratio (d k : Z) : Z * Z :=
  if 0 <=? k then (d * 10 ^ k, 1) else (d, 10 ^ (- k)).

(** The binary64 nearest to [d * 10 ^ k], [0 <= d]. *)
Definition round_dec (s : bool) (d k : Z) : float :=
  if d =? 0 then S754_zero s
  else let '(p, q) := dec_ratio d k in round_ratio s p q.

(** *** [float(s)] *)

(** Longest prefix of digits, and the rest. *)
Fixpoint span_digits (s : string) : string * string :=
  match s with
  | String c r =>
      if isdigit c then let '(d, t) := span_digits r in (String c d, t)
      else (EmptyString, s)
  | EmptyString => (EmptyString, EmptyString)
  end.

(** Underscores are allowed between two digits only, and are dropped
    ([_Py_string_to_number_with_underscores]). *)
Fixpoint drop_underscores (prev : ascii) (s : string) : option string :=
  match s with
  | EmptyString => if char_eqb prev "_" then None else Some EmptyString
  | String c r =>
      if char_eqb c "_" then
        (if isdigit prev then drop_underscores c r else None)
      else if char_eqb prev "_" && negb (isdigit c) then None
      else option_map (String c) (drop_underscores c r)
  end.

Definition lower (s : string) : string := map_str lower_char s.

(** An optional sign: [true] for [-]. *)
Definition take_sign (s : string) : bool * string :=
  match s with
  | String c r =>
      if char_eqb c "-" then (true, r)
      else if char_eqb c "+" then (false, r)
      else (false, s)
  | EmptyString => (false, s)
  end.

(** The exponent part: nothing, or [e] or [E], an optional sign and at
    least one digit, up to the end of the text. *)
Definition parse_exponent (s : string) : option Z :=
  match s with
  | EmptyString => Some 0
  | String c r =>
      if char_eqb (lower_char c) "e" then
        let '(neg, r1) := take_sign r in
        let '(ds, r2) := span_digits r1 in
        if is_empty ds || negb (is_empty r2) then None
        else Some (if neg then - digits_val ds else digits_val ds)
      else None
  end.

(** A decimal numeral [digits [. digits] [exponent]] with at least one
    digit in the mantissa: the digits [d] and the power of ten [k] of
    [d * 10 ^ k]. *)
Definition parse_decimal (s : string) : option (Z * Z) :=
  let '(ip, r1) := span_digits s in
  let '(fp, r2) :=
    match r1 with
    | String c r =>
        if char_eqb c "." then span_digits r else (EmptyString, r1)
    | EmptyString => (EmptyString, r1)
    end in
  if is_empty ip && is_empty fp then None
  else
    match parse_exponent r2 with
    | None => None
    | Some ex =>
        Some (digits_val (ip ++ fp), ex - Z.of_nat (String.length fp))
    end.

(** [inf], [infinity] and [nan] in any case, after the sign. *)
Definition parse_inf_or_nan (neg : bool) (s : string) : option float :=
  let l := lower s in
  if String.eqb l "inf" || String.eqb l "infinity" then
    Some (S754_infinity neg)
  else if String.eqb l "nan" then Some S754_nan
  else None.

(** [float(s)] for a [str]: [None] stands for [ValueError]. *)
Definition float_of_str (s : string) : option float :=
  match drop_underscores "000" (strip s) with
  | None => None
  | Some t =>
      let '(neg, r) := take_sign t in
      match parse_decimal r with
      | Some (d, k) => Some (round_dec neg d k)
      | None => parse_inf_or_nan neg r
      end
  end.

(** *** [str(x)] and [repr(x)] *)

Definition digit_char (d : Z) : ascii := ascii_of_nat (Z.to_nat (48 + d)).

Fixpoint show_digits_fuel (fuel : nat) (n : Z) (acc : string) : string :=
  match fuel with
  | O => acc
  | S f =>
      let acc' := String (digit_char (n mod 10)) acc in
      if n <? 10 then acc' else show_digits_fuel f (n / 10) acc'
  end.

(** The decimal digits of [n], [0 <= n]. *)
Definition show_digits (n : Z) : string :=
  show_digits_fuel (S (Z.to_nat (Z.log2 n))) n EmptyString.

Fixpoint zeros (n : nat) : string :=
  match n with
  | O => EmptyString
  | S n' => String "0" (zeros n')
  end.

(** At least two digits, as in the exponent of [1e-05]. *)
Definition show_two (n : Z) : string :=
  if n <? 10 then String "0" (show_digits n) else show_digits n.

Definition float_eqb (x y : float) : bool :=
  match x, y with
  | S754_zero a, S754_zero b => Bool.eqb a b
  | S754_infinity a, S754_infinity b => Bool.eqb a b
  | S754_nan, S754_nan => true
  | S754_finite a m e, S754_finite b n f =>
      Bool.eqb a b && Pos.eqb m n && Z.eqb e f
  | _, _ => false
  end.

(** The value [m * 2 ^ e] as a fraction of integers. *)
Definition bin_ratio (m e : Z) : Z * Z :=
  if 0 <=? e then (m * 2 ^ e, 1) else (m, 2 ^ (- e)).

(** [p / (q * 10 ^ k)] as a fraction of integers. *)
Definition scale10 (p q k : Z) : Z * Z :=
  if 0 <=? k then (p, q * 10 ^ k) else (p * 10 ^ (- k), q).

(** [floor (log10 (p / q))] for positive [p] and [q]: an estimate from the
    binary logarithm, corrected by comparison with the powers of ten. *)
Definition ilog10_ratio (p q : Z) : Z :=
  let t := (ilog2_ratio p q * 1233) / 4096 in
  let ge t := let '(a, b) := scale10 p q t in b <=? a in
  if ge (t + 1) then t + 1 else if ge t then t else t - 1.

Fixpoint strip_zeros (fuel : nat) (d k : Z) : Z * Z :=
  match fuel with
  | O => (d, k)
  | S f =>
      if (d mod 10 =? 0) && negb (d =? 0) then strip_zeros f (d / 10) (k + 1)
      else (d, k)
  end.

(** Does the decimal [d * 10 ^ k], of at most 17 digits, read back as the
    positive float [x]? *)
Definition reads_back (x : float) (c : Z * Z) : bool :=
  (0 <? fst c) && (fst c <? 10 ^ 17) &&
  float_eqb (round_dec false (fst c) (snd c)) x.

(** The [n]-digit decimals just below and just above [p / q], when one of
    them reads back as [x]: the nearer one if both do. *)
Definition candidate (x : float) (p q decpt : Z) (n : nat) : option (Z * Z) :=
  let k := decpt - Z.of_nat n in
  let '(a, b) := scale10 p q k in
  let lo := a / b in
  let r := a mod b in
  let clo := strip_zeros 20 lo k in
  let chi := strip_zeros 20 (lo + 1) k in
  match reads_back x clo, reads_back x chi with
  | true, true => Some (if 2 * r <=? b then clo else chi)
  | true, false => Some clo
  | false, true => Some chi
  | false, false => None
  end.

(** The first of [n], [n + 1], ..., [n + fuel - 1] digits to read back. *)
Fixpoint shortest (fuel n : nat) (x : float) (p q decpt : Z) : option (Z * Z) :=
  match fuel with
  | O => None
  | S f =>
      match candidate x p q decpt n with
      | Some c => Some c
      | None => shortest f (S n) x p q decpt
      end
  end.

(** The exact decimal expansion of [m * 2 ^ e]. *)
Definition exact_decimal (m e : Z) : Z * Z :=
  if 0 <=? e then (m * 2 ^ e, 0) else (m * 5 ^ (- e), e).

(** The digits [d] and the exponent [k] that [repr] prints for the positive
    float [m * 2 ^ e]: the shortest decimal [d * 10 ^ k] that reads back
    as that float, found within 17 digits.  The exact expansion stands for
    the case where 17 digits would not be enough, which does not occur for
    a binary64. *)
Definition repr_digits (m : positive) (e : Z) : Z * Z :=
  let '(p, q) := bin_ratio (Zpos m) e in
  let decpt := ilog10_ratio p q + 1 in
  match shortest 17 1 (S754_finite false m e) p q decpt with
  | Some c => c
  | None => exact_decimal (Zpos m) e
  end.

Definition sign_str (neg : bool) : string := if neg then "-" else "".

(** [format_float_short] with format code [r]: scientific notation when
    the decimal point falls more than 16 places right or 3 places left of
    the first digit, and a fractional part always. *)
Definition repr_finite (neg : bool) (d k : Z) : string :=
  let ds := show_digits d in
  let n := Z.of_nat (String.length ds) in
  let decpt := k + n in
  sign_str neg ++
  (if (decpt <=? -4) || (16 <? decpt) then
     let ex := decpt - 1 in
     let mant :=
       match ds with
       | String c EmptyString => ds
       | String c r => String c (String "." r)
       | EmptyString => ds
       end in
     mant ++ "e" ++ (if ex <? 0 then "-" else "+") ++ show_two (Z.abs ex)
   else if decpt <=? 0 then
     "0." ++ zeros (Z.to_nat (- decpt)) ++ ds
   else if decpt <? n then
     take (Z.to_nat decpt) ds ++ "." ++ drop (Z.to_nat decpt) ds
   else
     ds ++ zeros (Z.to_nat (decpt - n)) ++ ".0").

(** [repr(x)], which is also [str(x)]. *)
Definition float_repr (x : float) : string :=
  match x with
  | S754_nan => "nan"
  | S754_infinity s => sign_str s ++ "inf"
  | S754_zero s => sign_str s ++ "0.0"
  | S754_finite s m e =>
      let '(d, k) := repr_digits m e in repr_finite s d k
  end.

(** *** [format(x, '.2f')] *)

Definition float_sign (x : float) : bool :=
  match x with
  | S754_zero s | S754_infinity s | S754_finite s _ _ => s
  | S754_nan => false
  end.

(** Hundredths nearest to the magnitude of [x], ties to even. *)
Definition hundredths (x : float) : Z :=
  match x with
  | S754_finite _ m e =>
      let '(p, q) := bin_ratio (Zpos m) e in round_half_even (100 * p) q
  | _ => 0
  end.

Definition format_2f (x : float) : string :=
  match x with
  | S754_nan => "nan"
  | S754_infinity s => sign_str s ++ "inf"
  | _ =>
      let h := hundredths x in
      sign_str (float_sign x) ++ show_digits (h / 100) ++ "." ++
      show_two (h mod 100)
  end.

(** [float(n)] for the integers the program converts: only 0. *)
Definition of_int_zero : float := S754_zero false.

End PyFloat.

(** ** The [csv] module, default ("excel") dialect

    Delimiter comma, quote character the double quote, doubled inside a
    quoted field, minimal quoting,
    line terminator CR LF, no escape character, not strict. *)

Module Csv.
Import PyStr.

Definition CR : ascii := ascii_of_nat 13.
Definition LF : ascii := ascii_of_nat 10.
Definition DQUOTE : ascii := ascii_of_nat 34.
Definition COMMA : ascii := ",".

(** *** Writer *)

(** Minimal quoting: a field is quoted when it holds the delimiter, the
    quote character or a character of the line terminator. *)
Definition special (c : ascii) : bool :=
  char_eqb c COMMA || char_eqb c DQUOTE || char_eqb c CR || char_eqb c LF.

Fixpoint needs_quotes (s : string) : bool :=
  match s with
  | EmptyString => false
  | String c r => special c || needs_quotes r
  end.

(** The field's characters, each quote character doubled. *)
Fixpoint double_quotes (s : string) : string :=
  match s with
  | EmptyString => EmptyString
  | String c r =>
      if char_eqb c DQUOTE then String c (String c (double_quotes r))
      else String c (double_quotes r)
  end.

Definition write_field (s : string) : string :=
  if needs_quotes s
  then String DQUOTE (double_quotes s ++ String DQUOTE EmptyString)
  else s.

Fixpoint join_fields (fs : list string) : string :=
  match fs with
  | [] => EmptyString
  | [f] => write_field f
  | f :: more => write_field f ++ String COMMA (join_fields more)
  end.

Definition line_terminator : string := String CR (String LF EmptyString).

(** [writer.writerow(fields)]: the text written to the file.  A record
    made of one empty field is written as a pair of quotes. *)
Definition writerow (fs : list string) : string :=
  let rec := join_fields fs in
  (if negb (Nat.eqb (List.length fs) 0) && is_empty rec
   then String DQUOTE (String DQUOTE EmptyString) else rec)
  ++ line_terminator.

(** *** Text-mode reading

    [open(name, 'r')] reads with universal newlines: CR LF and a lone CR
    both arrive as LF, and iterating the file yields the lines, each with
    its LF. *)
Fixpoint universal_newlines (s : string) : string :=
  match s with
  | EmptyString => EmptyString
  | String c r =>
      if char_eqb c CR then
        match r with
        | String d r' =>
            if char_eqb d LF then String LF (universal_newlines r')
            else String LF (universal_newlines r)
        | EmptyString => String LF EmptyString
        end
      else String c (universal_newlines r)
  end.

Fixpoint lines_from (cur : string) (s : string) : list string :=
  match s with
  | EmptyString => if is_empty cur then [] else [cur]
  | String c r =>
      if char_eqb c LF then (cur ++ String c EmptyString) :: lines_from EmptyString r
      else lines_from (cur ++ String c EmptyString) r
  end.

(** The lines a text-mode file object yields for the file content [s]. *)
Definition file_lines (s : string) : list string :=
  lines_from EmptyString (universal_newlines s).

(** *** Reader *)

Inductive state :=
| START_RECORD | START_FIELD | IN_FIELD | IN_QUOTED_FIELD
| QUOTE_IN_QUOTED_FIELD | EAT_CRNL.

Definition state_eqb (a b : state) : bool :=
  match a, b with
  | START_RECORD, START_RECORD | START_FIELD, START_FIELD
  | IN_FIELD, IN_FIELD | IN_QUOTED_FIELD, IN_QUOTED_FIELD
  | QUOTE_IN_QUOTED_FIELD, QUOTE_IN_QUOTED_FIELD | EAT_CRNL, EAT_CRNL => true
  | _, _ => false
  end.

(** [csv.Error] *)
Inductive error :=
| FieldTooLarge      (* field larger than field limit (131072) *)
| NewlineInField.    (* new-line character seen in unquoted field *)

Definition field_limit : Z := 131072.

Record reader := mkReader {
  st : state;
  field : string;          (* the field being read *)
  fields : list string     (* the fields of the record read so far *)
}.

Definition parse_reset : reader := mkReader START_RECORD EmptyString [].

Definition parse_add_char (r : reader) (s : state) (c : ascii) : reader + error :=
  if field_limit <=? Z.of_nat (String.length (field r)) then inr FieldTooLarge
  else inl (mkReader s (field r ++ String c EmptyString) (fields r)).

Definition parse_save_field (r : reader) (s : state) : reader :=
  mkReader s EmptyString (fields r ++ [field r]).

Definition set_state (r : reader) (s : state) : reader :=
  mkReader s (field r) (fields r).

Definition is_newline (c : ascii) : bool := char_eqb c LF || char_eqb c CR.

(** A character of the line, or the end of the line. *)
Definition symbol := option ascii.

Definition start_field (r : reader) (c : symbol) : reader + error :=
  match c with
  | None => inl (parse_save_field r START_RECORD)
  | Some a =>
      if is_newline a then inl (parse_save_field r EAT_CRNL)
      else if char_eqb a DQUOTE then inl (set_state r IN_QUOTED_FIELD)
      else if char_eqb a COMMA then inl (parse_save_field r START_FIELD)
      else parse_add_char r IN_FIELD a
  end.

(** [parse_process_char] *)
Definition parse_process_char (r : reader) (c : symbol) : reader + error :=
  match st r with
  | START_RECORD =>
      match c with
      | None => inl r
      | Some a =>
          if is_newline a then inl (set_state r EAT_CRNL)
          else start_field r c
      end
  | START_FIELD => start_field r c
  | IN_FIELD =>
      match c with
      | None => inl (parse_save_field r START_RECORD)
      | Some a =>
          if is_newline a then inl (parse_save_field r EAT_CRNL)
          else if char_eqb a COMMA then inl (parse_save_field r START_FIELD)
          else parse_add_char r IN_FIELD a
      end
  | IN_QUOTED_FIELD =>
      match c with
      | None => inl r
      | Some a =>
          if char_eqb a DQUOTE then inl (set_state r QUOTE_IN_QUOTED_FIELD)
          else parse_add_char r IN_QUOTED_FIELD a
      end
  | QUOTE_IN_QUOTED_FIELD =>
      match c with
      | None => inl (parse_save_field r START_RECORD)
      | Some a =>
          if char_eqb a DQUOTE then parse_add_char r IN_QUOTED_FIELD a
          else if char_eqb a COMMA then inl (parse_save_field r START_FIELD)
          else if is_newline a then inl (parse_save_field r EAT_CRNL)
          else parse_add_char r IN_FIELD a
      end
  | EAT_CRNL =>
      match c with
      | None => inl (set_state r START_RECORD)
      | Some a => if is_newline a then inl r else inr NewlineInField
      end
  end.

(** The characters of one line. *)
Fixpoint feed (r : reader) (line : string) : reader + error :=
  match line with
  | EmptyString => inl r
  | String c rest =>
      match parse_process_char r (Some c) with
      | inl r' => feed r' rest
      | inr e => inr e
      end
  end.

(** One line and its end. *)
Definition feed_line (r : reader) (line : string) : reader + error :=
  match feed r line with
  | inl r' => parse_process_char r' None
  | inr e => inr e
  end.

(** Iterating [csv.reader(file)]: the records read, and the error that
    stopped the iteration, if any.  A record ends with the line that
    brings the reader back to [START_RECORD]; at the end of the input an
    unfinished field closes the last record. *)
Fixpoint read_lines (ls : list string) (r : reader) : list (list string) * option error :=
  match ls with
  | [] =>
      if negb (is_empty (field r)) || state_eqb (st r) IN_QUOTED_FIELD
      then ([fields (parse_save_field r (st r))], None)
      else ([], None)
  | l :: rest =>
      match feed_line r l with
      | inr e => ([], Some e)
      | inl r' =>
          if state_eqb (st r') START_RECORD then
            let '(recs, e) := read_lines rest parse_reset in
            (fields r' :: recs, e)
          else read_lines rest r'
      end
  end.

Definition reader_rows (ls : list string) : list (list string) * option error :=
  read_lines ls parse_reset.

End Csv.

(** ** Python values and dictionaries

    The values the expense dictionaries hold, and a [dict] as an association
    list in insertion order.  A key is a column name, or [None] (the key
    under which [csv.DictReader] keeps the cells beyond the header). *)

Inductive pyval :=
| VStr (s : string)
| VFloat (x : PyFloat.float)
| VNone
| VList (l : list string).

Definition key := option string.

Definition key_eqb (a b : key) : bool :=
  match a, b with
  | Some x, Some y => String.eqb x y
  | None, None => true
  | _, _ => false
  end.

Definition dict := list (key * pyval).

Fixpoint dict_get (d : dict) (k : key) : option pyval :=
  match d with
  | [] => None
  | (k', v) :: r => if key_eqb k k' then Some v else dict_get r k
  end.

(** [d[k] = v]: an existing key keeps its place. *)
Fixpoint dict_set (d : dict) (k : key) (v : pyval) : dict :=
  match d with
  | [] => [(k, v)]
  | (k', v') :: r =>
      if key_eqb k k' then (k', v) :: r else (k', v') :: dict_set r k v
  end.

Definition dict_mem (d : dict) (k : key) : bool :=
  match dict_get d k with Some _ => true | None => false end.

(** [dict(zip(names, cells))] *)
Fixpoint dict_of_zip (names cells : list string) (d : dict) : dict :=
  match names, cells with
  | n :: ns, c :: cs => dict_of_zip ns cs (dict_set d (Some n) (VStr c))
  | _, _ => d
  end.

(** ** [csv.DictReader] and [csv.DictWriter] *)

Module DictCsv.

(** [DictReader.__next__] on one non-empty record, with the default
    [restkey=None] and [restval=None]. *)
Definition row_dict (fieldnames row : list string) : dict :=
  let d := dict_of_zip fieldnames row [] in
  let lf := List.length fieldnames in
  let lr := List.length row in
  if Nat.ltb lf lr then dict_set d None (VList (skipn lf row))
  else if Nat.ltb lr lf then
    fold_left (fun d k => dict_set d (Some k) VNone) (skipn lr fieldnames) d
  else d.

Definition is_blank (row : list string) : bool :=
  match row with [] => true | _ => false end.

(** Iterating [csv.DictReader(file)]: the first record is the header,
    blank records after it are skipped. *)
Definition rows (ls : list string) : list dict * option Csv.error :=
  match Csv.reader_rows ls with
  | ([], e) => ([], e)
  | (fieldnames :: recs, e) =>
      (map (row_dict fieldnames) (filter (fun r => negb (is_blank r)) recs), e)
  end.

(** The text the writer makes of one cell: a [str] as it is, [None] as the
    empty string, anything else through [str()]. *)
Definition cell_text (v : pyval) : string :=
  match v with
  | VStr s => s
  | VNone => EmptyString
  | VFloat x => PyFloat.float_repr x
  | VList l =>
      (* str() of a list of strings; never asked for: such a value sits
         under the key None, which the writer refuses first *)
      EmptyString
  end.

(** [DictWriter._dict_to_list] with [extrasaction='raise'] and
    [restval='']: [None] stands for the [ValueError] raised when the
    dictionary has a key outside the field names. *)
Definition dict_to_list (fieldnames : list string) (d : dict) : option (list string) :=
  if forallb (fun kv =>
                match fst kv with
                | Some k => existsb (String.eqb k) fieldnames
                | None => false
                end) d
  then Some (map (fun k =>
                    match dict_get d (Some k) with
                    | Some v => cell_text v
                    | None => EmptyString
                    end) fieldnames)
  else None.

End DictCsv.

(** ** [PersonalExpenseTracker] *)

Record tracker := mkTracker {
  expenses : list dict;
  monthly_budget : PyFloat.float
}.

(** The file "expenses.csv": its content, or [None] when it does not exist. *)
Definition file := option string.

Definition fieldnames : list string :=
  ["date"; "category"; "amount"; "description"].

(** Exceptions that leave the loop over the rows in [_load_expenses] and are
    caught by its outer [try], which prints a warning and gives up. *)
Inductive load_error :=
| CsvError (e : Csv.error)
| FloatTypeError.   (* float() argument must be a string or a real number *)

(** [float(v)]: a number, [ValueError] or [TypeError]. *)
Inductive float_result :=
| FloatOk (x : PyFloat.float)
| FloatValueError
| FloatTypeErr.

Definition py_float (v : pyval) : float_result :=
  match v with
  | VStr s =>
      match PyFloat.float_of_str s with
      | Some x => FloatOk x
      | None => FloatValueError
      end
  | VFloat x => FloatOk x
  | VNone | VList _ => FloatTypeErr
  end.

(** The outcome of the body of the loop for one row. *)
Inductive row_outcome :=
| Appended (d : dict)      (* the row joins the expenses *)
| Skipped                  (* continue *)
| Raised (e : load_error). (* an exception the inner try does not catch *)

(** The body of [for row in reader] in [_load_expenses]. *)
Definition load_row (row : dict) : row_outcome :=
  match dict_get row (Some "amount") with
  | None => Skipped                                   (* KeyError *)
  | Some v =>
      match py_float v with
      | FloatValueError => Skipped                    (* ValueError *)
      | FloatTypeErr => Raised FloatTypeError
      | FloatOk x =>
          let row := dict_set row (Some "amount") (VFloat x) in
          if negb (forallb (fun k => dict_mem row (Some k)) fieldnames)
          then Skipped
          else Appended row
      end
  end.

(** The loop over the rows: the rows appended before the first exception
    the inner try does not catch, and that exception. *)
Fixpoint load_rows (rows : list dict) : list dict * option load_error :=
  match rows with
  | [] => ([], None)
  | row :: more =>
      match load_row row with
      | Raised e => ([], Some e)
      | Skipped => load_rows more
      | Appended d => let '(ds, e) := load_rows more in (d :: ds, e)
      end
  end.

(** [_load_expenses]: the tracker after the call, and the exception the
    warning reports when the load gave up.  Nothing is raised to the
    caller. *)
Definition _load_expenses (f : file) (t : tracker) : tracker * option load_error :=
  match f with
  | None => (t, None)
  | Some content =>
      let '(rows, csv_err) := DictCsv.rows (Csv.file_lines content) in
      let '(ds, err) := load_rows rows in
      (mkTracker (expenses t ++ ds)%list (monthly_budget t),
       match err, csv_err with
       | Some e, _ => Some e
       | None, Some e => Some (CsvError e)
       | None, None => None
       end)
  end.

(** [__init__] *)
Definition init (f : file) : tracker * option load_error :=
  _load_expenses f (mkTracker [] (S754_zero false)).

(** The rows written until a row raises [ValueError]. *)
Fixpoint write_rows (ds : list dict) : string * bool :=
  match ds with
  | [] => (EmptyString, true)
  | d :: more =>
      match DictCsv.dict_to_list fieldnames d with
      | None => (EmptyString, false)
      | Some cells =>
          let '(text, ok) := write_rows more in (Csv.writerow cells ++ text, ok)
      end
  end.

(** [_save_expenses]: the value returned and the file after the call.  The
    file is opened for writing, which empties it; what was written before an
    exception stays in it, and [False] is returned. *)
Definition _save_expenses (t : tracker) : bool * file :=
  let '(text, ok) := write_rows (expenses t) in
  (ok, Some (Csv.writerow fieldnames ++ text)).

(** [_validate_date] *)
Definition _validate_date (date_str : string) : bool :=
  match Strptime.strptime date_str with
  | Some _ => true
  | None => false
  end.

(** *** Console

    [input(prompt)] takes the next pending line, or raises [EOFError]
    ([None]) when there is none; what is written to the console is kept as a
    list, one entry for each [print] and each prompt. *)

Definition NL : string := String Csv.LF EmptyString.

Definition console (A : Type) : Type :=
  list string -> option (A * list string * list string).

(** The loops [while True: x = input(prompt).strip(); ...]: [check] gives
    the value that leaves the loop, or the message printed before the next
    round. *)
Fixpoint ask {A : Type} (prompt : string) (check : string -> A + string)
    (inp : list string) : option (A * list string * list string) :=
  match inp with
  | [] => None
  | line :: rest =>
      match check (PyStr.strip line) with
      | inl a => Some (a, rest, [prompt])
      | inr msg =>
          match ask prompt check rest with
          | Some (a, rest', out) => Some (a, rest', prompt :: msg :: out)
          | None => None
          end
      end
  end.

Definition check_date (date : string) : string + string :=
  if _validate_date date then inl date
  else inr "Invalid date format. Please use YYYY-MM-DD.".

Definition check_category (category : string) : string + string :=
  if negb (PyStr.is_empty category) && PyStr.isalpha category
  then inl (PyStr.capitalize category)
  else inr "Category cannot be empty.".

Definition check_amount (amount : string) : PyFloat.float + string :=
  match PyFloat.float_of_str amount with
  | Some x =>
      if PyFloat.fleb x PyFloat.of_int_zero then inr "Amount must be positive."
      else inl x
  | None => inr "Invalid amount. Please enter a number."
  end.

Definition check_description (description : string) : string + string :=
  if negb (PyStr.is_empty description) then inl description
  else inr "Description cannot be empty.".

(** The dictionary literal of [add_expense]. *)
Definition expense (date category : string) (amount : PyFloat.float)
    (description : string) : dict :=
  [(Some "date", VStr date); (Some "category", VStr category);
   (Some "amount", VFloat amount); (Some "description", VStr description)].

(** [add_expense] *)
Definition add_expense (t : tracker) : console tracker := fun inp =>
  match ask "Enter date (DD-MM-YYYY): " check_date inp with
  | None => None
  | Some (date, inp1, out1) =>
  match ask "Enter category (e.g., Food, Travel): " check_category inp1 with
  | None => None
  | Some (category, inp2, out2) =>
  match ask "Enter amount spent: " check_amount inp2 with
  | None => None
  | Some (amount, inp3, out3) =>
  match ask "Enter description: " check_description inp3 with
  | None => None
  | Some (description, inp4, out4) =>
      Some (mkTracker (expenses t ++ [expense date category amount description])%list
                      (monthly_budget t),
            inp4,
            ([(NL ++ "Add New Expense")%string] ++ out1 ++ out2 ++ out3 ++ out4 ++
             ["Expense added successfully!"])%list)
  end end end end.

Definition check_budget (budget : string) : PyFloat.float + string :=
  match PyFloat.float_of_str budget with
  | Some x =>
      if PyFloat.fltb x PyFloat.of_int_zero then inr "Budget must be positive."
      else inl x
  | None => inr "Invalid amount. Please enter a number."
  end.

(** [set_budget] *)
Definition set_budget (t : tracker) : console tracker := fun inp =>
  match ask (NL ++ "Enter your monthly budget: ") check_budget inp with
  | None => None
  | Some (budget, inp1, out1) =>
      Some (mkTracker (expenses t) budget, inp1,
            (out1 ++ [("Monthly budget set to " ++ PyFloat.format_2f budget)%string])%list)
  end.

(** *** Sums

    [sum] starts from the integer 0 and adds the items from left to right;
    the first float turns the total into a float.  Up to CPython 3.11 the
    floats that follow are added to the total one by one.  From CPython 3.12
    on, the rounding error of each of these additions is accumulated next to
    the total (Neumaier's summation) and added to it at the end, unless it
    is zero or not finite.  Both are embedded. *)

Inductive cpython :=
| Before312
| From312.

Inductive number :=
| NInt (n : Z)
| NFloat (x : PyFloat.float).

(** The float an operand becomes in mixed arithmetic; the program has no
    integer other than 0. *)
Definition to_float (n : number) : PyFloat.float :=
  match n with
  | NInt _ => PyFloat.of_int_zero
  | NFloat x => x
  end.

Definition plain_sum (total : PyFloat.float) (xs : list PyFloat.float) : PyFloat.float :=
  fold_left PyFloat.fadd xs total.

(** One round of the loop over floats: the total [f] and the accumulated
    error [c]. *)
Definition compensated_step (st : PyFloat.float * PyFloat.float) (x : PyFloat.float)
    : PyFloat.float * PyFloat.float :=
  let '(f, c) := st in
  let t := PyFloat.fadd f x in
  (t,
   PyFloat.fadd c
     (if PyFloat.fleb (PyFloat.fabs x) (PyFloat.fabs f)
      then PyFloat.fadd (PyFloat.fsub f t) x
      else PyFloat.fadd (PyFloat.fsub x t) f)).

(** [c && isfinite(c)] *)
Definition nonzero_finite (c : PyFloat.float) : bool :=
  match c with
  | S754_finite _ _ _ => true
  | _ => false
  end.

Definition compensated_sum (total : PyFloat.float) (xs : list PyFloat.float)
    : PyFloat.float :=
  let '(f, c) := fold_left compensated_step xs (total, S754_zero false) in
  if nonzero_finite c then PyFloat.fadd f c else f.

Definition py_sum (v : cpython) (xs : list PyFloat.float) : number :=
  match xs with
  | [] => NInt 0
  | x :: more =>
      let total := PyFloat.fadd PyFloat.of_int_zero x in
      NFloat match v with
             | Before312 => plain_sum total more
             | From312 => compensated_sum total more
             end
  end.

(** [expense['amount']] for each expense, when each is a float. *)
Fixpoint amounts (ds : list dict) : option (list PyFloat.float) :=
  match ds with
  | [] => Some []
  | d :: more =>
      match dict_get d (Some "amount"), amounts more with
      | Some (VFloat x), Some xs => Some (x :: xs)
      | _, _ => None
      end
  end.

(** The two figures [track_budget] computes. *)
Definition total_spent (v : cpython) (xs : list PyFloat.float) : number := py_sum v xs.

Definition remaining (v : cpython) (budget : PyFloat.float) (xs : list PyFloat.float)
    : PyFloat.float :=
  PyFloat.fsub budget (to_float (total_spent v xs)).

(** [track_budget]: the lines printed; [None] if an amount is not a number,
    which raises. *)
Definition track_budget (v : cpython) (t : tracker) : option (list string) :=
  if PyFloat.fleb (monthly_budget t) PyFloat.of_int_zero then
    Some [NL ++ "Please set your monthly budget first."]
  else
    match amounts (expenses t) with
    | None => None
    | Some xs =>
        let spent := total_spent v xs in
        let rem := remaining v (monthly_budget t) xs in
        Some [NL ++ "Budget Summary:";
              "Monthly Budget: " ++ PyFloat.format_2f (monthly_budget t);
              "Total Expenses: " ++ PyFloat.format_2f (to_float spent);
              if PyFloat.fleb PyFloat.of_int_zero rem
              then "Remaining Budget: " ++ PyFloat.format_2f rem
              else "⚠️ You've exceeded your budget by " ++
                   PyFloat.format_2f (PyFloat.fabs rem) ++ "!"]
    end.

(** *** [view_expenses] *)

Fixpoint spaces (n : nat) : string :=
  match n with
  | O => EmptyString
  | S n' => String " " (spaces n')
  end.

Fixpoint dashes (n : nat) : string :=
  match n with
  | O => EmptyString
  | S n' => String "-" (dashes n')
  end.

(** [format(s, 'N')] for a string: padded on the right. *)
Definition ljust (s : string) (width : nat) : string :=
  s ++ spaces (width - String.length s).

(** Numbers are padded on the left. *)
Definition rjust (s : string) (width : nat) : string :=
  spaces (width - String.length s) ++ s.

(** [f"{v:N}"] for the cells the rows hold: [None] does not take a width
    ([TypeError], here [None]). *)
Definition format_cell (v : option pyval) (width : nat) : option string :=
  match v with
  | Some (VStr s) => Some (ljust s width)
  | _ => None
  end.

(** [f"{v}"] *)
Definition str_cell (v : option pyval) : option string :=
  match v with
  | Some (VStr s) => Some s
  | Some VNone => Some "None"
  | Some (VFloat x) => Some (PyFloat.float_repr x)
  | _ => None
  end.

Definition format_amount (v : option pyval) : option string :=
  match v with
  | Some (VFloat x) => Some (rjust (PyFloat.format_2f x) 8)
  | _ => None
  end.

Definition view_row (d : dict) : option string :=
  match format_cell (dict_get d (Some "date")) 10,
        format_cell (dict_get d (Some "category")) 15,
        format_amount (dict_get d (Some "amount")),
        str_cell (dict_get d (Some "description")) with
  | Some a, Some b, Some c, Some e => Some (a ++ " | " ++ b ++ " | " ++ c ++ " | " ++ e)
  | _, _, _, _ => None
  end.

Fixpoint view_rows (ds : list dict) : option (list string) :=
  match ds with
  | [] => Some []
  | d :: more =>
      match view_row d, view_rows more with
      | Some l, Some ls => Some (l :: ls)
      | _, _ => None
      end
  end.

(** [view_expenses]: the lines printed, or [None] when formatting a row
    raises. *)
Definition view_expenses (t : tracker) : option (list string) :=
  match expenses t with
  | [] => Some [NL ++ "No expenses recorded yet."]
  | _ =>
      match view_rows (expenses t) with
      | Some rows =>
          Some ([(NL ++ "All Expenses:")%string; dashes 70;
                 (ljust "Date" 10 ++ " | " ++ ljust "Category" 15 ++ " | " ++
                  ljust "Amount" 10 ++ " | Description")%string;
                 dashes 70] ++ rows)%list
      | None => None
      end
  end.

(** *** [show_menu], [run] and [main]

    What the program prints: lines of text, and the two diagnostics whose
    text ends with the message of the exception caught. *)

Module App.

Inductive printed :=
| Line (s : string)
| LoadWarning (e : load_error)   (* Warning: Could not load expenses. ... *)
| SaveError.                     (* Error saving expenses: ... *)

(** The exceptions that leave [run]: [input] at the end of the input, and
    the formatting of a value that is not of the expected type. *)
Inductive exception :=
| EOFError
| TypeError.

(** How [run] ends: it returns after choice 5, with the tracker, the file
    as [_save_expenses] left it, the input not read and what was printed; or
    an exception leaves it, and the file has not been written. *)
Inductive outcome :=
| Exit (t : tracker) (f : file) (rest : list string) (out : list printed)
| Uncaught (e : exception).

(** [show_menu] *)
Definition show_menu : list string :=
  [NL ++ "Personal Expense Tracker";
   "1. Add Expense";
   "2. View Expenses";
   "3. Set Monthly Budget";
   "4. Track Budget";
   "5. Save & Exit"].

(** What was printed before, put in front of what follows. *)
Definition printing (out : list printed) (o : option outcome) : option outcome :=
  match o with
  | Some (Exit t f rest out') => Some (Exit t f rest (out ++ out')%list)
  | _ => o
  end.

(** [input("\nPress Enter to continue...")] at the end of a round. *)
Definition press_enter (inp : list string)
    (next : list string -> option outcome) : option outcome :=
  match inp with
  | [] => Some (Uncaught EOFError)
  | _ :: inp' => printing [Line (NL ++ "Press Enter to continue...")] (next inp')
  end.

(** The loop of [run]; [fuel] bounds the number of rounds, and [None] is
    the loop cut short by it. *)
Fixpoint run_loop (fuel : nat) (v : cpython) (t : tracker) (inp : list string)
    : option outcome :=
  match fuel with
  | O => None
  | S fuel' =>
      match inp with
      | [] => Some (Uncaught EOFError)
      | line :: inp1 =>
          let choice := PyStr.strip line in
          printing (map Line show_menu ++ [Line "Enter your choice (1-5): "])%list
            (if String.eqb choice "1" then
               match add_expense t inp1 with
               | None => Some (Uncaught EOFError)
               | Some (t', inp2, out) =>
                   printing (map Line out) (press_enter inp2 (run_loop fuel' v t'))
               end
             else if String.eqb choice "2" then
               match view_expenses t with
               | None => Some (Uncaught TypeError)
               | Some out =>
                   printing (map Line out) (press_enter inp1 (run_loop fuel' v t))
               end
             else if String.eqb choice "3" then
               match set_budget t inp1 with
               | None => Some (Uncaught EOFError)
               | Some (t', inp2, out) =>
                   printing (map Line out) (press_enter inp2 (run_loop fuel' v t'))
               end
             else if String.eqb choice "4" then
               match track_budget v t with
               | None => Some (Uncaught TypeError)
               | Some out =>
                   printing (map Line out) (press_enter inp1 (run_loop fuel' v t))
               end
             else if String.eqb choice "5" then
               let '(ok, f) := _save_expenses t in
               Some (Exit t f inp1
                       (if ok
                        then [Line (NL ++ "Expenses saved successfully. Goodbye!")]
                        else [SaveError;
                              Line (NL ++ "Warning: Expenses may not have saved correctly.")]))
             else
               printing [Line "Invalid choice. Please enter a number between 1-5."]
                 (press_enter inp1 (run_loop fuel' v t)))
      end
  end.

(** [run]: every round reads at least one line, so that one round more
    than there are lines is enough. *)
Definition run (v : cpython) (t : tracker) (inp : list string) : option outcome :=
  run_loop (S (List.length inp)) v t inp.

(** [main]: the tracker is made from the file, then run. *)
Definition main (v : cpython) (f : file) (inp : list string) : option outcome :=
  let '(t, err) := init f in
  printing (match err with
            | Some e => [LoadWarning e]
            | None => []
            end)
    (run v t inp).

(** The file after the program has ended. *)
Definition file_after (f : file) (o : outcome) : file :=
  match o with
  | Exit _ f' _ _ => f'
  | Uncaught _ => f
  end.

End App.

(** ** Expenses as records

    The four values of an expense dictionary, to state properties of the
    well-formed ones. *)

Record entry := mkEntry {
  e_date : string;
  e_category : string;
  e_amount : PyFloat.float;
  e_description : string
}.

Definition to_dict (e : entry) : dict :=
  expense (e_date e) (e_category e) (e_amount e) (e_description e).

(** The cells [_save_expenses] writes for an expense. *)
Definition cells (e : entry) : list string :=
  [e_date e; e_category e; PyFloat.float_repr (e_amount e); e_description e].

Fixpoint concat_str (l : list string) : string :=
  match l with
  | [] => EmptyString
  | s :: more => s ++ concat_str more
  end.

(** ** Shapes of date strings

    Used to state what [_validate_date] accepts: they are not part of the
    program. *)

Module DateShape.
Import PyStr.


(** A day: one digit from 1 to 9, alone or after a space, or two digits
    that read as a number from 1 to 31. *)
Definition day_text (d : string) : bool :=
  match d with
  | String a EmptyString => in_range 49 57 a
  | String a (String b EmptyString) =>
      (char_eqb a " " && in_range 49 57 b) ||
      (isdigit a && isdigit b && (1 <=? digits_val d) && (digits_val d <=? 31))
  | _ => false
  end.

(** A month: one digit from 1 to 9, or two digits that read as a number
    from 1 to 12. *)
Definition month_text (m : string) : bool :=
  match m with
  | String a EmptyString => in_range 49 57 a
  | String a (String b EmptyString) =>
      isdigit a && isdigit b && (1 <=? digits_val m) && (digits_val m <=? 12)
  | _ => false
  end.

(** A year: four digits. *)
Definition year_text (y : string) : bool :=
  match y with
  | String a (String b (String c (String d EmptyString))) =>
      isdigit a && isdigit b && isdigit c && isdigit d
  | _ => false
  end.

End DateShape.

(** ** Notions used to state and prove the properties

    None of them is part of the program. *)

Section Notions.
Import PyStr Csv.

(** An entry at a prompt that [check] refuses. *)
Definition rejected {A : Type} (check : string -> A + string) (line : string) : Prop :=
  exists msg, check (strip line) = inr msg.


(** [2 ^ a <= p / q], for positive [p] and [q]. *)
Definition le2 (a p q : Z) : Prop :=
  if 0 <=? a then q * 2 ^ a <= p else q <= p * 2 ^ (- a).

Definition all_digits (s : string) : Prop := forallb_str isdigit s = true.

(** The characters of the numerals [repr] prints. *)
Definition numeric_char (c : ascii) : bool :=
  isdigit c || char_eqb c "." || char_eqb c "e" || char_eqb c "+" || char_eqb c "-".

Definition numeric (s : string) : Prop := forallb_str numeric_char s = true.

Definition no_digit_head (s : string) : Prop :=
  match s with
  | String c _ => isdigit c = false
  | EmptyString => True
  end.

Definition no_cr (s : string) : Prop :=
  forallb_str (fun c => negb (char_eqb c Csv.CR)) s = true.

(** A field the file can carry: no carriage return, which text-mode reading
    would turn into a line feed, and no more characters than the reader's
    field limit. *)
Definition storable (f : string) : Prop :=
  no_cr f /\ Z.of_nat (String.length f) <= field_limit.

(** [read_lines] over the lines of a text, as one pass over the text: the
    end of a line is processed after each line feed, and after the last
    character if the text does not end with one ([mid]). *)
Fixpoint read_text (s : string) (mid : bool) (r : reader) : list (list string) * option error :=
  match s with
  | EmptyString =>
      if mid then
        match parse_process_char r None with
        | inr e => ([], Some e)
        | inl r' =>
            if state_eqb (st r') START_RECORD then ([fields r'], None)
            else read_lines [] r'
        end
      else read_lines [] r
  | String c s' =>
      match parse_process_char r (Some c) with
      | inr e => ([], Some e)
      | inl r1 =>
          if char_eqb c LF then
            match parse_process_char r1 None with
            | inr e => ([], Some e)
            | inl r2 =>
                if state_eqb (st r2) START_RECORD then
                  let '(recs, e) := read_text s' false parse_reset in
                  (fields r2 :: recs, e)
                else read_text s' false r2
            end
          else read_text s' true r1
      end
  end.

(** The characters of a text that stay inside one record. *)
Fixpoint run (r : reader) (s : string) : option reader :=
  match s with
  | EmptyString => Some r
  | String c s' =>
      match parse_process_char r (Some c) with
      | inr _ => None
      | inl r1 =>
          if char_eqb c LF then
            match parse_process_char r1 None with
            | inr _ => None
            | inl r2 =>
                if state_eqb (st r2) START_RECORD then None else run r2 s'
            end
          else run r1 s'
      end
  end.

(** Where the reader stands after the text of a field. *)
Definition after_field (r0 r1 : reader) (f : string) : Prop :=
  fields r1 = fields r0 /\
  ((st r1 = IN_FIELD /\ field r1 = f) \/
   (r1 = r0 /\ f = "") \/
   (st r1 = QUOTE_IN_QUOTED_FIELD /\ field r1 = f)).

Definition at_field_start (r : reader) : Prop :=
  (st r = START_FIELD \/ st r = START_RECORD) /\ field r = "".

Definition fits (f : string) : Prop := Z.of_nat (String.length f) <= field_limit.

(** A record of at least two fields, each of which the file can carry. *)
Definition row_ok (fl : list string) : Prop :=
  (2 <= List.length fl)%nat /\ Forall storable fl.

(** A well-formed expense, in the terms of the checks of [add_expense]: a
    date [_validate_date] accepts, an alphabetic category, a float above
    zero as the amount and a non-empty description; and with a category and
    a description that the file can carry. *)
Definition wf_entry (e : entry) : Prop :=
  _validate_date (e_date e) = true /\
  isalpha (e_category e) = true /\ fits (e_category e) /\
  PyFloat.binary64 (e_amount e) /\
  PyFloat.fltb PyFloat.of_int_zero (e_amount e) = true /\
  e_description e <> "" /\ storable (e_description e).

End Notions.

(** ** Sample data used by the examples below *)

Definition header_line : string := "date,category,amount,description" ++ NL.

(** A file as [_save_expenses] leaves it, with two expenses that sum to 120. *)
Definition file_120 : string :=
  "date,category,amount,description" ++ Csv.line_terminator ++
  "05-03-2024,Food,70.0,lunch" ++ Csv.line_terminator ++
  "06-03-2024,Travel,50.0,bus" ++ Csv.line_terminator.

(** The tracker loaded from that file, with the budget set to 100. *)
Definition tracker_120 : tracker :=
  match set_budget (fst (init (Some file_120))) ["100"] with
  | Some (t, _, _) => t
  | None => fst (init None)
  end.

(** A file whose only row has a negative amount and an impossible date. *)
Definition file_bad_row : string :=
  header_line ++ "99-99-2024,Food,-5,refund" ++ NL.

(** A file whose first row stops after the category, followed by a
    well-formed row. *)
Definition file_short_row : string :=
  header_line ++ "05-03-2024,Food" ++ NL ++ "06-03-2024,Travel,50.0,bus" ++ NL.

(** A file whose only row has no description cell. *)
Definition file_no_description : string :=
  header_line ++ "05-03-2024,Food,70.0" ++ NL.




(** Three amounts: one eighth, ten, and a tenth plus two tenths. *)
Definition eighth : PyFloat.float := S754_finite false 4503599627370496 (-55).
Definition ten : PyFloat.float := S754_finite false 5629499534213120 (-49).
Definition three_tenths : PyFloat.float := S754_finite false 5404319552844596 (-54).

(** One tenth, as [float] reads it. *)
Definition tenth : PyFloat.float := S754_finite false 7205759403792794 (-56).


(** Two well-formed expenses; the second description holds a comma, quote
    characters and a line feed. *)
Definition entries_quoted : list entry :=
  [mkEntry "05-03-2024" "Food" eighth "tea, milk";
   mkEntry "6-3-2024" "Travel" three_tenths
     ("bus " ++ String Csv.DQUOTE ("42" ++ String Csv.DQUOTE
        ("," ++ String Csv.LF "and back")))].

(** ** Notions used by the further properties

    None of them is part of the program. *)

(** An expense that went through the checks of [add_expense]. *)
Definition checked (d : dict) : Prop :=
  exists date category amount description,
    d = expense date category amount description /\
    _validate_date date = true /\
    PyStr.isalpha category = true /\
    PyFloat.fleb amount PyFloat.of_int_zero = false /\
    description <> "".

(** An expense that [view_expenses] can print and [track_budget] can add up. *)
Definition presentable (d : dict) : Prop :=
  (exists line, view_row d = Some line) /\
  (exists x, dict_get d (Some "amount") = Some (VFloat x)).

(** A file that is absent, or that starts with the header line as
    [_save_expenses] writes it or as a text editor would. *)
Definition with_header (f : file) : Prop :=
  match f with
  | None => True
  | Some content =>
      exists eol rest,
        (eol = NL \/ eol = Csv.line_terminator) /\
        content = "date,category,amount,description" ++ eol ++ rest
  end.


(** An expense as the loop of [_load_expenses] leaves it: the four columns
    are there and the amount is a float. *)
Definition loaded_ok (d : dict) : Prop :=
  (exists x, dict_get d (Some "amount") = Some (VFloat x)) /\
  Forall (fun k => dict_mem d (Some k) = true) fieldnames.


(** The text [_save_expenses] writes for expenses. *)
Definition saved_rows (es : list entry) : string :=
  concat_str (map (fun e => Csv.writerow (cells e)) es).


(** Text made of blanks only. *)
Definition blank (s : string) : Prop := PyStr.forallb_str PyStr.isspace s = true.

Definition first_char (s : string) : option ascii :=
  match s with
  | EmptyString => None
  | String c _ => Some c
  end.

Fixpoint last_char (s : string) : option ascii :=
  match s with
  | EmptyString => None
  | String c EmptyString => Some c
  | String _ r => last_char r
  end.

(** Text that neither starts nor ends with a blank. *)
Definition trimmed (s : string) : Prop :=
  (forall c, first_char s = Some c -> PyStr.isspace c = false) /\
  (forall c, last_char s = Some c -> PyStr.isspace c = false).

(** ** Sample data used by the further properties *)


(** A file whose header names the first column [Date]. *)
Definition file_other_header : string :=
  "Date,category,amount,description" ++ NL ++ "05-03-2024,Food,70.0,lunch" ++ NL.


(** * Properties *)

Example strptime_padded : Strptime.strptime "05-03-2024" = Some (2024, 3, 5).
Proof. reflexivity. Qed.

Example strptime_unpadded : Strptime.strptime "5-3-2024" = Some (2024, 3, 5).
Proof. reflexivity. Qed.

Example strptime_feb31 : Strptime.strptime "31-02-2024" = None.
Proof. reflexivity. Qed.

(** ** The empty ledger *)

(** C9. Constructing the tracker when "expenses.csv" does not exist raises
    nothing and reports nothing, and yields an empty ledger with the budget
    unset: the list of expenses is empty, the sum of the amounts is 0, and
    viewing the expenses shows that none is recorded. *)
Theorem init_without_file (v : cpython) :
  init None = (mkTracker [] (S754_zero false), None) /\
  expenses (fst (init None)) = [] /\
  option_map (total_spent v) (amounts (expenses (fst (init None)))) = Some (NInt 0) /\
  view_expenses (fst (init None)) = Some [(NL ++ "No expenses recorded yet.")%string].
Proof. repeat split. Qed.

(** ** Budget *)


(** Ten tenths, summed by the two versions of [sum]. *)
Example py_sum_versions :
  PyFloat.float_of_str "0.1" = Some tenth /\
  PyFloat.float_repr (to_float (py_sum Before312 (repeat tenth 10))) =
    "0.9999999999999999" /\
  PyFloat.float_repr (to_float (py_sum From312 (repeat tenth 10))) = "1.0".
Proof. repeat split; vm_compute; reflexivity. Qed.



(** C4 (the code departs from it). [set_budget] accepts the entry 0: the
    budget it stores is the value a tracker has before any budget is set,
    and [track_budget] then answers that no budget has been configured,
    as it does for a tracker whose budget was never set. *)
Theorem set_budget_zero_is_unset (v : cpython) (t : tracker) :
  exists out,
    set_budget t ["0"] = Some (mkTracker (expenses t) (S754_zero false), [], out) /\
    monthly_budget (fst (init None)) = S754_zero false /\
    track_budget v (mkTracker (expenses t) (S754_zero false)) =
      Some [NL ++ "Please set your monthly budget first."] /\
    track_budget v (fst (init None)) =
      Some [NL ++ "Please set your monthly budget first."].
Proof. eexists. repeat split. Qed.

(** ** Loading *)

(** C2 (the code departs from it). A row whose amount is negative and whose
    date [_validate_date] refuses is loaded into the ledger as it is. *)
Theorem load_keeps_invalid_row :
  init (Some file_bad_row) =
    (mkTracker
       [[(Some "date", VStr "99-99-2024"); (Some "category", VStr "Food");
         (Some "amount", VFloat (S754_finite true 5629499534213120 (-50)));
         (Some "description", VStr "refund")]]
       (S754_zero false),
     None) /\
  _validate_date "99-99-2024" = false /\
  PyFloat.float_of_str "-5" = Some (S754_finite true 5629499534213120 (-50)) /\
  PyFloat.fleb (S754_finite true 5629499534213120 (-50)) PyFloat.of_int_zero = true.
Proof. repeat split. Qed.

(** C3 (the code departs from it). A row that stops before the amount makes
    [float] raise [TypeError], which the inner [try] does not catch: the
    load gives up there, and the well-formed row after it is not loaded.  A
    row that only lacks its description is loaded, with [None] as its
    description. *)
Theorem load_short_rows :
  init (Some file_short_row) = (mkTracker [] (S754_zero false), Some FloatTypeError) /\
  init (Some file_no_description) =
    (mkTracker
       [[(Some "date", VStr "05-03-2024"); (Some "category", VStr "Food");
         (Some "amount", VFloat (S754_finite false 4925812092436480 (-46)));
         (Some "description", VNone)]]
       (S754_zero false),
     None).
Proof. split; reflexivity. Qed.

(** ** Adding an expense *)

Section Ask.
Context {A : Type} (prompt : string) (check : string -> A + string).

(** A prompt loop that ends has skipped the entries [check] refuses and
    stopped at the first one it accepts. *)
Lemma ask_inv (inp : list string) (a : A) (rest out : list string) :
  ask prompt check inp = Some (a, rest, out) ->
  exists pre line,
    inp = (pre ++ line :: rest)%list /\
    check (PyStr.strip line) = inl a /\
    Forall (rejected check) pre.
Proof.
  revert out. induction inp as [|l inp IH]; simpl; intros out H; [discriminate|].
  destruct (check (PyStr.strip l)) as [a'|msg] eqn:E.
  - injection H as <- <- <-. exists [], l. auto.
  - destruct (ask prompt check inp) as [[[a' r'] o']|] eqn:E'; [|discriminate].
    injection H as <- <- <-.
    destruct (IH _ eq_refl) as (pre & line & -> & Hc & Hpre).
    exists (l :: pre), line. repeat split; auto.
    constructor; auto. exists msg; exact E.
Qed.


End Ask.

Lemma is_empty_false (s : string) : PyStr.is_empty s = false <-> s <> "".
Proof. destruct s; simpl; split; congruence. Qed.

Lemma check_date_inl (s d : string) :
  check_date s = inl d <-> d = s /\ _validate_date s = true.
Proof.
  unfold check_date. destruct (_validate_date s); split.
  - intros [= <-]; auto.
  - intros [-> _]; reflexivity.
  - discriminate.
  - intros [_ H]; discriminate.
Qed.

Lemma check_category_inl (s c : string) :
  check_category s = inl c <->
  c = PyStr.capitalize s /\ s <> "" /\ PyStr.forallb_str PyStr.isalpha_char s = true.
Proof.
  unfold check_category, PyStr.isalpha.
  destruct s as [|a r]; simpl.
  - split; [discriminate | intros (_ & H & _); congruence].
  - destruct (PyStr.isalpha_char a && PyStr.forallb_str PyStr.isalpha_char r); split.
    + intros [= <-]. repeat split. discriminate.
    + intros (-> & _); reflexivity.
    + discriminate.
    + intros (_ & _ & H); discriminate.
Qed.

Lemma check_amount_inl (s : string) (x : PyFloat.float) :
  check_amount s = inl x <->
  PyFloat.float_of_str s = Some x /\ PyFloat.fleb x PyFloat.of_int_zero = false.
Proof.
  unfold check_amount. destruct (PyFloat.float_of_str s) as [y|].
  - destruct (PyFloat.fleb y PyFloat.of_int_zero) eqn:E; split.
    + discriminate.
    + intros [[= ->] H]; congruence.
    + intros [= <-]; auto.
    + intros [[= ->] _]; reflexivity.
  - split; [discriminate | intros [H _]; discriminate].
Qed.

Lemma check_description_inl (s d : string) :
  check_description s = inl d <-> d = s /\ s <> "".
Proof.
  unfold check_description. destruct s; simpl; split.
  - discriminate.
  - intros [_ H]; congruence.
  - intros [= <-]; split; [reflexivity | discriminate].
  - intros [-> _]; reflexivity.
Qed.



(** The test [amount <= 0] lets a NaN through, which is not above zero. *)
Example add_expense_admits_nan :
  add_expense (fst (init None)) ["01-01-2024"; "Food"; "nan"; "x"] =
    Some (mkTracker [expense "01-01-2024" "Food" S754_nan "x"] (S754_zero false), [],
          [(NL ++ "Add New Expense")%string; "Enter date (DD-MM-YYYY): ";
           "Enter category (e.g., Food, Travel): "; "Enter amount spent: ";
           "Enter description: "; "Expense added successfully!"]) /\
  PyFloat.fltb PyFloat.of_int_zero S754_nan = false.
Proof. split; reflexivity. Qed.

(** ** Categories *)

Ltac by_cases_on_char a :=
  destruct a as [[] [] [] [] [] [] [] []]; vm_compute;
  intros; (discriminate || (repeat split; reflexivity)).

Lemma upper_char_spec (a : ascii) :
  PyStr.isalpha_char a = true ->
  PyStr.isupper (PyStr.upper_char a) = true /\
  PyStr.lower_char (PyStr.upper_char a) = PyStr.lower_char a.
Proof. by_cases_on_char a. Qed.

Lemma lower_char_spec (a : ascii) :
  PyStr.isalpha_char a = true ->
  PyStr.islower (PyStr.lower_char a) = true /\
  PyStr.lower_char (PyStr.lower_char a) = PyStr.lower_char a.
Proof. by_cases_on_char a. Qed.



(** ** Dates *)

Section CharCodes.
Import PyStr.

Lemma code_inj (a b : ascii) : code a = code b -> a = b.
Proof.
  unfold code. intros H. apply Nat2Z.inj in H.
  rewrite <- (ascii_nat_embedding a), <- (ascii_nat_embedding b), H.
  reflexivity.
Qed.

Lemma char_eqb_code (a b : ascii) : char_eqb a b = (code a =? code b).
Proof.
  unfold char_eqb. destruct (Ascii.eqb_spec a b) as [->|N].
  - symmetry. apply Z.eqb_refl.
  - symmetry. apply Z.eqb_neq. intros H. apply N, code_inj, H.
Qed.

Lemma code_range (a : ascii) : 0 <= code a < 256.
Proof.
  unfold code. pose proof (nat_ascii_bounded a). lia.
Qed.

End CharCodes.

(** Character tests as arithmetic on character codes. *)
Ltac to_codes :=
  unfold DateShape.day_text, DateShape.month_text, DateShape.year_text,
    Strptime.lit, PyStr.isdigit, PyStr.in_range,
    PyStr.digits_val, PyStr.digits_val_acc, PyStr.digit_val in *;
  rewrite ?char_eqb_code in *;
  change (PyStr.code " ") with 32 in *;
  change (PyStr.code "-") with 45 in *;
  change (PyStr.code "0") with 48 in *;
  change (PyStr.code "1") with 49 in *;
  change (PyStr.code "3") with 51 in *;
  rewrite ?orb_true_iff, ?andb_true_iff, ?Z.leb_le, ?Z.eqb_eq in *.

Lemma append_nil_r_str (s : string) : s ++ "" = s.
Proof. induction s as [|c s IH]; simpl; [|rewrite IH]; reflexivity. Qed.

Section Matching.
Import Strptime DateShape.

Lemma first_match_app {A : Type} (l1 l2 : list split) (k : string -> string -> option A) :
  first_match (l1 ++ l2) k =
    match first_match l1 k with
    | Some r => Some r
    | None => first_match l2 k
    end.
Proof.
  induction l1 as [|[m rest] l1 IH]; simpl; [reflexivity|].
  destruct (k m rest); auto.
Qed.

Lemma first_match_some {A : Type} (alts : list split) (k : string -> string -> option A) r :
  first_match alts k = Some r ->
  exists m rest, In (m, rest) alts /\ k m rest = Some r.
Proof.
  induction alts as [|[m rest] alts IH]; simpl; [discriminate|].
  destruct (k m rest) eqn:E.
  - intros [= <-]. eauto.
  - intros H. destruct (IH H) as (m' & rest' & Hin & Hk). eauto.
Qed.


Lemma two_in p1 p2 s d rest :
  In (d, rest) (two p1 p2 s) <->
  exists a b, d = String a (String b EmptyString) /\ s = String a (String b rest) /\
              p1 a = true /\ p2 b = true.
Proof.
  unfold two. split.
  - destruct s as [|a [|b r]]; simpl; try tauto.
    destruct (p1 a) eqn:E1, (p2 b) eqn:E2; simpl; try tauto.
    intros [H|[]]. injection H as <- <-. exists a, b. auto.
  - intros (a & b & -> & -> & -> & ->). simpl. auto.
Qed.

Lemma one_in p s d rest :
  In (d, rest) (one p s) <->
  exists a, d = String a EmptyString /\ s = String a rest /\ p a = true.
Proof.
  unfold one. split.
  - destruct s as [|a r]; simpl; try tauto.
    destruct (p a) eqn:E; simpl; try tauto.
    intros [H|[]]. injection H as <- <-. exists a. auto.
  - intros (a & -> & -> & ->). simpl. auto.
Qed.

Lemma re_d_in s d rest :
  In (d, rest) (re_d s) <-> s = d ++ rest /\ day_text d = true.
Proof.
  unfold re_d. rewrite !in_app_iff, !two_in, one_in. split.
  - intros [H|[H|[H|[H|H]]]];
      [destruct H as (a & b & -> & -> & H1 & H2) ..
      |destruct H as (a & -> & -> & H1)
      |destruct H as (a & b & -> & -> & H1 & H2)];
      (split; [reflexivity|]); to_codes; lia.
  - intros [-> H]. destruct d as [|a [|b [|c d]]]; try discriminate.
    + right; right; right; left. exists a. auto.
    + assert (C : PyStr.code a = 32 \/ PyStr.code a = 48 \/ PyStr.code a = 49 \/
                  PyStr.code a = 50 \/ PyStr.code a = 51)
        by (to_codes; lia).
      destruct C as [C|[C|[C|[C|C]]]].
      * right; right; right; right. exists a, b. to_codes. repeat split; lia.
      * right; right; left. exists a, b. to_codes. repeat split; lia.
      * right; left. exists a, b. to_codes. repeat split; lia.
      * right; left. exists a, b. to_codes. repeat split; lia.
      * left. exists a, b. to_codes. repeat split; lia.
Qed.

Lemma re_m_in s m rest :
  In (m, rest) (re_m s) <-> s = m ++ rest /\ month_text m = true.
Proof.
  unfold re_m. rewrite !in_app_iff, !two_in, one_in. split.
  - intros [H|[H|H]];
      [destruct H as (a & b & -> & -> & H1 & H2) ..
      |destruct H as (a & -> & -> & H1)];
      (split; [reflexivity|]); to_codes; lia.
  - intros [-> H]. destruct m as [|a [|b [|c m]]]; try discriminate.
    + right; right. exists a. auto.
    + assert (C : PyStr.code a = 48 \/ PyStr.code a = 49) by (to_codes; lia).
      destruct C as [C|C].
      * right; left. exists a, b. to_codes. repeat split; lia.
      * left. exists a, b. to_codes. repeat split; lia.
Qed.

Lemma re_Y_in s y rest :
  In (y, rest) (re_Y s) <-> s = y ++ rest /\ year_text y = true.
Proof.
  unfold re_Y, year_text. split.
  - destruct s as [|a [|b [|c [|d r]]]]; simpl; try tauto.
    destruct (PyStr.isdigit a && PyStr.isdigit b && PyStr.isdigit c && PyStr.isdigit d) eqn:E;
      simpl; try tauto.
    intros [H|[]]. injection H as <- <-. rewrite E. auto.
  - intros [-> H]. destruct y as [|a [|b [|c [|d [|e y]]]]]; try discriminate.
    simpl. rewrite H. simpl. auto.
Qed.

Lemma dash_some s r : dash s = Some r <-> s = String "-" r.
Proof.
  unfold dash, lit. destruct s as [|c s]; [split; discriminate|].
  unfold PyStr.char_eqb. destruct (Ascii.eqb_spec "-" c) as [<-|N]; split.
  - intros [= ->]. reflexivity.
  - intros [= ->]. reflexivity.
  - discriminate.
  - intros [= E _]. congruence.
Qed.





(** What the regular expression matches. *)
Lemma regex_match_sound s d m y rest :
  regex_match s = Some (d, m, y, rest) ->
  s = d ++ "-" ++ m ++ "-" ++ y ++ rest /\
  day_text d = true /\ month_text m = true /\ year_text y = true.
Proof.
  unfold regex_match. intros H.
  apply first_match_some in H as (d' & r1 & Hd & H).
  destruct (dash r1) as [r2|] eqn:E1; [|discriminate].
  apply first_match_some in H as (m' & r3 & Hm & H).
  destruct (dash r3) as [r4|] eqn:E2; [|discriminate].
  apply first_match_some in H as (y' & r5 & Hy & H).
  injection H as -> -> -> ->.
  apply re_d_in in Hd as [-> Hd]. apply dash_some in E1 as ->.
  apply re_m_in in Hm as [-> Hm]. apply dash_some in E2 as ->.
  apply re_Y_in in Hy as [-> Hy]. auto.
Qed.


End Matching.

(** The parts of a string [_validate_date] accepts. *)
Lemma validate_date_parts (s : string) :
  _validate_date s = true ->
  exists d m y,
    s = d ++ "-" ++ m ++ "-" ++ y /\
    DateShape.day_text d = true /\
    DateShape.month_text m = true /\
    DateShape.year_text y = true /\
    Strptime.date_ok (Strptime.int_of_group y) (Strptime.int_of_group m)
                     (Strptime.int_of_group d) = true.
Proof.
  unfold _validate_date, Strptime.strptime.
  destruct (Strptime.regex_match s) as [[[[d m] y] rest]|] eqn:E; [|discriminate].
  apply regex_match_sound in E as (-> & Hd & Hm & Hy).
  destruct rest; simpl; [|discriminate].
  destruct (Strptime.date_ok _ _ _) eqn:Hok; [|discriminate].
  intros _. exists d, m, y. rewrite append_nil_r_str. auto.
Qed.



(** ** Saving *)

Lemma write_rows_entries (es : list entry) :
  write_rows (map to_dict es) =
    (concat_str (map (fun e => Csv.writerow (cells e)) es), true).
Proof.
  induction es as [|e es IH]; [reflexivity|].
  cbn [map write_rows]. rewrite IH. reflexivity.
Qed.



(** ** Rounding to binary64 *)

Section Rounding.
Import PyFloat.

Lemma pow2_pos (a : Z) : 0 <= a -> 0 < 2 ^ a.
Proof. intros; apply Z.pow_pos_nonneg; lia. Qed.

Lemma pow2_split (a b : Z) : 0 <= a -> 0 <= b -> 2 ^ (a + b) = 2 ^ a * 2 ^ b.
Proof. intros; apply Z.pow_add_r; lia. Qed.

Lemma le2_mono (a b p q : Z) :
  0 < p -> 0 < q -> a <= b -> le2 b p q -> le2 a p q.
Proof.
  unfold le2. intros Hp Hq Hab.
  destruct (0 <=? a) eqn:Ea, (0 <=? b) eqn:Eb;
    rewrite ?Z.leb_le, ?Z.leb_gt in *; try lia; intros H.
  - replace b with (a + (b - a)) in H by lia.
    rewrite pow2_split in H by lia.
    pose proof (pow2_pos a ltac:(lia)). pose proof (pow2_pos (b - a) ltac:(lia)). nia.
  - pose proof (pow2_pos b ltac:(lia)). pose proof (pow2_pos (- a) ltac:(lia)). nia.
  - replace (- a) with (- b + (b - a)) by lia.
    rewrite pow2_split by lia.
    pose proof (pow2_pos (- b) ltac:(lia)). pose proof (pow2_pos (b - a) ltac:(lia)). nia.
Qed.

Lemma le2_scale (c a p q : Z) :
  0 < c -> (le2 a (c * p) (c * q) <-> le2 a p q).
Proof.
  unfold le2. intros Hc. destruct (0 <=? a); split; intros H; nia.
Qed.

Lemma ilog2_ratio_spec (p q : Z) :
  0 < p -> 0 < q ->
  le2 (ilog2_ratio p q) p q /\ ~ le2 (ilog2_ratio p q + 1) p q.
Proof.
  intros Hp Hq. unfold ilog2_ratio.
  pose proof (Z.log2_spec p Hp) as [Hp1 Hp2].
  pose proof (Z.log2_spec q Hq) as [Hq1 Hq2].
  pose proof (Z.log2_nonneg p) as Hlp. pose proof (Z.log2_nonneg q) as Hlq.
  set (A := Z.log2 p) in *. set (B := Z.log2 q) in *.
  rewrite <- Z.add_1_r in Hp2, Hq2.
  set (l := A - B).
  assert (Hge : (if 0 <=? l then q * 2 ^ l <=? p else q <=? p * 2 ^ (- l)) = true <-> le2 l p q).
  { unfold le2. destruct (0 <=? l); apply Z.leb_le. }
  destruct (if 0 <=? l then q * 2 ^ l <=? p else q <=? p * 2 ^ (- l)) eqn:E.
  - split; [apply Hge; reflexivity|].
    unfold le2. destruct (0 <=? l + 1) eqn:E1; rewrite ?Z.leb_le, ?Z.leb_gt in E1.
    + assert (H : 2 ^ (A + 1) = 2 ^ B * 2 ^ (l + 1)).
      { rewrite <- pow2_split by lia. f_equal. lia. }
      pose proof (pow2_pos (l + 1) ltac:(lia)). nia.
    + assert (H : 2 ^ B = 2 ^ (A + 1) * 2 ^ (- (l + 1))).
      { rewrite <- pow2_split by lia. f_equal. lia. }
      pose proof (pow2_pos (- (l + 1)) ltac:(lia)). nia.
  - assert (Hn : ~ le2 l p q) by (intros H; apply Hge in H; discriminate).
    replace (l - 1 + 1) with l by lia. split; [|exact Hn].
    unfold le2. destruct (0 <=? l - 1) eqn:E1; rewrite ?Z.leb_le, ?Z.leb_gt in E1.
    + assert (H : 2 ^ A = 2 ^ (B + 1) * 2 ^ (l - 1)).
      { rewrite <- pow2_split by lia. f_equal. lia. }
      pose proof (pow2_pos (l - 1) ltac:(lia)). nia.
    + assert (H : 2 ^ (B + 1) = 2 ^ A * 2 ^ (- (l - 1))).
      { rewrite <- pow2_split by lia. f_equal. lia. }
      pose proof (pow2_pos (- (l - 1)) ltac:(lia)). nia.
Qed.

Lemma ilog2_ratio_unique (p q l : Z) :
  0 < p -> 0 < q -> le2 l p q -> ~ le2 (l + 1) p q -> ilog2_ratio p q = l.
Proof.
  intros Hp Hq H1 H2.
  destruct (ilog2_ratio_spec p q Hp Hq) as [S1 S2].
  destruct (Z.lt_trichotomy (ilog2_ratio p q) l) as [H|[H|H]]; [|exact H|].
  - exfalso. apply S2. apply (le2_mono _ l); auto; lia.
  - exfalso. apply H2. apply (le2_mono _ (ilog2_ratio p q)); auto; lia.
Qed.

Lemma ilog2_ratio_scale (c p q : Z) :
  0 < c -> 0 < p -> 0 < q -> ilog2_ratio (c * p) (c * q) = ilog2_ratio p q.
Proof.
  intros Hc Hp Hq.
  destruct (ilog2_ratio_spec p q Hp Hq) as [S1 S2].
  apply ilog2_ratio_unique; try nia.
  - apply le2_scale; auto.
  - intros H. apply S2. apply le2_scale in H; auto.
Qed.

Lemma round_half_even_scale (c p q : Z) :
  0 < c -> 0 < q -> round_half_even (c * p) (c * q) = round_half_even p q.
Proof.
  intros Hc Hq. unfold round_half_even.
  rewrite Z.div_mul_cancel_l by lia.
  rewrite Z.mul_mod_distr_l by lia.
  pose proof (Z.mod_pos_bound p q Hq).
  replace (c * q <? 2 * (c * (p mod q))) with (q <? 2 * (p mod q)).
  2:{ destruct (Z.ltb_spec q (2 * (p mod q))), (Z.ltb_spec (c * q) (2 * (c * (p mod q)))); try reflexivity; nia. }
  replace (c * q =? 2 * (c * (p mod q))) with (q =? 2 * (p mod q)).
  2:{ destruct (Z.eqb_spec q (2 * (p mod q))), (Z.eqb_spec (c * q) (2 * (c * (p mod q)))); try reflexivity; nia. }
  reflexivity.
Qed.

Lemma scale2_scale (c p q e : Z) :
  scale2 (c * p) (c * q) e = (c * fst (scale2 p q e), c * snd (scale2 p q e)).
Proof.
  unfold scale2. destruct (0 <=? e); simpl; f_equal; ring.
Qed.

Lemma scale2_snd_pos (p q e : Z) : 0 < q -> 0 < snd (scale2 p q e).
Proof.
  unfold scale2. intros Hq. destruct (0 <=? e) eqn:E; simpl; [|exact Hq].
  apply Z.leb_le in E. pose proof (pow2_pos e E). nia.
Qed.

Lemma round_ratio_scale (s : bool) (c p q : Z) :
  0 < c -> 0 < p -> 0 < q -> round_ratio s (c * p) (c * q) = round_ratio s p q.
Proof.
  intros Hc Hp Hq. unfold round_ratio.
  rewrite ilog2_ratio_scale by assumption.
  rewrite scale2_scale.
  destruct (scale2 p q (Z.max (ilog2_ratio p q - 52) emin)) as [P Q] eqn:E.
  cbn [fst snd].
  rewrite round_half_even_scale; [reflexivity | assumption |].
  change Q with (snd (P, Q)). rewrite <- E. apply scale2_snd_pos. assumption.
Qed.

(** Rounding depends on the value of the fraction only. *)
Lemma round_ratio_same (s : bool) (p1 q1 p2 q2 : Z) :
  0 < p1 -> 0 < q1 -> 0 < p2 -> 0 < q2 -> p1 * q2 = p2 * q1 ->
  round_ratio s p1 q1 = round_ratio s p2 q2.
Proof.
  intros H1 H2 H3 H4 E.
  rewrite <- (round_ratio_scale s q2 p1 q1) by assumption.
  rewrite <- (round_ratio_scale s q1 p2 q2) by assumption.
  f_equal; lia.
Qed.

Lemma round_half_even_exact (m q : Z) : 0 < q -> round_half_even (m * q) q = m.
Proof.
  intros Hq. unfold round_half_even.
  rewrite Z.div_mul, Z.mod_mul by lia.
  replace (q <? 2 * 0) with false by (symmetry; apply Z.ltb_ge; lia).
  replace (q =? 2 * 0) with false by (symmetry; apply Z.eqb_neq; lia).
  reflexivity.
Qed.

Lemma canonical_log2 (m e : Z) :
  canonical m e -> Z.max (Z.log2 m + e - 52) emin = e.
Proof.
  unfold canonical, emin, etop. intros [[Hm He]|[Hm He]].
  - assert (Z.log2 m = 52) by (apply Z.log2_unique; simpl; lia). lia.
  - assert (Z.log2 m < 52) by (apply Z.log2_lt_pow2; lia). lia.
Qed.

Lemma ilog2_bin_ratio (m e : Z) :
  0 < m ->
  ilog2_ratio (fst (bin_ratio m e)) (snd (bin_ratio m e)) = Z.log2 m + e.
Proof.
  intros Hm.
  pose proof (Z.log2_spec m Hm) as [H1 H2]. rewrite <- Z.add_1_r in H2.
  pose proof (Z.log2_nonneg m) as Hl.
  set (L := Z.log2 m) in *.
  unfold bin_ratio. destruct (0 <=? e) eqn:E; cbn [fst snd];
    rewrite ?Z.leb_le, ?Z.leb_gt in E.
  - pose proof (pow2_pos e E).
    apply ilog2_ratio_unique; try nia; unfold le2.
    + replace (0 <=? L + e) with true by (symmetry; apply Z.leb_le; lia).
      rewrite pow2_split by lia. nia.
    + replace (0 <=? L + e + 1) with true by (symmetry; apply Z.leb_le; lia).
      replace (L + e + 1) with (L + 1 + e) by lia.
      rewrite pow2_split by lia. nia.
  - pose proof (pow2_pos (- e) ltac:(lia)).
    apply ilog2_ratio_unique; try nia; unfold le2.
    + destruct (0 <=? L + e) eqn:E1; rewrite ?Z.leb_le, ?Z.leb_gt in E1.
      * rewrite <- pow2_split by lia. replace (- e + (L + e)) with L by lia. exact H1.
      * replace (- e) with (L + - (L + e)) by lia.
        rewrite pow2_split by lia.
        pose proof (pow2_pos (- (L + e)) ltac:(lia)). nia.
    + destruct (0 <=? L + e + 1) eqn:E1; rewrite ?Z.leb_le, ?Z.leb_gt in E1.
      * rewrite <- pow2_split by lia. replace (- e + (L + e + 1)) with (L + 1) by lia. lia.
      * replace (- e) with (L + 1 + - (L + e + 1)) by lia.
        rewrite pow2_split by lia.
        pose proof (pow2_pos (- (L + e + 1)) ltac:(lia)). nia.
Qed.

(** A binary64 is the nearest binary64 to its own value. *)
Lemma round_ratio_bin (s : bool) (m : positive) (e : Z) :
  canonical (Zpos m) e ->
  round_ratio s (fst (bin_ratio (Zpos m) e)) (snd (bin_ratio (Zpos m) e)) =
    S754_finite s m e.
Proof.
  intros Hc. unfold round_ratio.
  rewrite ilog2_bin_ratio by lia.
  rewrite (canonical_log2 _ _ Hc).
  assert (E : scale2 (fst (bin_ratio (Zpos m) e)) (snd (bin_ratio (Zpos m) e)) e =
              (Zpos m * 2 ^ Z.abs e, 2 ^ Z.abs e)).
  { unfold scale2, bin_ratio. destruct (0 <=? e) eqn:E; cbn [fst snd];
      rewrite ?Z.leb_le, ?Z.leb_gt in E.
    - rewrite Z.abs_eq by lia. f_equal. lia.
    - rewrite Z.abs_neq by lia. reflexivity. }
  rewrite E. rewrite round_half_even_exact by (apply pow2_pos; lia).
  unfold of_mantissa.
  unfold canonical, emin, etop in Hc.
  replace (Zpos m =? 2 ^ 53) with false by (symmetry; apply Z.eqb_neq; lia).
  replace (etop <? e) with false by (symmetry; apply Z.ltb_ge; unfold etop; lia).
  reflexivity.
Qed.

Lemma float_eqb_eq (x y : float) : float_eqb x y = true -> x = y.
Proof.
  destruct x as [a|a| |a m e], y as [b|b| |b n f]; simpl; try discriminate;
    try (intros H; apply Bool.eqb_prop in H; congruence); [reflexivity|].
  intros H. apply andb_true_iff in H as [H He]. apply andb_true_iff in H as [Hs Hm].
  apply Bool.eqb_prop in Hs. apply Pos.eqb_eq in Hm. apply Z.eqb_eq in He.
  congruence.
Qed.

Lemma strip_zeros_exp (fuel : nat) (d k : Z) :
  k <= snd (strip_zeros fuel d k) <= k + Z.of_nat fuel.
Proof.
  revert d k. induction fuel as [|f IH]; intros d k.
  - simpl. lia.
  - cbn [strip_zeros]. destruct ((d mod 10 =? 0) && negb (d =? 0)).
    + specialize (IH (d / 10) (k + 1)). lia.
    + simpl. lia.
Qed.

Lemma candidate_sound (x : float) (p q decpt : Z) (n : nat) (c : Z * Z) :
  candidate x p q decpt n = Some c ->
  reads_back x c = true /\
  decpt - Z.of_nat n <= snd c <= decpt - Z.of_nat n + 20.
Proof.
  unfold candidate.
  destruct (scale10 p q (decpt - Z.of_nat n)) as [a b].
  set (k := decpt - Z.of_nat n).
  pose proof (strip_zeros_exp 20 (a / b) k) as Hlo.
  pose proof (strip_zeros_exp 20 (a / b + 1) k) as Hhi.
  change (Z.of_nat 20) with 20 in Hlo, Hhi.
  set (clo := strip_zeros 20 (a / b) k) in *.
  set (chi := strip_zeros 20 (a / b + 1) k) in *.
  clearbody clo chi k.
  destruct (reads_back x clo) eqn:Elo, (reads_back x chi) eqn:Ehi;
    try discriminate.
  - destruct (2 * (a mod b) <=? b); intros [= <-]; split; auto.
  - intros [= <-]; split; auto.
  - intros [= <-]; split; auto.
Qed.

Lemma shortest_sound (fuel n : nat) (x : float) (p q decpt : Z) (c : Z * Z) :
  shortest fuel n x p q decpt = Some c ->
  reads_back x c = true /\
  decpt - Z.of_nat (n + fuel) <= snd c <= decpt + 20.
Proof.
  revert n. induction fuel as [|f IH]; intros n; [discriminate|].
  cbn [shortest]. destruct (candidate x p q decpt n) as [c'|] eqn:E.
  - intros [= <-]. apply candidate_sound in E as [H1 H2]. split; auto. lia.
  - intros H. apply IH in H as [H1 H2]. split; auto. lia.
Qed.

Lemma round_dec_exact (m : positive) (e : Z) :
  canonical (Zpos m) e ->
  round_dec false (fst (exact_decimal (Zpos m) e)) (snd (exact_decimal (Zpos m) e)) =
    S754_finite false m e.
Proof.
  intros Hc. rewrite <- (round_ratio_bin false m e Hc).
  unfold exact_decimal, round_dec, bin_ratio, dec_ratio.
  destruct (0 <=? e) eqn:E; cbn [fst snd]; rewrite ?Z.leb_le, ?Z.leb_gt in E.
  - pose proof (pow2_pos e E).
    replace (Zpos m * 2 ^ e =? 0) with false by (symmetry; apply Z.eqb_neq; nia).
    change (0 <=? 0) with true. cbv iota beta.
    rewrite Z.pow_0_r, Z.mul_1_r. reflexivity.
  - assert (H5 : 0 < 5 ^ (- e)) by (apply Z.pow_pos_nonneg; lia).
    pose proof (pow2_pos (- e) ltac:(lia)).
    replace (Zpos m * 5 ^ (- e) =? 0) with false by (symmetry; apply Z.eqb_neq; nia).
    rewrite (proj2 (Z.leb_gt 0 e)) by lia.
    apply round_ratio_same;
      [nia | apply Z.pow_pos_nonneg; lia | lia | assumption |].
    change 10 with (2 * 5). rewrite Z.pow_mul_l. ring.
Qed.

Lemma ilog10_ratio_bound (p q : Z) :
  -1100 <= ilog2_ratio p q <= 1100 -> -400 <= ilog10_ratio p q <= 400.
Proof.
  intros H. unfold ilog10_ratio.
  set (t := ilog2_ratio p q * 1233 / 4096).
  assert (-332 <= t <= 332).
  { unfold t. split.
    - apply Z.div_le_lower_bound; lia.
    - apply Z.div_le_upper_bound; lia. }
  destruct (scale10 p q (t + 1)) as [a1 b1].
  destruct (b1 <=? a1); [lia|].
  destruct (scale10 p q t) as [a0 b0].
  destruct (b0 <=? a0); lia.
Qed.

(** The decimal [repr] prints reads back as the float, and is of moderate
    size. *)
Lemma repr_digits_spec (m : positive) (e : Z) :
  canonical (Zpos m) e ->
  0 < fst (repr_digits m e) < 2 ^ 3300 /\
  -1500 <= snd (repr_digits m e) <= 1500 /\
  round_dec false (fst (repr_digits m e)) (snd (repr_digits m e)) =
    S754_finite false m e.
Proof.
  intros Hc. unfold repr_digits.
  pose proof (ilog2_bin_ratio (Zpos m) e ltac:(lia)) as Hl.
  destruct (bin_ratio (Zpos m) e) as [p q]. cbn [fst snd] in Hl.
  assert (Hb : -400 <= ilog10_ratio p q <= 400).
  { apply ilog10_ratio_bound. rewrite Hl.
    assert (0 <= Z.log2 (Zpos m) <= 52).
    { split; [apply Z.log2_nonneg|].
      assert (Z.log2 (Zpos m) < 53); [|lia].
      apply Z.log2_lt_pow2; unfold canonical in Hc; lia. }
    unfold canonical, emin, etop in Hc. lia. }
  destruct (shortest 17 1 (S754_finite false m e) p q (ilog10_ratio p q + 1))
    as [c|] eqn:E.
  - apply shortest_sound in E as [H1 H2].
    unfold reads_back in H1.
    apply andb_true_iff in H1 as [H1 H3]. apply andb_true_iff in H1 as [H0 H1].
    apply Z.ltb_lt in H0, H1. apply float_eqb_eq in H3.
    repeat split; try lia; try assumption.
  - rewrite round_dec_exact by assumption.
    repeat split; unfold exact_decimal;
      destruct (0 <=? e) eqn:E0; cbn [fst snd];
      rewrite ?Z.leb_le, ?Z.leb_gt in E0;
      unfold canonical, emin, etop in Hc; try lia.
    + apply Z.lt_le_trans with (2 ^ 53 * 2 ^ e).
      * pose proof (pow2_pos e E0). nia.
      * rewrite <- pow2_split by lia. apply Z.pow_le_mono_r; lia.
    + apply Z.lt_le_trans with (2 ^ 53 * 8 ^ (- e)).
      * assert (0 < 5 ^ (- e)) by (apply Z.pow_pos_nonneg; lia).
        assert (5 ^ (- e) <= 8 ^ (- e)) by (apply Z.pow_le_mono_l; lia).
        nia.
      * change 8 with (2 ^ 3). rewrite <- Z.pow_mul_r by lia.
        rewrite <- pow2_split by lia. apply Z.pow_le_mono_r; lia.
Qed.

End Rounding.

(** ** Strings *)

Lemma append_assoc_str (a b c : string) : (a ++ b) ++ c = a ++ b ++ c.
Proof. induction a as [|x a IH]; simpl; [|rewrite IH]; reflexivity. Qed.

Lemma length_append_str (a b : string) :
  String.length (a ++ b) = (String.length a + String.length b)%nat.
Proof. induction a as [|x a IH]; simpl; [|rewrite IH]; reflexivity. Qed.

(** ** Decimal digits *)

Section Digits.
Import PyStr PyFloat.

Lemma digits_val_acc_app (a : Z) (x y : string) :
  digits_val_acc a (x ++ y) = digits_val_acc (digits_val_acc a x) y.
Proof.
  revert a. induction x as [|c x IH]; intros a; simpl; [reflexivity | apply IH].
Qed.

Lemma digits_val_acc_linear (a : Z) (x : string) :
  digits_val_acc a x = a * 10 ^ Z.of_nat (String.length x) + digits_val x.
Proof.
  unfold digits_val. revert a. induction x as [|c x IH]; intros a.
  - simpl. lia.
  - cbn [digits_val_acc String.length]. rewrite IH, (IH (10 * 0 + digit_val c)).
    rewrite Nat2Z.inj_succ, Z.pow_succ_r by lia. ring.
Qed.

Lemma digits_val_app (x y : string) :
  digits_val (x ++ y) = digits_val x * 10 ^ Z.of_nat (String.length y) + digits_val y.
Proof.
  unfold digits_val at 1. rewrite digits_val_acc_app, digits_val_acc_linear.
  reflexivity.
Qed.

Lemma all_digits_app (x y : string) :
  all_digits (x ++ y) <-> all_digits x /\ all_digits y.
Proof.
  unfold all_digits. induction x as [|c x IH]; simpl.
  - tauto.
  - rewrite !andb_true_iff, IH. tauto.
Qed.

Lemma digit_char_spec (d : Z) :
  0 <= d <= 9 -> isdigit (digit_char d) = true /\ digit_val (digit_char d) = d.
Proof.
  intros H.
  assert (C : d = 0 \/ d = 1 \/ d = 2 \/ d = 3 \/ d = 4 \/ d = 5 \/ d = 6 \/
              d = 7 \/ d = 8 \/ d = 9) by lia.
  repeat (destruct C as [->|C]; [split; reflexivity|]). subst. split; reflexivity.
Qed.

Lemma show_digits_fuel_spec (fuel : nat) (n : Z) (acc : string) :
  0 <= n < 2 ^ Z.of_nat (S fuel) ->
  exists ds,
    show_digits_fuel (S fuel) n acc = ds ++ acc /\
    all_digits ds /\ ds <> "" /\ digits_val ds = n /\
    (String.length ds <= S fuel)%nat.
Proof.
  revert n acc. induction fuel as [|f IH]; intros n acc Hn;
    cbn [show_digits_fuel];
    pose proof (Z.mod_pos_bound n 10 ltac:(lia)) as Hm;
    destruct (digit_char_spec (n mod 10) ltac:(lia)) as [Hd Hv];
    (destruct (n <? 10) eqn:E; rewrite ?Z.ltb_lt, ?Z.ltb_ge in E;
     [exists (String (digit_char (n mod 10)) "");
      repeat split;
      [unfold all_digits; simpl; rewrite Hd; reflexivity
      |discriminate
      |unfold digits_val; simpl; rewrite Hv; rewrite Z.mod_small; lia
      |simpl; lia]
     |]).
  - change (2 ^ Z.of_nat 1) with 2 in Hn. lia.
  - assert (Hq : 0 <= n / 10 < 2 ^ Z.of_nat (S f)).
    { rewrite (Nat2Z.inj_succ (S f)), Z.pow_succ_r in Hn by lia.
      split; [apply Z.div_pos; lia|].
      apply Z.div_lt_upper_bound; lia. }
    destruct (IH (n / 10) (String (digit_char (n mod 10)) acc) Hq)
      as (ds & Hs & Ha & Hne & Hv' & Hl).
    exists (ds ++ String (digit_char (n mod 10)) "").
    repeat split.
    + cbn [show_digits_fuel] in Hs. rewrite Hs. rewrite append_assoc_str. reflexivity.
    + apply all_digits_app. split; [exact Ha|].
      unfold all_digits. simpl. rewrite Hd. reflexivity.
    + destruct ds; [congruence | discriminate].
    + rewrite digits_val_app, Hv'. unfold digits_val at 1. simpl.
      rewrite Hv. pose proof (Z.div_mod n 10 ltac:(lia)). lia.
    + rewrite length_append_str. simpl. lia.
Qed.

Lemma show_digits_spec (n : Z) :
  0 <= n ->
  all_digits (show_digits n) /\ show_digits n <> "" /\
  digits_val (show_digits n) = n /\
  (String.length (show_digits n) <= S (Z.to_nat (Z.log2 n)))%nat.
Proof.
  intros Hn. unfold show_digits.
  destruct (show_digits_fuel_spec (Z.to_nat (Z.log2 n)) n "") as (ds & Hs & H).
  - split; [exact Hn|].
    rewrite Nat2Z.inj_succ, Z2Nat.id by apply Z.log2_nonneg.
    destruct (Z.eq_dec n 0) as [->|N]; [reflexivity|].
    apply Z.log2_spec. lia.
  - rewrite Hs, append_nil_r_str. exact H.
Qed.

End Digits.

(** ** Reading a decimal numeral *)

Section Reading.
Import PyStr PyFloat.

Lemma numeric_char_plain (c : ascii) :
  numeric_char c = true ->
  isspace c = false /\ char_eqb c "_" = false /\ char_eqb c Csv.CR = false.
Proof. by_cases_on_char c. Qed.

Lemma isdigit_numeric (c : ascii) : isdigit c = true -> numeric_char c = true.
Proof. unfold numeric_char. intros ->. reflexivity. Qed.

Lemma isdigit_not_sign (c : ascii) :
  isdigit c = true ->
  char_eqb c "-" = false /\ char_eqb c "+" = false /\ char_eqb c "." = false /\
  char_eqb (lower_char c) "e" = false.
Proof. by_cases_on_char c. Qed.

Lemma numeric_app (x y : string) : numeric (x ++ y) <-> numeric x /\ numeric y.
Proof.
  unfold numeric. induction x as [|c x IH]; simpl.
  - tauto.
  - rewrite !andb_true_iff, IH. tauto.
Qed.

Lemma all_digits_numeric (s : string) : all_digits s -> numeric s.
Proof.
  unfold all_digits, numeric. induction s as [|c s IH]; simpl; [auto|].
  rewrite !andb_true_iff. intros [H1 H2]. split; [apply isdigit_numeric, H1 | auto].
Qed.

Lemma lstrip_numeric (s : string) : numeric s -> lstrip s = s.
Proof.
  unfold numeric. destruct s as [|c s]; simpl; [reflexivity|].
  rewrite andb_true_iff. intros [H _].
  apply numeric_char_plain in H as (-> & _). reflexivity.
Qed.

Lemma rstrip_numeric (s : string) : numeric s -> rstrip s = s.
Proof.
  unfold numeric. induction s as [|c s IH]; simpl; [reflexivity|].
  rewrite andb_true_iff. intros [H Hs]. rewrite (IH Hs).
  apply numeric_char_plain in H as (-> & _).
  rewrite andb_false_r. reflexivity.
Qed.

Lemma strip_numeric (s : string) : numeric s -> strip s = s.
Proof.
  intros H. unfold strip. rewrite lstrip_numeric by assumption.
  apply rstrip_numeric, H.
Qed.

Lemma drop_underscores_numeric (prev : ascii) (s : string) :
  char_eqb prev "_" = false -> numeric s -> drop_underscores prev s = Some s.
Proof.
  unfold numeric. revert prev. induction s as [|c s IH]; intros prev Hp; simpl.
  - rewrite Hp. reflexivity.
  - rewrite andb_true_iff. intros [H Hs].
    apply numeric_char_plain in H as (_ & Hu & _).
    rewrite Hu, Hp. simpl. rewrite (IH c Hu Hs). reflexivity.
Qed.

(** A numeral without blanks or underscores is read sign first. *)
Lemma float_of_str_numeric (s : string) :
  numeric s ->
  float_of_str s =
    let '(neg, r) := take_sign s in
    match parse_decimal r with
    | Some (d, k) => Some (round_dec neg d k)
    | None => parse_inf_or_nan neg r
    end.
Proof.
  intros H. unfold float_of_str.
  rewrite strip_numeric, drop_underscores_numeric by (assumption || reflexivity).
  reflexivity.
Qed.

Lemma span_digits_app (ds rest : string) :
  all_digits ds -> no_digit_head rest -> span_digits (ds ++ rest) = (ds, rest).
Proof.
  unfold all_digits. intros Hd Hr. induction ds as [|c ds IH]; simpl.
  - destruct rest as [|c r]; [reflexivity|]. simpl in Hr.
    cbn [span_digits]. rewrite Hr. reflexivity.
  - simpl in Hd. apply andb_true_iff in Hd as [Hc Hd].
    rewrite Hc, (IH Hd). reflexivity.
Qed.

Lemma take_sign_digits (neg : bool) (c : ascii) (r : string) :
  isdigit c = true ->
  take_sign (sign_str neg ++ String c r) = (neg, String c r).
Proof.
  intros H. destruct neg; [reflexivity|].
  cbn [sign_str append take_sign].
  apply isdigit_not_sign in H as (-> & -> & _). reflexivity.
Qed.

Lemma is_empty_app (x y : string) :
  is_empty (x ++ y) = is_empty x && is_empty y.
Proof. destruct x; reflexivity. Qed.

(** Digits, a point, digits, and what follows. *)
Lemma parse_decimal_point (ip fp tail : string) :
  all_digits ip -> all_digits fp -> no_digit_head tail ->
  is_empty ip && is_empty fp = false ->
  parse_decimal (ip ++ "." ++ fp ++ tail) =
    match parse_exponent tail with
    | Some ex => Some (digits_val (ip ++ fp), ex - Z.of_nat (String.length fp))
    | None => None
    end.
Proof.
  intros Hi Hf Ht Hne. unfold parse_decimal.
  rewrite (span_digits_app ip) by (assumption || reflexivity).
  cbn [append]. change (char_eqb "." ".") with true. cbv iota.
  rewrite (span_digits_app fp) by assumption.
  rewrite Hne. reflexivity.
Qed.

(** Digits and what follows, which does not start with a point. *)
Lemma parse_decimal_integer (ip tail : string) :
  all_digits ip -> ip <> "" ->
  (tail = "" \/ exists c r, tail = String c r /\ isdigit c = false /\ char_eqb c "." = false) ->
  parse_decimal (ip ++ tail) =
    match parse_exponent tail with
    | Some ex => Some (digits_val ip, ex)
    | None => None
    end.
Proof.
  intros Hi Hne Ht. unfold parse_decimal.
  rewrite (span_digits_app ip) by (try assumption; destruct Ht as [->|(c & r & -> & H & _)]; simpl; auto).
  assert (E : match tail with
              | String c r => if char_eqb c "." then span_digits r else ("", tail)
              | "" => ("", tail)
              end = ("", tail)).
  { destruct Ht as [->|(c & r & -> & _ & H)]; [reflexivity|]. rewrite H. reflexivity. }
  rewrite E. destruct ip; [congruence|]. cbn [is_empty andb].
  rewrite append_nil_r_str.
  destruct (parse_exponent tail); [|reflexivity].
  simpl (String.length ""). f_equal. f_equal. lia.
Qed.

Lemma parse_exponent_signed (neg : bool) (ds : string) :
  all_digits ds -> ds <> "" ->
  parse_exponent ("e" ++ (if neg then "-" else "+") ++ ds) =
    Some (if neg then - digits_val ds else digits_val ds).
Proof.
  intros Hd Hne. unfold parse_exponent. cbn [append].
  change (char_eqb (lower_char "e") "e") with true. cbv iota.
  assert (E : take_sign ((if neg then "-" else "+") ++ ds) = (neg, ds))
    by (destruct neg; reflexivity).
  rewrite E.
  rewrite <- (append_nil_r_str ds) at 1.
  rewrite span_digits_app by (assumption || exact I).
  destruct ds; [congruence|]. reflexivity.
Qed.

Lemma take_drop (n : nat) (s : string) : take n s ++ drop n s = s.
Proof.
  revert s. induction n as [|n IH]; intros [|c s]; simpl; try reflexivity.
  rewrite IH. reflexivity.
Qed.

Lemma length_take (n : nat) (s : string) :
  (n <= String.length s)%nat -> String.length (take n s) = n.
Proof.
  revert s. induction n as [|n IH]; intros [|c s]; simpl; intros H;
    try reflexivity; try lia.
  rewrite IH by lia. reflexivity.
Qed.

Lemma all_digits_zeros (n : nat) : all_digits (zeros n).
Proof. unfold all_digits. induction n; simpl; auto. Qed.

Lemma length_zeros (n : nat) : String.length (zeros n) = n.
Proof. induction n; simpl; auto. Qed.

Lemma digits_val_zeros (n : nat) : digits_val (zeros n) = 0.
Proof. unfold digits_val. induction n; simpl; auto. Qed.

Lemma zeros_snoc (n : nat) : zeros n ++ "0" = zeros (S n).
Proof. induction n as [|n IH]; simpl; [|simpl in IH; rewrite IH]; reflexivity. Qed.

Lemma show_two_spec (a : Z) :
  0 <= a ->
  all_digits (show_two a) /\ show_two a <> "" /\ digits_val (show_two a) = a /\
  (String.length (show_two a) <= 2 + Z.to_nat (Z.log2 a))%nat.
Proof.
  intros Ha. destruct (show_digits_spec a Ha) as (H1 & H2 & H3 & H4).
  unfold show_two. destruct (a <? 10); [|repeat split; auto; lia].
  repeat split.
  - unfold all_digits in *. simpl. exact H1.
  - discriminate.
  - unfold digits_val in *. simpl. exact H3.
  - simpl. lia.
Qed.

Lemma round_dec_point_zero (neg : bool) (d k : Z) :
  0 < d -> 0 <= k ->
  round_dec neg (d * 10 ^ (k + 1)) (-1) = round_dec neg d k.
Proof.
  intros Hd Hk. unfold round_dec, dec_ratio.
  assert (H10 : 0 < 10 ^ k) by (apply Z.pow_pos_nonneg; lia).
  replace (10 ^ (k + 1)) with (10 * 10 ^ k)
    by (rewrite Z.pow_add_r by lia; change (10 ^ 1) with 10; ring).
  replace (d * (10 * 10 ^ k) =? 0) with false by (symmetry; apply Z.eqb_neq; nia).
  replace (d =? 0) with false by (symmetry; apply Z.eqb_neq; lia).
  change (0 <=? -1) with false. cbv iota.
  replace (0 <=? k) with true by (symmetry; apply Z.leb_le; lia).
  apply round_ratio_same; try nia; reflexivity.
Qed.

(** The numeral [repr] prints for [d * 10 ^ k] reads as [d * 10 ^ k]. *)
Lemma float_of_repr_finite (neg : bool) (d k : Z) :
  0 < d ->
  numeric (repr_finite neg d k) /\
  float_of_str (repr_finite neg d k) = Some (round_dec neg d k).
Proof.
  intros Hd.
  destruct (show_digits_spec d ltac:(lia)) as (Hall & Hne & Hval & _).
  assert (Hnum : numeric (show_digits d)) by (apply all_digits_numeric, Hall).
  assert (Hsign : numeric (sign_str neg)) by (destruct neg; reflexivity).
  unfold repr_finite.
  set (ds := show_digits d) in *.
  set (n := Z.of_nat (String.length ds)).
  set (decpt := k + n).
  destruct ds as [|c r] eqn:Eds; [congruence|].
  assert (Hc : isdigit c = true /\ all_digits r).
  { unfold all_digits in *. simpl in Hall. apply andb_true_iff in Hall. exact Hall. }
  destruct Hc as [Hc Hr].
  assert (Hn : n = 1 + Z.of_nat (String.length r)).
  { unfold n. cbn [String.length]. lia. }
  destruct ((decpt <=? -4) || (16 <? decpt)) eqn:Eexp.
  - (* scientific notation *)
    set (ex := decpt - 1).
    destruct (show_two_spec (Z.abs ex) ltac:(lia)) as (Ht1 & Ht2 & Ht3 & _).
    assert (Hex : (if ex <? 0 then - digits_val (show_two (Z.abs ex))
                   else digits_val (show_two (Z.abs ex))) = ex).
    { rewrite Ht3. destruct (ex <? 0) eqn:E; rewrite ?Z.ltb_lt, ?Z.ltb_ge in E; lia. }
    pose proof (parse_exponent_signed (ex <? 0) _ Ht1 Ht2) as HE.
    rewrite Hex in HE.
    assert (Htail : numeric ("e" ++ (if ex <? 0 then "-" else "+") ++ show_two (Z.abs ex))).
    { apply (numeric_app "e"). split; [reflexivity|].
      apply numeric_app. split; [destruct (ex <? 0); reflexivity|].
      apply all_digits_numeric, Ht1. }
    set (tail := "e" ++ (if ex <? 0 then "-" else "+") ++ show_two (Z.abs ex)) in *.
    destruct r as [|c2 r2].
    + assert (Hwhole : numeric (sign_str neg ++ String c "" ++ tail)).
      { apply numeric_app. split; [exact Hsign|].
        apply numeric_app. split; [exact Hnum | exact Htail]. }
      split; [exact Hwhole|].
      rewrite float_of_str_numeric by exact Hwhole.
      pose proof (parse_decimal_integer (String c "") tail Hall ltac:(discriminate)) as HP.
      rewrite HE in HP. cbn [append] in HP |- *.
      rewrite take_sign_digits by exact Hc.
      rewrite HP.
      * rewrite Hval. f_equal; f_equal. unfold ex, decpt. simpl in Hn. lia.
      * right. exists "e"%char. eexists. split; [reflexivity|]. split; reflexivity.
    + assert (Hmant : numeric (String c (String "." (String c2 r2)))).
      { apply (numeric_app (String c "")). split.
        - unfold numeric. simpl. rewrite (isdigit_numeric c Hc). reflexivity.
        - apply (numeric_app "."). split; [reflexivity | apply all_digits_numeric, Hr]. }
      assert (Hwhole : numeric (sign_str neg ++ String c (String "." (String c2 r2)) ++ tail)).
      { apply numeric_app. split; [exact Hsign|].
        apply numeric_app. split; [exact Hmant | exact Htail]. }
      split; [exact Hwhole|].
      rewrite float_of_str_numeric by exact Hwhole.
      assert (Hc1 : all_digits (String c "")).
      { unfold all_digits. simpl. rewrite Hc. reflexivity. }
      pose proof (parse_decimal_point (String c "") (String c2 r2) tail Hc1 Hr
                    ltac:(reflexivity) ltac:(reflexivity)) as HP.
      rewrite HE in HP. cbn [append] in HP |- *.
      rewrite take_sign_digits by exact Hc.
      rewrite HP. rewrite Hval. f_equal; f_equal. unfold ex, decpt. lia.
  - apply orb_false_iff in Eexp as [E1 E2].
    apply Z.leb_gt in E1. apply Z.ltb_ge in E2.
    destruct (decpt <=? 0) eqn:E0; [|destruct (decpt <? n) eqn:E3];
      rewrite ?Z.leb_le, ?Z.leb_gt, ?Z.ltb_lt, ?Z.ltb_ge in *.
    + (* 0.000ddd *)
      set (z := Z.to_nat (- decpt)).
      assert (Hfp : all_digits (zeros z ++ String c r)).
      { apply all_digits_app. split; [apply all_digits_zeros | exact Hall]. }
      assert (Hwhole : numeric (sign_str neg ++ "0." ++ zeros z ++ String c r)).
      { apply numeric_app. split; [exact Hsign|].
        apply (numeric_app "0."). split; [reflexivity | apply all_digits_numeric, Hfp]. }
      split; [exact Hwhole|].
      rewrite float_of_str_numeric by exact Hwhole.
      pose proof (parse_decimal_point "0" (zeros z ++ String c r) ""
                    ltac:(reflexivity) Hfp I ltac:(reflexivity)) as HP.
      rewrite append_nil_r_str in HP. cbn [append parse_exponent] in HP |- *.
      rewrite take_sign_digits by reflexivity.
      rewrite HP.
      change (String "0" (zeros z ++ String c r)) with ("0" ++ zeros z ++ String c r).
      rewrite !digits_val_app, digits_val_zeros, Hval.
      rewrite length_append_str, length_zeros.
      change (digits_val "0") with 0.
      f_equal; f_equal; unfold z, decpt in *; cbn [String.length] in *; lia.
    + (* dd.ddd *)
      set (p := Z.to_nat decpt).
      assert (Hp : (1 <= p <= String.length r)%nat) by (unfold p; lia).
      assert (Hpz : Z.of_nat p = decpt) by (unfold p; lia).
      clearbody p.
      pose proof (take_drop p (String c r)) as Htd.
      assert (Hparts : all_digits (take p (String c r)) /\ all_digits (drop p (String c r))).
      { apply all_digits_app. rewrite Htd. exact Hall. }
      destruct Hparts as [Htk Hdr].
      assert (Hwhole : numeric (sign_str neg ++ take p (String c r) ++ "." ++ drop p (String c r))).
      { apply numeric_app. split; [exact Hsign|].
        apply numeric_app. split; [apply all_digits_numeric, Htk|].
        apply (numeric_app "."). split; [reflexivity | apply all_digits_numeric, Hdr]. }
      split; [exact Hwhole|].
      rewrite float_of_str_numeric by exact Hwhole.
      assert (Hlen : String.length (String c r) =
                     (String.length (take p (String c r)) +
                      String.length (drop p (String c r)))%nat).
      { rewrite <- length_append_str, Htd. reflexivity. }
      rewrite length_take in Hlen by (cbn [String.length]; lia).
      assert (Hnz : is_empty (take p (String c r)) && is_empty (drop p (String c r)) = false).
      { destruct p; [lia | reflexivity]. }
      pose proof (parse_decimal_point (take p (String c r)) (drop p (String c r)) ""
                    Htk Hdr I Hnz) as HP.
      rewrite append_nil_r_str, Htd, Hval in HP.
      destruct p as [|p']; [lia|].
      cbn [append parse_exponent take] in HP |- *.
      rewrite take_sign_digits by exact Hc.
      rewrite HP.
      f_equal; f_equal. unfold decpt in *. cbn [String.length] in *. lia.
    + (* ddd000.0 *)
      set (j := Z.to_nat (decpt - n)).
      assert (Hip : all_digits (String c r ++ zeros j)).
      { apply all_digits_app. split; [exact Hall | apply all_digits_zeros]. }
      assert (Hwhole : numeric (sign_str neg ++ String c r ++ zeros j ++ ".0")).
      { apply numeric_app. split; [exact Hsign|].
        apply numeric_app. split; [exact Hnum|].
        apply numeric_app. split; [apply all_digits_numeric, all_digits_zeros | reflexivity]. }
      split; [exact Hwhole|].
      rewrite float_of_str_numeric by exact Hwhole.
      pose proof (parse_decimal_point (String c r ++ zeros j) "0" ""
                    Hip ltac:(reflexivity) I ltac:(reflexivity)) as HP.
      rewrite !append_assoc_str in HP.
      rewrite zeros_snoc in HP.
      rewrite digits_val_app, digits_val_zeros, length_zeros, Hval in HP.
      cbn [append parse_exponent] in HP |- *.
      rewrite take_sign_digits by exact Hc.
      rewrite HP.
      change (0 - Z.of_nat (String.length "0")) with (-1).
      replace (d * 10 ^ Z.of_nat (S j) + 0) with (d * 10 ^ (k + 1)).
      * rewrite round_dec_point_zero by (unfold decpt in *; lia). reflexivity.
      * rewrite Z.add_0_r. do 2 f_equal. unfold j, decpt in *. lia.
Qed.

Lemma round_dec_signed (neg : bool) (d k : Z) (m : positive) (e : Z) :
  round_dec false d k = S754_finite false m e ->
  round_dec neg d k = S754_finite neg m e.
Proof.
  unfold round_dec. destruct (d =? 0); [discriminate|].
  destruct (dec_ratio d k) as [p q]. unfold round_ratio.
  destruct (scale2 p q (Z.max (ilog2_ratio p q - 52) emin)) as [P Q].
  unfold of_mantissa.
  destruct (round_half_even P Q) as [|mp|mp]; try discriminate.
  destruct (Z.pos mp =? 2 ^ 53).
  - destruct (etop <? Z.max (ilog2_ratio p q - 52) emin + 1); [discriminate|].
    intros [= <- <-]. reflexivity.
  - destruct (etop <? Z.max (ilog2_ratio p q - 52) emin); [discriminate|].
    intros [= <- <-]. reflexivity.
Qed.

Lemma length_take_le (n : nat) (s : string) :
  (String.length (take n s) <= String.length s)%nat.
Proof.
  revert s. induction n as [|n IH]; intros [|c s]; simpl; try lia.
  specialize (IH s). lia.
Qed.

Lemma length_drop_le (n : nat) (s : string) :
  (String.length (drop n s) <= String.length s)%nat.
Proof.
  revert s. induction n as [|n IH]; intros [|c s]; simpl; try lia.
  specialize (IH s). lia.
Qed.

Lemma repr_finite_length (neg : bool) (d k : Z) :
  0 < d < 2 ^ 3300 -> -1500 <= k <= 1500 ->
  Z.of_nat (String.length (repr_finite neg d k)) <= 4000.
Proof.
  intros Hd Hk.
  destruct (show_digits_spec d ltac:(lia)) as (_ & _ & _ & Hlen).
  assert (Hlog : Z.log2 d < 3300) by (apply Z.log2_lt_pow2; lia).
  pose proof (Z.log2_nonneg d) as Hlog0.
  assert (Hs : (String.length (sign_str neg) <= 1)%nat) by (destruct neg; simpl; lia).
  unfold repr_finite.
  set (ds := show_digits d) in *.
  set (n := Z.of_nat (String.length ds)).
  set (decpt := k + n).
  assert (Hn : 0 <= n <= 3301) by (unfold n; lia).
  rewrite length_append_str.
  destruct ((decpt <=? -4) || (16 <? decpt)) eqn:Eexp.
  - set (ex := decpt - 1).
    destruct (show_two_spec (Z.abs ex) ltac:(lia)) as (_ & _ & _ & Ht).
    assert (Z.log2 (Z.abs ex) < 13).
    { destruct (Z.eq_dec (Z.abs ex) 0) as [->|N]; [reflexivity|].
      apply Z.log2_lt_pow2; [lia|]. unfold ex, decpt. change (2 ^ 13) with 8192. lia. }
    pose proof (Z.log2_nonneg (Z.abs ex)).
    rewrite !length_append_str.
    assert (Hm : (String.length
                    match ds with
                    | String c "" => ds
                    | String c (String _ _ as r) => String c (String "." r)
                    | "" => ds
                    end <= S (String.length ds))%nat).
    { destruct ds as [|c [|c2 r2]]; simpl; lia. }
    assert (Hsg : String.length (if ex <? 0 then "-" else "+") = 1%nat)
      by (destruct (ex <? 0); reflexivity).
    cbn [String.length] in *. lia.
  - apply orb_false_iff in Eexp as [E1 E2].
    apply Z.leb_gt in E1. apply Z.ltb_ge in E2.
    destruct (decpt <=? 0) eqn:E0; [|destruct (decpt <? n) eqn:E3];
      rewrite ?Z.leb_le, ?Z.leb_gt, ?Z.ltb_lt, ?Z.ltb_ge in *;
      rewrite !length_append_str, ?length_zeros.
    + cbn [String.length]. fold n. lia.
    + pose proof (length_take_le (Z.to_nat decpt) ds).
      pose proof (length_drop_le (Z.to_nat decpt) ds).
      cbn [String.length]. lia.
    + cbn [String.length]. fold n. lia.
Qed.

Lemma numeric_no_cr (s : string) : numeric s -> no_cr s.
Proof.
  unfold numeric, no_cr. induction s as [|c s IH]; simpl; [auto|].
  rewrite !andb_true_iff. intros [H Hs]. split; [|auto].
  apply numeric_char_plain in H as (_ & _ & ->). reflexivity.
Qed.

(** [str] of a float reads back as that float, holds no carriage return and
    is short. *)
Theorem float_repr_reads_back (x : float) :
  binary64 x ->
  float_of_str (float_repr x) = Some x /\
  no_cr (float_repr x) /\
  Z.of_nat (String.length (float_repr x)) <= 4000.
Proof.
  destruct x as [s|s| |s m e]; simpl; intros Hx.
  - destruct s; repeat split; vm_compute; congruence.
  - destruct s; repeat split; vm_compute; congruence.
  - repeat split; vm_compute; congruence.
  - destruct (repr_digits_spec m e Hx) as (Hd & Hk & Hr).
    destruct (repr_digits m e) as [d k]. cbn [fst snd] in *.
    destruct (float_of_repr_finite s d k ltac:(lia)) as [Hnum Hread].
    repeat split.
    + rewrite Hread. f_equal. apply round_dec_signed, Hr.
    + apply numeric_no_cr, Hnum.
    + apply repr_finite_length; assumption.
Qed.

End Reading.

(** ** The values of [float] *)

Section FloatValues.
Import PyStr PyFloat.

(** Scaling by a power of two shifts the comparison with powers of two. *)
Lemma le2_scale2 (a p q e : Z) :
  0 <= a -> 0 < p -> 0 < q ->
  (le2 (a + e) p q <-> snd (scale2 p q e) * 2 ^ a <= fst (scale2 p q e)).
Proof.
  intros Ha Hp Hq. unfold le2, scale2.
  pose proof (pow2_pos a Ha) as Hpa.
  destruct (0 <=? e) eqn:Ee; cbn [fst snd]; rewrite ?Z.leb_le, ?Z.leb_gt in Ee.
  - replace (0 <=? a + e) with true by (symmetry; apply Z.leb_le; lia).
    rewrite pow2_split by lia. split; intros H; nia.
  - pose proof (pow2_pos (- e) ltac:(lia)) as Hpe.
    destruct (0 <=? a + e) eqn:Eae; rewrite ?Z.leb_le, ?Z.leb_gt in Eae.
    + assert (E : 2 ^ a = 2 ^ (a + e) * 2 ^ (- e)).
      { rewrite <- pow2_split by lia. f_equal. lia. }
      pose proof (pow2_pos (a + e) Eae) as Hpae. rewrite E. split; intros H; nia.
    + assert (E : 2 ^ (- e) = 2 ^ (- (a + e)) * 2 ^ a).
      { rewrite <- pow2_split by lia. f_equal. lia. }
      pose proof (pow2_pos (- (a + e)) ltac:(lia)) as Hpae. rewrite E. split; intros H; nia.
Qed.

Lemma round_half_even_bounds (p q : Z) :
  0 < q -> p / q <= round_half_even p q <= p / q + 1.
Proof.
  intros Hq. unfold round_half_even.
  destruct ((q <? 2 * (p mod q)) || ((q =? 2 * (p mod q)) && Z.odd (p / q))); lia.
Qed.

(** Rounding gives a binary64. *)
Lemma round_ratio_binary64 (s : bool) (p q : Z) :
  0 < p -> 0 < q -> binary64 (round_ratio s p q).
Proof.
  intros Hp Hq. unfold round_ratio.
  destruct (ilog2_ratio_spec p q Hp Hq) as [Hlo Hhi].
  set (l := ilog2_ratio p q) in *.
  set (e := Z.max (l - 52) emin).
  pose proof (le2_scale2 53 p q e ltac:(lia) Hp Hq) as H53.
  pose proof (le2_scale2 52 p q e ltac:(lia) Hp Hq) as H52.
  pose proof (scale2_snd_pos p q e Hq) as HQ.
  destruct (scale2 p q e) as [P Q]. cbn [fst snd] in *.
  assert (Hup : P < Q * 2 ^ 53).
  { apply Z.nle_gt. intros H. apply H53 in H. apply Hhi.
    apply (le2_mono _ (53 + e)); auto. unfold e. lia. }
  assert (Hnormal : emin <= l - 52 -> Q * 2 ^ 52 <= P).
  { intros H. apply H52. replace (52 + e) with l by (unfold e; lia). exact Hlo. }
  assert (Hsub : l - 52 < emin -> P < Q * 2 ^ 52).
  { intros H. apply Z.nle_gt. intros H'. apply H52 in H'. apply Hhi.
    apply (le2_mono _ (52 + e)); auto. unfold e. lia. }
  pose proof (round_half_even_bounds P Q HQ) as Hm.
  assert (Hdiv53 : P / Q < 2 ^ 53) by (apply Z.div_lt_upper_bound; lia).
  assert (Hdiv52 : emin <= l - 52 -> 2 ^ 52 <= P / Q).
  { intros H. apply Z.div_le_lower_bound; [lia|]. specialize (Hnormal H). lia. }
  assert (Hdivsub : l - 52 < emin -> P / Q < 2 ^ 52).
  { intros H. apply Z.div_lt_upper_bound; [lia|]. specialize (Hsub H). lia. }
  assert (He : emin <= e) by (unfold e; lia).
  unfold of_mantissa.
  destruct (round_half_even P Q) as [|m|m] eqn:Em; [exact I| |exact I].
  destruct (Z.pos m =? 2 ^ 53) eqn:E53.
  - destruct (etop <? e + 1) eqn:Et; [exact I|].
    apply Z.ltb_ge in Et. left. unfold emin, etop in *.
    change (Z.pos (Z.to_pos (2 ^ 52))) with (2 ^ 52). lia.
  - apply Z.eqb_neq in E53.
    destruct (etop <? e) eqn:Et; [exact I|].
    apply Z.ltb_ge in Et. cbn [binary64]. unfold canonical.
    destruct (Z_lt_le_dec (l - 52) emin) as [Hs|Hn].
    + specialize (Hdivsub Hs).
      destruct (Z.eq_dec (Z.pos m) (2 ^ 52)) as [E|N].
      * left. unfold e, emin, etop in *. lia.
      * right. unfold e, emin, etop in *. lia.
    + specialize (Hdiv52 Hn). left. unfold e, emin, etop in *. lia.
Qed.

Lemma span_digits_digits (s : string) : all_digits (fst (span_digits s)).
Proof.
  unfold all_digits. induction s as [|c s IH]; simpl; [reflexivity|].
  destruct (isdigit c) eqn:E; [|reflexivity].
  destruct (span_digits s) as [d t]. simpl in *. rewrite E, IH. reflexivity.
Qed.

Lemma digits_val_acc_nonneg (a : Z) (s : string) :
  0 <= a -> all_digits s -> 0 <= digits_val_acc a s.
Proof.
  unfold all_digits. revert a. induction s as [|c s IH]; intros a Ha H;
    cbn [digits_val_acc forallb_str] in *; [exact Ha|].
  apply andb_true_iff in H as [Hc Hs]. apply IH; [|exact Hs].
  unfold digit_val. unfold isdigit, in_range in Hc.
  apply andb_true_iff in Hc as [H1 H2]. apply Z.leb_le in H1, H2. lia.
Qed.

Lemma round_dec_binary64 (s : bool) (d k : Z) : 0 <= d -> binary64 (round_dec s d k).
Proof.
  intros Hd. unfold round_dec. destruct (d =? 0) eqn:E; [exact I|].
  apply Z.eqb_neq in E. unfold dec_ratio.
  destruct (0 <=? k) eqn:Ek; rewrite ?Z.leb_le, ?Z.leb_gt in Ek.
  - apply round_ratio_binary64; [|lia].
    assert (0 < 10 ^ k) by (apply Z.pow_pos_nonneg; lia). nia.
  - apply round_ratio_binary64; [lia|]. apply Z.pow_pos_nonneg; lia.
Qed.

(** [float(s)] is a binary64. *)
Theorem float_of_str_binary64 (s : string) (x : float) :
  float_of_str s = Some x -> binary64 x.
Proof.
  unfold float_of_str.
  destruct (drop_underscores _ (strip s)) as [t|]; [|discriminate].
  destruct (take_sign t) as [neg r].
  destruct (parse_decimal r) as [[d k]|] eqn:E.
  - intros [= <-]. apply round_dec_binary64.
    unfold parse_decimal in E.
    pose proof (span_digits_digits r) as Hip.
    destruct (span_digits r) as [ip r1]. cbn [fst] in Hip.
    assert (Hfp : forall fp r2,
              match r1 with
              | String c r' => if char_eqb c "." then span_digits r' else ("", r1)
              | "" => ("", r1)
              end = (fp, r2) -> all_digits fp).
    { intros fp r2 H. destruct r1 as [|c r'].
      - injection H as <- _. reflexivity.
      - destruct (char_eqb c ".").
        + pose proof (span_digits_digits r') as H'. rewrite H in H'. exact H'.
        + injection H as <- _. reflexivity. }
    destruct (match r1 with
              | String c r' => if char_eqb c "." then span_digits r' else ("", r1)
              | "" => ("", r1)
              end) as [fp r2] eqn:E2.
    specialize (Hfp fp r2 eq_refl).
    destruct (is_empty ip && is_empty fp); [discriminate|].
    destruct (parse_exponent r2); [|discriminate].
    injection E as <- _.
    apply digits_val_acc_nonneg; [lia|]. apply all_digits_app. auto.
  - unfold parse_inf_or_nan.
    destruct (_ || _); [intros [= <-]; exact I|].
    destruct (String.eqb _ _); [intros [= <-]; exact I | discriminate].
Qed.

End FloatValues.

(** ** What [add_expense] appends *)

Section Added.
Import PyStr.

Lemma capitalize_isalpha (s : string) :
  s <> "" -> forallb_str isalpha_char s = true -> isalpha (capitalize s) = true.
Proof.
  destruct s as [|a r]; [congruence|]. intros _ H. cbn [forallb_str] in H.
  apply andb_true_iff in H as [Ha Hr].
  unfold isalpha. cbn [capitalize is_empty negb andb forallb_str].
  apply andb_true_iff. split.
  - unfold isalpha_char. destruct (upper_char_spec a Ha) as [-> _]. reflexivity.
  - clear Ha. induction r as [|c r IH]; cbn [map_str forallb_str] in *; [reflexivity|].
    apply andb_true_iff in Hr as [Hc Hr]. rewrite (IH Hr), andb_true_r.
    unfold isalpha_char. destruct (lower_char_spec c Hc) as [-> _]. apply orb_true_r.
Qed.


(** [not (x <= 0)] is [0 < x], except for a NaN. *)
Lemma not_le_zero (x : PyFloat.float) :
  PyFloat.fleb x PyFloat.of_int_zero = false -> x <> S754_nan ->
  PyFloat.fltb PyFloat.of_int_zero x = true.
Proof.
  destruct x as [[]|[]| |[] m e]; cbn; intros H N; congruence.
Qed.

(** What [add_expense] appends is a well-formed expense, provided that the
    amount entered is not a NaN and that the file can carry the category and
    the description. *)
Lemma add_expense_well_formed (t t' : tracker) (inp inp' out : list string) :
  add_expense t inp = Some (t', inp', out) ->
  exists e,
    expenses t' = (expenses t ++ [to_dict e])%list /\
    (e_amount e <> S754_nan -> fits (e_category e) -> storable (e_description e) ->
     wf_entry e).
Proof.
  unfold add_expense. intros H.
  destruct (ask _ check_date inp) as [[[d i1] o1]|] eqn:E1; [|discriminate].
  destruct (ask _ check_category i1) as [[[c i2] o2]|] eqn:E2; [|discriminate].
  destruct (ask _ check_amount i2) as [[[x i3] o3]|] eqn:E3; [|discriminate].
  destruct (ask _ check_description i3) as [[[ds i4] o4]|] eqn:E4; [|discriminate].
  injection H as <- <- <-.
  apply ask_inv in E1 as (pre1 & l1 & -> & H1 & _).
  apply ask_inv in E2 as (pre2 & l2 & -> & H2 & _).
  apply ask_inv in E3 as (pre3 & l3 & -> & H3 & _).
  apply ask_inv in E4 as (pre4 & l4 & -> & H4 & _).
  apply check_date_inl in H1 as [-> V1].
  apply check_category_inl in H2 as (-> & N2 & A2).
  apply check_amount_inl in H3 as [F3 P3].
  apply check_description_inl in H4 as [-> N4].
  exists (mkEntry (strip l1) (capitalize (strip l2)) x (strip l4)).
  split; [reflexivity|]. cbn [e_date e_category e_amount e_description].
  intros Hn Hc Hd. unfold wf_entry. cbn [e_date e_category e_amount e_description].
  repeat split; auto.
  - apply capitalize_isalpha; assumption.
  - eapply float_of_str_binary64; eassumption.
  - apply not_le_zero; assumption.
  - apply Hd.
  - apply Hd.
Qed.

End Added.

(** ** Reading back what the csv writer wrote *)

Section CsvRoundTrip.
Import PyStr Csv.

(** *** The reader over the text of the file *)

Lemma feed_app (r : reader) (a b : string) :
  feed r (a ++ b) =
    match feed r a with
    | inl r' => feed r' b
    | inr e => inr e
    end.
Proof.
  revert r. induction a as [|c a IH]; intros r; simpl; [reflexivity|].
  destruct (parse_process_char r (Some c)); [apply IH | reflexivity].
Qed.

Lemma lines_from_head (cur s : string) :
  cur <> "" -> exists x rest, lines_from cur s = (cur ++ x) :: rest.
Proof.
  revert cur. induction s as [|c s IH]; intros cur Hne; simpl.
  - destruct cur; [congruence|]. exists "", []. rewrite append_nil_r_str. reflexivity.
  - destruct (char_eqb c LF).
    + eexists. eexists. reflexivity.
    + destruct (IH (cur ++ String c "")) as (x & rest & ->).
      * destruct cur; discriminate.
      * exists (String c x), rest. rewrite append_assoc_str. reflexivity.
Qed.

Lemma read_lines_error (cur s : string) (r : reader) (e : error) :
  cur <> "" -> feed r cur = inr e ->
  read_lines (lines_from cur s) r = ([], Some e).
Proof.
  intros Hne He. destruct (lines_from_head cur s Hne) as (x & rest & ->).
  cbn [read_lines]. unfold feed_line. rewrite feed_app, He. reflexivity.
Qed.

Lemma read_lines_text (s cur : string) (r0 r1 : reader) :
  feed r0 cur = inl r1 ->
  read_lines (lines_from cur s) r0 = read_text s (negb (is_empty cur)) r1.
Proof.
  revert cur r0 r1. induction s as [|c s IH]; intros cur r0 r1 Hf.
  - cbn [lines_from read_text]. destruct cur as [|x cur].
    + simpl in Hf. injection Hf as <-. reflexivity.
    + cbn [is_empty negb read_lines]. unfold feed_line. rewrite Hf.
      destruct (parse_process_char r1 None) as [r'|e]; [|reflexivity].
      destruct (state_eqb (st r') START_RECORD); reflexivity.
  - cbn [lines_from read_text].
    assert (Hstep : feed r0 (cur ++ String c "") = parse_process_char r1 (Some c)).
    { rewrite feed_app, Hf. simpl.
      destruct (parse_process_char r1 (Some c)); reflexivity. }
    destruct (char_eqb c LF) eqn:Ec.
    + cbn [read_lines]. unfold feed_line. rewrite Hstep.
      destruct (parse_process_char r1 (Some c)) as [r1'|e]; [|reflexivity].
      destruct (parse_process_char r1' None) as [r2|e]; [|reflexivity].
      destruct (state_eqb (st r2) START_RECORD).
      * rewrite (IH "" parse_reset parse_reset eq_refl). reflexivity.
      * rewrite (IH "" r2 r2 eq_refl). reflexivity.
    + destruct (parse_process_char r1 (Some c)) as [r1'|e] eqn:E1.
      * rewrite (IH (cur ++ String c "") r0 r1' Hstep).
        destruct cur; reflexivity.
      * apply read_lines_error; [destruct cur; discriminate | exact Hstep].
Qed.

Lemma read_text_run (a : string) (c : ascii) (rest : string) (mid : bool) (r r' : reader) :
  run r a = Some r' ->
  read_text (a ++ String c rest) mid r = read_text (String c rest) false r'.
Proof.
  revert mid r. induction a as [|x a IH]; intros mid r H.
  - simpl in H. injection H as <-. reflexivity.
  - cbn [append read_text]. cbn [run] in H.
    destruct (parse_process_char r (Some x)) as [r1|e]; [|discriminate].
    destruct (char_eqb x LF).
    + destruct (parse_process_char r1 None) as [r2|e]; [|discriminate].
      destruct (state_eqb (st r2) START_RECORD); [discriminate|].
      apply IH, H.
    + apply IH, H.
Qed.

Lemma run_app (a b : string) (r r' : reader) :
  run r a = Some r' -> run r (a ++ b) = run r' b.
Proof.
  revert r. induction a as [|x a IH]; intros r H.
  - simpl in H. injection H as <-. reflexivity.
  - cbn [append run]. cbn [run] in H.
    destruct (parse_process_char r (Some x)) as [r1|e]; [|discriminate].
    destruct (char_eqb x LF).
    + destruct (parse_process_char r1 None) as [r2|e]; [|discriminate].
      destruct (state_eqb (st r2) START_RECORD); [discriminate|].
      apply IH, H.
    + apply IH, H.
Qed.

(** *** One field *)

Lemma special_false (c : ascii) :
  special c = false ->
  char_eqb c COMMA = false /\ char_eqb c DQUOTE = false /\
  char_eqb c LF = false /\ is_newline c = false.
Proof.
  unfold special, is_newline. intros H.
  repeat (apply orb_false_iff in H as [H ?]).
  repeat split; try assumption.
  apply orb_false_iff. auto.
Qed.

Lemma add_char_ok (s0 s1 : state) (acc : string) (fs : list string) (c : ascii) :
  Z.of_nat (String.length acc) < field_limit ->
  parse_add_char (mkReader s0 acc fs) s1 c = inl (mkReader s1 (acc ++ String c "") fs).
Proof.
  intros H. unfold parse_add_char. cbn [field fields].
  rewrite (proj2 (Z.leb_gt _ _)) by exact H. reflexivity.
Qed.

Lemma run_plain (f acc : string) (fs : list string) :
  needs_quotes f = false ->
  Z.of_nat (String.length acc + String.length f) <= field_limit ->
  run (mkReader IN_FIELD acc fs) f = Some (mkReader IN_FIELD (acc ++ f) fs).
Proof.
  revert acc. induction f as [|c f IH]; intros acc Hq Hl.
  - rewrite append_nil_r_str. reflexivity.
  - cbn [needs_quotes] in Hq. apply orb_false_iff in Hq as [Hc Hq].
    apply special_false in Hc as (Hcomma & Hquote & Hlf & Hnl).
    cbn [run parse_process_char st]. rewrite Hnl, Hcomma.
    cbn [String.length] in Hl.
    rewrite add_char_ok by lia. rewrite Hlf.
    rewrite IH; [|exact Hq|rewrite length_append_str; simpl; lia].
    rewrite append_assoc_str. reflexivity.
Qed.

Lemma run_quoted (f acc : string) (fs : list string) :
  Z.of_nat (String.length acc + String.length f) <= field_limit ->
  run (mkReader IN_QUOTED_FIELD acc fs) (double_quotes f) =
    Some (mkReader IN_QUOTED_FIELD (acc ++ f) fs).
Proof.
  revert acc. induction f as [|c f IH]; intros acc Hl.
  - rewrite append_nil_r_str. reflexivity.
  - cbn [String.length] in Hl. cbn [double_quotes].
    assert (Hnext : run (mkReader IN_QUOTED_FIELD (acc ++ String c "") fs) (double_quotes f) =
                    Some (mkReader IN_QUOTED_FIELD (acc ++ String c f) fs)).
    { rewrite IH by (rewrite length_append_str; simpl; lia).
      rewrite append_assoc_str. reflexivity. }
    destruct (char_eqb c DQUOTE) eqn:Eq.
    + assert (c = DQUOTE) by (apply Ascii.eqb_eq, Eq). subst c.
      cbn [run parse_process_char st].
      change (char_eqb DQUOTE DQUOTE) with true. cbv iota.
      change (char_eqb DQUOTE LF) with false. cbv iota.
      unfold set_state. cbn [parse_process_char st field fields].
      change (char_eqb DQUOTE DQUOTE) with true. cbv iota.
      rewrite add_char_ok by lia.
      exact Hnext.
    + cbn [run parse_process_char st]. rewrite Eq.
      rewrite add_char_ok by lia.
      destruct (char_eqb c LF); [|exact Hnext].
      cbn [parse_process_char st state_eqb]. exact Hnext.
Qed.

Lemma run_field (r0 : reader) (f : string) :
  at_field_start r0 -> Z.of_nat (String.length f) <= field_limit ->
  exists r1, run r0 (write_field f) = Some r1 /\ after_field r0 r1 f.
Proof.
  intros [Hst Hf] Hl. destruct r0 as [s0 acc fs]. cbn [st field] in *. subst acc.
  unfold write_field, after_field. destruct (needs_quotes f) eqn:Eq.
  - exists (mkReader QUOTE_IN_QUOTED_FIELD f fs). split; [|cbn; auto].
    assert (H1 : parse_process_char (mkReader s0 "" fs) (Some DQUOTE) =
                 inl (mkReader IN_QUOTED_FIELD "" fs)).
    { destruct Hst as [-> | ->]; reflexivity. }
    cbn [run]. rewrite H1. change (char_eqb DQUOTE LF) with false. cbv iota.
    rewrite (run_app _ _ _ _ (run_quoted f "" fs Hl)).
    reflexivity.
  - destruct f as [|c f].
    + exists (mkReader s0 "" fs). split; [reflexivity | cbn; auto].
    + exists (mkReader IN_FIELD (String c f) fs). split; [|cbn; auto].
      cbn [needs_quotes] in Eq. apply orb_false_iff in Eq as [Hc Eq].
      apply special_false in Hc as (Hcomma & Hquote & Hlf & Hnl).
      assert (H1 : parse_process_char (mkReader s0 "" fs) (Some c) =
                   inl (mkReader IN_FIELD (String c "") fs)).
      { destruct Hst as [-> | ->]; cbn [parse_process_char st start_field];
          rewrite Hnl, ?Hquote, ?Hcomma; reflexivity. }
      cbn [run]. rewrite H1, Hlf.
      apply run_plain; [exact Eq|]. cbn [String.length] in *. lia.
Qed.

Lemma comma_after_field (r0 r1 : reader) (f : string) :
  at_field_start r0 -> after_field r0 r1 f ->
  parse_process_char r1 (Some COMMA) =
    inl (mkReader START_FIELD "" (fields r0 ++ [f])).
Proof.
  intros [Hst Hf] [Hfs H].
  destruct r0 as [s0 acc0 fs0]. destruct r1 as [s1 acc1 fs1].
  cbn [st field fields] in *. subst fs1 acc0.
  destruct H as [[-> ->]|[[E ->]|[-> ->]]]; try reflexivity.
  injection E as -> ->.
  destruct Hst as [-> | ->]; reflexivity.
Qed.

Lemma newline_after_field (r0 r1 : reader) (f : string) :
  st r0 = START_FIELD -> field r0 = "" -> after_field r0 r1 f ->
  exists r2,
    parse_process_char r1 (Some LF) = inl r2 /\
    parse_process_char r2 None = inl (mkReader START_RECORD "" (fields r0 ++ [f])).
Proof.
  intros Hst Hf [Hfs H].
  destruct r0 as [s0 acc0 fs0]. destruct r1 as [s1 acc1 fs1].
  cbn [st field fields] in *. subst fs1 acc0 s0.
  exists (mkReader EAT_CRNL "" (fs0 ++ [f])).
  destruct H as [[-> ->]|[[E ->]|[-> ->]]]; try (split; reflexivity).
  injection E as -> ->. split; reflexivity.
Qed.

(** *** One record *)

Lemma read_fields (fl : list string) :
  forall (r0 : reader) (rest : string) (mid : bool),
  fl <> [] -> at_field_start r0 ->
  (st r0 = START_RECORD -> (2 <= List.length fl)%nat) ->
  Forall fits fl ->
  read_text (join_fields fl ++ String LF rest) mid r0 =
    let '(recs, e) := read_text rest false parse_reset in
    ((fields r0 ++ fl)%list :: recs, e).
Proof.
  induction fl as [|f fl IH]; intros r0 rest mid Hne Hstart Hrec Hfit; [congruence|].
  inversion Hfit as [|? ? Hf Hfl]; subst.
  destruct (run_field r0 f Hstart Hf) as (r1 & Hrun & Hafter).
  destruct fl as [|f2 more].
  - cbn [join_fields].
    rewrite (read_text_run _ _ _ _ _ _ Hrun).
    assert (Hst : st r0 = START_FIELD).
    { destruct Hstart as [[H|H] _]; [exact H|]. specialize (Hrec H). simpl in Hrec. lia. }
    destruct (newline_after_field r0 r1 f Hst (proj2 Hstart) Hafter) as (r2 & H1 & H2).
    cbn [read_text]. rewrite H1.
    change (char_eqb LF LF) with true. cbv iota.
    rewrite H2. cbn [st state_eqb fields]. reflexivity.
  - change (join_fields (f :: f2 :: more))
      with (write_field f ++ String COMMA (join_fields (f2 :: more))).
    rewrite append_assoc_str.
    change (String COMMA (join_fields (f2 :: more)) ++ String LF rest)
      with (String COMMA (join_fields (f2 :: more) ++ String LF rest)).
    rewrite (read_text_run _ _ _ _ _ _ Hrun).
    cbn [read_text]. rewrite (comma_after_field r0 r1 f Hstart Hafter).
    change (char_eqb COMMA LF) with false. cbv iota.
    rewrite IH.
    + cbn [fields]. rewrite <- app_assoc. reflexivity.
    + discriminate.
    + split; [left|]; reflexivity.
    + cbn [st]. discriminate.
    + exact Hfl.
Qed.

(** *** The whole text *)

Lemma no_cr_app (a b : string) : no_cr (a ++ b) <-> no_cr a /\ no_cr b.
Proof.
  unfold no_cr. induction a as [|c a IH]; simpl.
  - tauto.
  - rewrite !andb_true_iff, IH. tauto.
Qed.

Lemma universal_newlines_no_cr (a rest : string) :
  no_cr a -> universal_newlines (a ++ rest) = a ++ universal_newlines rest.
Proof.
  unfold no_cr. induction a as [|c a IH]; simpl; [reflexivity|].
  rewrite andb_true_iff. intros [Hc Ha].
  apply negb_true_iff in Hc. rewrite Hc, (IH Ha). reflexivity.
Qed.

Lemma no_cr_double_quotes (f : string) : no_cr f -> no_cr (double_quotes f).
Proof.
  unfold no_cr. induction f as [|c f IH]; simpl; [auto|].
  rewrite andb_true_iff. intros [Hc Hf].
  destruct (char_eqb c DQUOTE); simpl; rewrite ?Hc, (IH Hf); reflexivity.
Qed.

Lemma no_cr_write_field (f : string) : no_cr f -> no_cr (write_field f).
Proof.
  intros H. unfold write_field. destruct (needs_quotes f); [|exact H].
  apply (no_cr_app (String DQUOTE "")). split; [reflexivity|].
  apply no_cr_app. split; [apply no_cr_double_quotes, H | reflexivity].
Qed.

Lemma no_cr_join_fields (fl : list string) :
  Forall no_cr fl -> no_cr (join_fields fl).
Proof.
  induction 1 as [|f fl Hf Hfl IH]; [reflexivity|].
  destruct fl as [|f2 more]; [apply no_cr_write_field, Hf|].
  change (join_fields (f :: f2 :: more))
    with (write_field f ++ String COMMA (join_fields (f2 :: more))).
  apply no_cr_app. split; [apply no_cr_write_field, Hf|].
  apply (no_cr_app (String COMMA "")). split; [reflexivity | exact IH].
Qed.

Lemma writerow_text (fl : list string) :
  (2 <= List.length fl)%nat ->
  writerow fl = join_fields fl ++ line_terminator.
Proof.
  intros H. unfold writerow.
  destruct fl as [|f [|f2 more]]; simpl in H; try lia.
  change (join_fields (f :: f2 :: more))
    with (write_field f ++ String COMMA (join_fields (f2 :: more))).
  rewrite is_empty_app. cbn [is_empty]. rewrite andb_false_r. reflexivity.
Qed.

Lemma read_written_text (rows : list (list string)) :
  Forall row_ok rows ->
  read_text (universal_newlines (concat_str (map writerow rows))) false parse_reset =
    (rows, None).
Proof.
  induction 1 as [|fl rows [Hlen Hst] _ IH]; [reflexivity|].
  cbn [map concat_str]. rewrite writerow_text by exact Hlen.
  rewrite append_assoc_str.
  rewrite universal_newlines_no_cr.
  2:{ apply no_cr_join_fields. eapply Forall_impl; [|exact Hst]. intros f [H _]; exact H. }
  change (universal_newlines (line_terminator ++ concat_str (map writerow rows)))
    with (String LF (universal_newlines (concat_str (map writerow rows)))).
  rewrite read_fields.
  - rewrite IH. reflexivity.
  - destruct fl; [simpl in Hlen; lia | discriminate].
  - split; [right|]; reflexivity.
  - intros _. exact Hlen.
  - eapply Forall_impl; [|exact Hst]. intros f [_ H]; exact H.
Qed.

(** Reading the records the writer wrote gives them back. *)
Theorem reader_rows_written (rows : list (list string)) :
  Forall row_ok rows ->
  reader_rows (file_lines (concat_str (map writerow rows))) = (rows, None).
Proof.
  intros H. unfold reader_rows, file_lines.
  rewrite (read_lines_text _ "" parse_reset parse_reset eq_refl).
  apply read_written_text, H.
Qed.

End CsvRoundTrip.

(** ** Saving and loading again *)

Section RoundTrip.
Import PyStr.

Lemma isalpha_char_not_cr (c : ascii) :
  isalpha_char c = true -> negb (char_eqb c Csv.CR) = true.
Proof. by_cases_on_char c. Qed.

Lemma isalpha_no_cr (s : string) : isalpha s = true -> no_cr s.
Proof.
  unfold isalpha, no_cr. intros H. apply andb_true_iff in H as [_ H].
  induction s as [|c s IH]; simpl in *; [reflexivity|].
  apply andb_true_iff in H as [Hc Hs].
  rewrite (isalpha_char_not_cr c Hc), (IH Hs). reflexivity.
Qed.

Lemma date_char_not_cr (c : ascii) :
  isdigit c = true \/ char_eqb c " " = true \/ char_eqb c "-" = true ->
  negb (char_eqb c Csv.CR) = true.
Proof.
  destruct c as [[] [] [] [] [] [] [] []]; vm_compute; intuition discriminate.
Qed.

Lemma day_text_chars (d : string) :
  DateShape.day_text d = true ->
  no_cr d /\ (String.length d <= 2)%nat.
Proof.
  unfold no_cr.
  destruct d as [|a [|b [|c d]]]; try discriminate; intros H; simpl; split; try lia.
  - rewrite date_char_not_cr; [reflexivity|]. left. to_codes. lia.
  - rewrite !date_char_not_cr; [reflexivity| |]; to_codes; lia.
Qed.

Lemma month_text_chars (m : string) :
  DateShape.month_text m = true ->
  no_cr m /\ (String.length m <= 2)%nat.
Proof.
  unfold no_cr.
  destruct m as [|a [|b [|c m]]]; try discriminate; intros H; simpl; split; try lia.
  - rewrite date_char_not_cr; [reflexivity|]. left. to_codes. lia.
  - rewrite !date_char_not_cr; [reflexivity| |]; to_codes; lia.
Qed.

Lemma year_text_chars (y : string) :
  DateShape.year_text y = true ->
  no_cr y /\ (String.length y <= 4)%nat.
Proof.
  unfold no_cr, DateShape.year_text.
  destruct y as [|a [|b [|c [|d [|e y]]]]]; try discriminate; intros H; simpl; split; try lia.
  do 3 (apply andb_true_iff in H as [H ?]).
  rewrite !date_char_not_cr by (left; assumption). reflexivity.
Qed.

(** A date [_validate_date] accepts has at most ten characters, none of
    them a carriage return. *)
Lemma valid_date_storable (s : string) : _validate_date s = true -> storable s.
Proof.
  intros H. apply validate_date_parts in H as (d & m & y & -> & Hd & Hm & Hy & _).
  apply day_text_chars in Hd as [Hd1 Hd2].
  apply month_text_chars in Hm as [Hm1 Hm2].
  apply year_text_chars in Hy as [Hy1 Hy2].
  split.
  - apply no_cr_app. split; [exact Hd1|].
    apply (no_cr_app "-"). split; [reflexivity|].
    apply no_cr_app. split; [exact Hm1|].
    apply (no_cr_app "-"). split; [reflexivity | exact Hy1].
  - rewrite !length_append_str. unfold Csv.field_limit. simpl String.length. lia.
Qed.

Lemma cells_row_ok (e : entry) : wf_entry e -> row_ok (cells e).
Proof.
  intros (Hdate & Hcat & Hfit & Hbin & _ & _ & Hdesc).
  split; [simpl; lia|].
  destruct (float_repr_reads_back _ Hbin) as (_ & Hcr & Hlen).
  repeat constructor.
  - apply valid_date_storable, Hdate.
  - apply valid_date_storable, Hdate.
  - apply isalpha_no_cr, Hcat.
  - exact Hfit.
  - exact Hcr.
  - unfold Csv.field_limit. lia.
  - apply Hdesc.
  - apply Hdesc.
Qed.

Lemma fieldnames_row_ok : row_ok fieldnames.
Proof.
  split; [simpl; lia|].
  repeat constructor; try reflexivity; unfold Csv.field_limit; simpl; lia.
Qed.


Lemma load_row_saved (e : entry) :
  PyFloat.binary64 (e_amount e) ->
  load_row (DictCsv.row_dict fieldnames (cells e)) = Appended (to_dict e).
Proof.
  intros Hbin. destruct (float_repr_reads_back _ Hbin) as (Hread & _).
  unfold load_row, cells.
  change (dict_get (DictCsv.row_dict fieldnames
            [e_date e; e_category e; PyFloat.float_repr (e_amount e); e_description e])
            (Some "amount"))
    with (Some (VStr (PyFloat.float_repr (e_amount e)))).
  unfold py_float. rewrite Hread. reflexivity.
Qed.

Lemma load_rows_saved (es : list entry) :
  Forall wf_entry es ->
  load_rows (map (fun e => DictCsv.row_dict fieldnames (cells e)) es) =
    (map to_dict es, None).
Proof.
  induction 1 as [|e es He _ IH]; [reflexivity|].
  cbn [map load_rows]. rewrite load_row_saved by apply He.
  rewrite IH. reflexivity.
Qed.

End RoundTrip.



(** The same, by running the writer and the reader on that ledger. *)
Example save_load_save_run :
  _save_expenses (mkTracker (map to_dict entries_quoted) ten) =
    (true,
     Some ("date,category,amount,description" ++ Csv.line_terminator ++
           "05-03-2024,Food,0.125," ++ String Csv.DQUOTE ("tea, milk" ++
             String Csv.DQUOTE Csv.line_terminator) ++
           "6-3-2024,Travel,0.30000000000000004," ++
             String Csv.DQUOTE ("bus " ++ String Csv.DQUOTE (String Csv.DQUOTE ("42" ++
               String Csv.DQUOTE (String Csv.DQUOTE ("," ++ String Csv.LF ("and back" ++
               String Csv.DQUOTE Csv.line_terminator)))))))) /\
  init (snd (_save_expenses (mkTracker (map to_dict entries_quoted) ten))) =
    (mkTracker (map to_dict entries_quoted) (S754_zero false), None).
Proof. split; vm_compute; reflexivity. Qed.

(** * Further properties

    Properties of the rest of the class: the loader and the writer on files
    that are not the ones the program wrote, the prompts, the display, and
    the menu loop. *)

(** ** More on loading *)

Section MoreLoading.

(** Every row the loop appends has the four columns and a float amount. *)
Lemma load_row_ok (row d : dict) : load_row row = Appended d -> loaded_ok d.
Proof.
  unfold load_row.
  destruct (dict_get row (Some "amount")) as [v|]; [|discriminate].
  destruct (py_float v) as [x| |]; try discriminate.
  destruct (forallb _ fieldnames) eqn:E; [|discriminate].
  cbn [negb]. intros [= <-]. split.
  - exists x. clear E. induction row as [|[k w] row IH]; [reflexivity|].
    cbn [dict_set]. destruct (key_eqb (Some "amount") k) eqn:Ek.
    + cbn [dict_get]. rewrite Ek. reflexivity.
    + cbn [dict_get]. rewrite Ek. exact IH.
  - apply Forall_forall. intros k Hk.
    rewrite forallb_forall in E. apply E, Hk.
Qed.

Lemma load_rows_ok (rows : list dict) : Forall loaded_ok (fst (load_rows rows)).
Proof.
  induction rows as [|row rows IH]; cbn [load_rows]; [constructor|].
  destruct (load_row row) as [d| |e] eqn:E.
  - destruct (load_rows rows) as [ds e']. cbn [fst] in *.
    constructor; [|exact IH]. eapply load_row_ok, E.
  - exact IH.
  - constructor.
Qed.

(** X1. Whatever the file holds, every expense [_load_expenses] puts in the
    ledger has the four columns and a float as its amount. *)
Theorem loaded_expenses_ok (f : file) :
  Forall loaded_ok (expenses (fst (init f))).
Proof.
  unfold init, _load_expenses. destruct f as [content|]; [|constructor].
  destruct (DictCsv.rows _) as [rows e].
  pose proof (load_rows_ok rows) as H.
  destruct (load_rows rows) as [ds err]. exact H.
Qed.





Lemma key_eqb_eq (a b : key) : key_eqb a b = true <-> a = b.
Proof.
  destruct a as [x|], b as [y|]; simpl; try (split; congruence).
  rewrite String.eqb_eq. split; congruence.
Qed.

Lemma key_eqb_refl (a : key) : key_eqb a a = true.
Proof. apply key_eqb_eq. reflexivity. Qed.

Lemma dict_get_set (d : dict) (k' k : key) (v : pyval) :
  dict_get (dict_set d k' v) k = if key_eqb k k' then Some v else dict_get d k.
Proof.
  induction d as [|[k2 v2] d IH]; cbn [dict_set dict_get].
  - reflexivity.
  - destruct (key_eqb k' k2) eqn:E2; cbn [dict_get].
    + apply key_eqb_eq in E2. subst k2. destruct (key_eqb k k'); reflexivity.
    + destruct (key_eqb k k2) eqn:E.
      * apply key_eqb_eq in E. subst k2.
        destruct (key_eqb k k') eqn:E'; [|reflexivity].
        apply key_eqb_eq in E'. subst k'. rewrite key_eqb_refl in E2. discriminate.
      * exact IH.
Qed.

Lemma dict_mem_set (d : dict) (k' k : key) (v : pyval) :
  dict_mem (dict_set d k' v) k = key_eqb k k' || dict_mem d k.
Proof.
  unfold dict_mem. rewrite dict_get_set. destruct (key_eqb k k'); reflexivity.
Qed.

Lemma dict_of_zip_keys (names cells : list string) (d : dict) (k : string) :
  dict_mem (dict_of_zip names cells d) (Some k) = true ->
  In k names \/ dict_mem d (Some k) = true.
Proof.
  revert cells d. induction names as [|n names IH]; intros cells d H.
  - destruct cells; auto.
  - destruct cells as [|c cells]; [auto|]. cbn [dict_of_zip] in H.
    apply IH in H as [H|H]; [left; right; exact H|].
    rewrite dict_mem_set in H. apply orb_true_iff in H as [H|H]; [|auto].
    apply key_eqb_eq in H. injection H as ->. left; left; reflexivity.
Qed.

Lemma restval_keys (names : list string) (d : dict) (k : string) :
  dict_mem (fold_left (fun d n => dict_set d (Some n) VNone) names d) (Some k) = true ->
  In k names \/ dict_mem d (Some k) = true.
Proof.
  revert d. induction names as [|n names IH]; intros d H; [auto|].
  cbn [fold_left] in H. apply IH in H as [H|H]; [left; right; exact H|].
  rewrite dict_mem_set in H. apply orb_true_iff in H as [H|H]; [|auto].
  apply key_eqb_eq in H. injection H as ->. left; left; reflexivity.
Qed.

(** The string keys of a row of [csv.DictReader] are names of the header. *)
Lemma row_dict_keys (h r : list string) (k : string) :
  dict_mem (DictCsv.row_dict h r) (Some k) = true -> In k h.
Proof.
  unfold DictCsv.row_dict. intros H.
  destruct (Nat.ltb (List.length h) (List.length r)).
  - rewrite dict_mem_set in H. cbn [key_eqb orb] in H.
    apply dict_of_zip_keys in H as [H|H]; [exact H | discriminate].
  - destruct (Nat.ltb (List.length r) (List.length h)).
    + apply restval_keys in H as [H|H].
      * clear - H. revert H. generalize (List.length r) as n.
        induction h as [|x h IH]; intros n H; destruct n; simpl in *; auto.
        right. eapply IH, H.
      * apply dict_of_zip_keys in H as [H|H]; [exact H | discriminate].
    + apply dict_of_zip_keys in H as [H|H]; [exact H | discriminate].
Qed.

Lemma load_row_missing_column (h r : list string) (name : string) :
  In name fieldnames -> ~ In name h ->
  forall d, load_row (DictCsv.row_dict h r) <> Appended d.
Proof.
  intros Hn Hh d. unfold load_row.
  destruct (dict_get _ (Some "amount")) as [v|] eqn:Ea; [|discriminate].
  destruct (py_float v) as [x| |]; try discriminate.
  destruct (forallb _ fieldnames) eqn:E; [|discriminate].
  exfalso. rewrite forallb_forall in E. specialize (E name Hn).
  rewrite dict_mem_set in E. apply orb_true_iff in E as [E|E].
  - apply key_eqb_eq in E. injection E as ->.
    apply Hh, (row_dict_keys h r). unfold dict_mem. rewrite Ea. reflexivity.
  - apply Hh, (row_dict_keys h r), E.
Qed.

Lemma load_rows_missing_column (h : list string) (name : string) (rs : list (list string)) :
  In name fieldnames -> ~ In name h ->
  fst (load_rows (map (DictCsv.row_dict h) rs)) = [].
Proof.
  intros Hn Hh. induction rs as [|r rs IH]; [reflexivity|].
  cbn [map load_rows].
  destruct (load_row _) as [d| |e] eqn:E.
  - exfalso. exact (load_row_missing_column h r name Hn Hh d E).
  - exact IH.
  - reflexivity.
Qed.

(** X3. If the header of the file lacks one of the four column names, no
    expense is loaded from the file. *)
Theorem load_needs_all_columns (content : string) (h : list string)
    (recs : list (list string)) (e : option Csv.error) (name : string) :
  Csv.reader_rows (Csv.file_lines content) = (h :: recs, e) ->
  In name fieldnames -> ~ In name h ->
  expenses (fst (init (Some content))) = [].
Proof.
  intros Hr Hn Hh. unfold init, _load_expenses, DictCsv.rows. rewrite Hr.
  pose proof (load_rows_missing_column h name
                (filter (fun r => negb (DictCsv.is_blank r)) recs) Hn Hh) as H.
  destruct (load_rows _) as [ds err]. cbn [fst] in H. subst ds. reflexivity.
Qed.

Lemma load_needs_all_columns_witness :
  Csv.reader_rows (Csv.file_lines file_other_header) =
    (["Date"; "category"; "amount"; "description"] ::
     [["05-03-2024"; "Food"; "70.0"; "lunch"]], None) /\
  expenses (fst (init (Some file_other_header))) = [].
Proof.
  assert (H : Csv.reader_rows (Csv.file_lines file_other_header) =
    (["Date"; "category"; "amount"; "description"] ::
     [["05-03-2024"; "Food"; "70.0"; "lunch"]], None)) by reflexivity.
  split; [exact H|].
  apply (load_needs_all_columns file_other_header _ _ _ "date" H).
  - left; reflexivity.
  - intros [E|[E|[E|[E|[]]]]]; discriminate.
Defined.

End MoreLoading.

(** ** More on saving *)

Section MoreSaving.



Lemma load_rows_app (a b : list dict) (da : list dict) :
  load_rows a = (da, None) ->
  load_rows (a ++ b) = ((da ++ fst (load_rows b))%list, snd (load_rows b)).
Proof.
  revert da. induction a as [|r a IH]; intros da H.
  - injection H as <-. cbn [app]. destruct (load_rows b); reflexivity.
  - cbn [app load_rows] in *. destruct (load_row r) as [d| |e].
    + destruct (load_rows a) as [ds e] eqn:E. injection H as <- ->.
      rewrite (IH ds eq_refl). reflexivity.
    + apply IH, H.
    + discriminate.
Qed.

Lemma write_rows_app (a b : list dict) (text : string) :
  write_rows a = (text, true) ->
  write_rows (a ++ b) = (text ++ fst (write_rows b), snd (write_rows b)).
Proof.
  revert text. induction a as [|d a IH]; intros text H.
  - injection H as <-. cbn [app append]. destruct (write_rows b); reflexivity.
  - cbn [app write_rows] in *.
    destruct (DictCsv.dict_to_list fieldnames d) as [cs|]; [|discriminate].
    destruct (write_rows a) as [ta ok] eqn:E. injection H as <- ->.
    rewrite (IH ta eq_refl).
    destruct (write_rows b) as [tb okb]. cbn [fst snd].
    rewrite append_assoc_str. reflexivity.
Qed.

Lemma load_row_extra_cell (e : entry) (c : string) :
  PyFloat.binary64 (e_amount e) ->
  load_row (DictCsv.row_dict fieldnames (cells e ++ [c])%list) =
    Appended (to_dict e ++ [(None, VList [c])])%list.
Proof.
  intros Hbin. destruct (float_repr_reads_back _ Hbin) as (Hread & _).
  unfold load_row, cells.
  change (dict_get (DictCsv.row_dict fieldnames
            ([e_date e; e_category e; PyFloat.float_repr (e_amount e); e_description e]
             ++ [c])%list) (Some "amount"))
    with (Some (VStr (PyFloat.float_repr (e_amount e)))).
  unfold py_float. rewrite Hread. reflexivity.
Qed.

Lemma concat_str_app (a b : list string) :
  concat_str (a ++ b) = concat_str a ++ concat_str b.
Proof.
  induction a as [|x a IH]; [reflexivity|].
  cbn [app concat_str]. rewrite IH, append_assoc_str. reflexivity.
Qed.

(** X5. A record with a fifth cell among well-formed ones: it is loaded,
    with the fifth cell under the key [None], and nothing is reported;
    [_save_expenses] then returns [False], and the file it leaves holds the
    header and the expenses before that one only. *)
Theorem extra_cell_then_save (es1 es2 : list entry) (e : entry) (c : string) :
  Forall wf_entry es1 -> wf_entry e -> storable c -> Forall wf_entry es2 ->
  let text := Csv.writerow fieldnames ++ saved_rows es1 ++
              Csv.writerow (cells e ++ [c])%list ++ saved_rows es2 in
  init (Some text) =
    (mkTracker (map to_dict es1 ++ (to_dict e ++ [(None, VList [c])]) :: map to_dict es2)%list
               (S754_zero false), None) /\
  _save_expenses (fst (init (Some text))) =
    (false, Some (Csv.writerow fieldnames ++ saved_rows es1)).
Proof.
  intros H1 He Hc H2 text.
  assert (Hload : init (Some text) =
    (mkTracker (map to_dict es1 ++ (to_dict e ++ [(None, VList [c])]) :: map to_dict es2)%list
               (S754_zero false), None)).
  { unfold init, _load_expenses, DictCsv.rows.
    replace text with
      (concat_str (map Csv.writerow
         (fieldnames :: map cells es1 ++ (cells e ++ [c]) :: map cells es2)%list)).
    2:{ unfold text, saved_rows. cbn [map concat_str]. f_equal.
        rewrite map_app, concat_str_app. cbn [map concat_str].
        rewrite !map_map. reflexivity. }
    rewrite reader_rows_written.
    - replace (filter (fun r => negb (DictCsv.is_blank r))
                 (map cells es1 ++ (cells e ++ [c]) :: map cells es2)%list)
        with (map cells es1 ++ (cells e ++ [c]) :: map cells es2)%list.
      2:{ symmetry. apply forallb_filter_id. apply forallb_forall. intros r Hr.
          apply in_app_or in Hr as [Hr|[<-|Hr]]; [|reflexivity|];
            apply in_map_iff in Hr as (x & <- & _); reflexivity. }
      rewrite map_app. cbn [map]. rewrite !map_map.
      rewrite (load_rows_app _ _ _ (load_rows_saved es1 H1)).
      cbn [load_rows]. rewrite load_row_extra_cell by apply He.
      rewrite (load_rows_saved es2 H2). reflexivity.
    - constructor; [exact fieldnames_row_ok|].
      apply Forall_app. split.
      + apply Forall_map. eapply Forall_impl; [|exact H1]. apply cells_row_ok.
      + constructor.
        * destruct (cells_row_ok e He) as [Hl Hs]. split.
          -- rewrite length_app. simpl. lia.
          -- apply Forall_app. split; [exact Hs | constructor; [exact Hc | constructor]].
        * apply Forall_map. eapply Forall_impl; [|exact H2]. apply cells_row_ok. }
  split; [exact Hload|]. rewrite Hload.
  unfold _save_expenses. cbn [fst expenses].
  rewrite (write_rows_app _ _ _ (write_rows_entries es1)).
  assert (Hd : DictCsv.dict_to_list fieldnames (to_dict e ++ [(None, VList [c])])%list = None)
    by reflexivity.
  cbn [write_rows]. rewrite Hd. cbn [fst snd].
  rewrite append_nil_r_str. reflexivity.
Qed.

Lemma extra_cell_then_save_witness :
  Forall wf_entry [mkEntry "05-03-2024" "Food" eighth "tea, milk"] /\
  wf_entry (mkEntry "06-03-2024" "Food" ten "lunch") /\
  storable "paid" /\
  Forall wf_entry [mkEntry "07-03-2024" "Food" three_tenths "gum"] /\
  init (Some ("date,category,amount,description" ++ Csv.line_terminator ++
              "05-03-2024,Food,0.125," ++ String Csv.DQUOTE ("tea, milk" ++
                String Csv.DQUOTE Csv.line_terminator) ++
              "06-03-2024,Food,10.0,lunch,paid" ++ Csv.line_terminator ++
              "07-03-2024,Food,0.30000000000000004,gum" ++ Csv.line_terminator)) =
    (mkTracker
       [expense "05-03-2024" "Food" eighth "tea, milk";
        (expense "06-03-2024" "Food" ten "lunch" ++ [(None, VList ["paid"])])%list;
        expense "07-03-2024" "Food" three_tenths "gum"]
       (S754_zero false), None) /\
  _save_expenses
    (fst (init (Some ("date,category,amount,description" ++ Csv.line_terminator ++
              "05-03-2024,Food,0.125," ++ String Csv.DQUOTE ("tea, milk" ++
                String Csv.DQUOTE Csv.line_terminator) ++
              "06-03-2024,Food,10.0,lunch,paid" ++ Csv.line_terminator ++
              "07-03-2024,Food,0.30000000000000004,gum" ++ Csv.line_terminator)))) =
    (false,
     Some ("date,category,amount,description" ++ Csv.line_terminator ++
           "05-03-2024,Food,0.125," ++ String Csv.DQUOTE ("tea, milk" ++
             String Csv.DQUOTE Csv.line_terminator))).
Proof.
  assert (H1 : Forall wf_entry [mkEntry "05-03-2024" "Food" eighth "tea, milk"]).
  { repeat constructor; try reflexivity; try discriminate;
      unfold fits, Csv.field_limit; simpl; lia. }
  assert (He : wf_entry (mkEntry "06-03-2024" "Food" ten "lunch")).
  { repeat constructor; try reflexivity; try discriminate;
      unfold fits, Csv.field_limit; simpl; lia. }
  assert (Hc : storable "paid").
  { split; [reflexivity | unfold Csv.field_limit; simpl; lia]. }
  assert (H2 : Forall wf_entry [mkEntry "07-03-2024" "Food" three_tenths "gum"]).
  { repeat constructor; try reflexivity; try discriminate;
      unfold fits, Csv.field_limit; simpl; lia. }
  split; [exact H1|]. split; [exact He|]. split; [exact Hc|]. split; [exact H2|].
  exact (extra_cell_then_save _ _ _ _ H1 He Hc H2).
Defined.

(** X6. The budget is not persisted: what [_save_expenses] returns and writes
    does not depend on it, and a tracker starts with the budget unset
    whatever the file holds. *)
Theorem budget_not_persisted (ds : list dict) (b : PyFloat.float) (f : file) :
  _save_expenses (mkTracker ds b) = _save_expenses (mkTracker ds (S754_zero false)) /\
  monthly_budget (fst (init f)) = S754_zero false.
Proof.
  split; [reflexivity|].
  unfold init, _load_expenses. destruct f as [c|]; [|reflexivity].
  destruct (DictCsv.rows _) as [rows e]. destruct (load_rows rows). reflexivity.
Qed.

End MoreSaving.

(** ** The prompts *)

Section Prompts.



(** X8. A [set_budget] that completes has skipped the entries it refuses and
    stopped at the first one [float] reads as a number that is not below
    zero: that number is the new budget, the expenses are the former ones,
    and the last line printed confirms the budget with two decimals. *)
Theorem set_budget_sets (t t' : tracker) (inp inp' out : list string) :
  set_budget t inp = Some (t', inp', out) ->
  exists pre line,
    inp = (pre ++ line :: inp')%list /\
    Forall (rejected check_budget) pre /\
    PyFloat.float_of_str (PyStr.strip line) = Some (monthly_budget t') /\
    PyFloat.fltb (monthly_budget t') PyFloat.of_int_zero = false /\
    expenses t' = expenses t /\
    last out "" = "Monthly budget set to " ++ PyFloat.format_2f (monthly_budget t').
Proof.
  unfold set_budget. intros H.
  destruct (ask _ check_budget inp) as [[[b i1] o1]|] eqn:E1; [|discriminate].
  injection H as <- <- <-.
  apply ask_inv in E1 as (pre & line & -> & Hc & Hr).
  exists pre, line. cbn [expenses monthly_budget].
  unfold check_budget in Hc.
  destruct (PyFloat.float_of_str (PyStr.strip line)) as [x|]; [|discriminate].
  destruct (PyFloat.fltb x PyFloat.of_int_zero) eqn:E; [discriminate|].
  injection Hc as <-.
  repeat split; auto. apply last_last.
Qed.

Lemma set_budget_sets_witness :
  exists t' out,
    set_budget tracker_120 ["-5"; "much"; " 250 "; "next"] = Some (t', ["next"], out) /\
    exists pre line,
      ["-5"; "much"; " 250 "; "next"] = (pre ++ line :: ["next"])%list /\
      Forall (rejected check_budget) pre /\
      PyFloat.float_of_str (PyStr.strip line) = Some (monthly_budget t') /\
      PyFloat.fltb (monthly_budget t') PyFloat.of_int_zero = false /\
      expenses t' = expenses tracker_120 /\
      last out "" = "Monthly budget set to " ++ PyFloat.format_2f (monthly_budget t').
Proof.
  eexists _, _.
  assert (H : set_budget tracker_120 ["-5"; "much"; " 250 "; "next"] =
              Some (_, ["next"], _)) by (vm_compute; reflexivity).
  split; [exact H|].
  exact (set_budget_sets tracker_120 _ _ _ _ H).
Defined.

End Prompts.

Section Strip.
Import PyStr.

Lemma lstrip_spec (s : string) :
  exists a, s = a ++ lstrip s /\ blank a /\
            forall c, first_char (lstrip s) = Some c -> isspace c = false.
Proof.
  unfold blank. induction s as [|x s (a & Ha & Hb & Hf)]; cbn [lstrip].
  - exists "". split; [reflexivity|]. split; [reflexivity | discriminate].
  - destruct (isspace x) eqn:E.
    + exists (String x a). cbn [append forallb_str]. rewrite E, Hb, <- Ha. auto.
    + exists "". split; [reflexivity|]. split; [reflexivity|].
      intros c [= <-]. exact E.
Qed.

Lemma rstrip_spec (s : string) :
  exists b, s = rstrip s ++ b /\ blank b /\
            (forall c, last_char (rstrip s) = Some c -> isspace c = false) /\
            first_char (rstrip s) = (if is_empty (rstrip s) then None else first_char s).
Proof.
  unfold blank. induction s as [|x s (b & Hb & Hbl & Hl & Hf)]; cbn [rstrip].
  - exists "". split; [reflexivity|]. split; [reflexivity|].
    split; [discriminate | reflexivity].
  - destruct (is_empty (rstrip s) && isspace x) eqn:E.
    + apply andb_true_iff in E as [E1 E2].
      destruct (rstrip s) as [|y r] eqn:Er; [|discriminate].
      exists (String x b). cbn [append forallb_str] in *.
      rewrite E2, Hbl, <- Hb.
      split; [reflexivity|]. split; [reflexivity|].
      split; [discriminate | reflexivity].
    + exists b. cbn [append]. rewrite <- Hb.
      split; [reflexivity|]. split; [exact Hbl|]. split; [|reflexivity].
      intros c Hc. cbn [last_char] in Hc.
      destruct (rstrip s) as [|y r] eqn:Er.
      * injection Hc as <-. cbn [is_empty andb] in E. exact E.
      * apply Hl, Hc.
Qed.

(** X9. [strip], through which every console entry goes: the entry is its
    result between two runs of blanks, and the result neither starts nor
    ends with a blank. *)
Theorem strip_trims (s : string) :
  exists a b, s = a ++ strip s ++ b /\ blank a /\ blank b /\ trimmed (strip s).
Proof.
  unfold strip.
  destruct (lstrip_spec s) as (a & Ha & Hba & Hfa).
  destruct (rstrip_spec (lstrip s)) as (b & Hb & Hbb & Hlb & Hfb).
  exists a, b. split; [rewrite <- Hb; exact Ha|].
  split; [exact Hba|]. split; [exact Hbb|]. split; [|exact Hlb].
  intros c Hc. rewrite Hfb in Hc.
  destruct (is_empty (rstrip (lstrip s))); [discriminate|]. apply Hfa, Hc.
Qed.

End Strip.

Lemma dash_not_digit : PyStr.isdigit "-" = false.
Proof. reflexivity. Qed.

(** X10. A date that starts with its four-digit year, as the message
    printed for a refused date asks for (YYYY-MM-DD), is refused by
    [_validate_date], whatever follows the year. *)
Theorem year_first_date_rejected (y rest : string) :
  DateShape.year_text y = true -> _validate_date (y ++ rest) = false.
Proof.
  intros Hy. destruct (_validate_date (y ++ rest)) eqn:E; [|reflexivity].
  exfalso. apply validate_date_parts in E as (d & m & y' & Hs & Hd & _).
  destruct y as [|a [|b [|c [|x [|? ?]]]]]; try discriminate.
  unfold DateShape.year_text in Hy.
  do 3 (apply andb_true_iff in Hy as [Hy ?]).
  destruct d as [|d1 [|d2 [|? ?]]]; try discriminate.
  - injection Hs as _ Hb _. subst b. rewrite dash_not_digit in *. discriminate.
  - injection Hs as _ _ Hc _. subst c. rewrite dash_not_digit in *. discriminate.
Qed.

Lemma year_first_date_rejected_witness :
  DateShape.year_text "2024" = true /\ _validate_date ("2024" ++ "-03-07") = false.
Proof.
  split; [reflexivity|]. exact (year_first_date_rejected "2024" "-03-07" eq_refl).
Defined.

(** ** The display *)



(** ** The menu loop *)

Section MenuLoop.
Import App.

Lemma ask_shorter {A : Type} (prompt : string) (check : string -> A + string)
    (inp : list string) (a : A) (rest out : list string) :
  ask prompt check inp = Some (a, rest, out) ->
  (List.length rest < List.length inp)%nat.
Proof.
  intros H. apply ask_inv in H as (pre & line & -> & _).
  rewrite length_app. simpl. lia.
Qed.

Lemma add_expense_shorter (t t' : tracker) (inp rest out : list string) :
  add_expense t inp = Some (t', rest, out) ->
  (List.length rest < List.length inp)%nat.
Proof.
  unfold add_expense. intros H.
  destruct (ask _ check_date inp) as [[[d i1] o1]|] eqn:E1; [|discriminate].
  destruct (ask _ check_category i1) as [[[c i2] o2]|] eqn:E2; [|discriminate].
  destruct (ask _ check_amount i2) as [[[x i3] o3]|] eqn:E3; [|discriminate].
  destruct (ask _ check_description i3) as [[[ds i4] o4]|] eqn:E4; [|discriminate].
  injection H as _ <- _.
  apply ask_shorter in E1, E2, E3, E4. lia.
Qed.

Lemma set_budget_shorter (t t' : tracker) (inp rest out : list string) :
  set_budget t inp = Some (t', rest, out) ->
  (List.length rest < List.length inp)%nat.
Proof.
  unfold set_budget. intros H.
  destruct (ask _ check_budget inp) as [[[b i1] o1]|] eqn:E1; [|discriminate].
  injection H as _ <- _. apply ask_shorter in E1. exact E1.
Qed.

Lemma printing_some (out : list printed) (x : option outcome) :
  (exists o, x = Some o) -> exists o, printing out x = Some o.
Proof. intros [[t f rest out'|e] ->]; simpl; eauto. Qed.

Lemma press_enter_some (inp : list string) (next : list string -> option outcome) :
  (forall inp', (List.length inp' < List.length inp)%nat -> exists o, next inp' = Some o) ->
  exists o, press_enter inp next = Some o.
Proof.
  intros H. destruct inp as [|l inp']; simpl; [eauto|].
  apply printing_some, H. simpl. lia.
Qed.

(** One round more than there are lines is enough. *)
Lemma run_loop_some (v : cpython) (fuel : nat) :
  forall (t : tracker) (inp : list string),
    (List.length inp < fuel)%nat -> exists o, run_loop fuel v t inp = Some o.
Proof.
  induction fuel as [|fuel IH]; intros t inp Hlen; [lia|].
  destruct inp as [|line inp1]; cbn [run_loop]; [eauto|].
  simpl in Hlen. apply printing_some.
  destruct (String.eqb _ "1").
  { destruct (add_expense t inp1) as [[[t' inp2] out]|] eqn:E; [|eauto].
    apply add_expense_shorter in E.
    apply printing_some, press_enter_some. intros inp' H. apply IH. lia. }
  destruct (String.eqb _ "2").
  { destruct (view_expenses t); [|eauto].
    apply printing_some, press_enter_some. intros inp' H. apply IH. lia. }
  destruct (String.eqb _ "3").
  { destruct (set_budget t inp1) as [[[t' inp2] out]|] eqn:E; [|eauto].
    apply set_budget_shorter in E.
    apply printing_some, press_enter_some. intros inp' H. apply IH. lia. }
  destruct (String.eqb _ "4").
  { destruct (track_budget v t); [|eauto].
    apply printing_some, press_enter_some. intros inp' H. apply IH. lia. }
  destruct (String.eqb _ "5").
  { destruct (_save_expenses t). eauto. }
  apply printing_some, press_enter_some. intros inp' H. apply IH. lia.
Qed.

Lemma press_enter_ext (inp : list string) (f g : list string -> option outcome) :
  (forall inp', (List.length inp' < List.length inp)%nat -> f inp' = g inp') ->
  press_enter inp f = press_enter inp g.
Proof.
  intros H. destruct inp as [|l inp']; simpl; [reflexivity|].
  rewrite H by (simpl; lia). reflexivity.
Qed.

(** More rounds than that change nothing. *)
Lemma run_loop_fuel (v : cpython) (fuel : nat) :
  forall (fuel' : nat) (t : tracker) (inp : list string),
    (List.length inp < fuel)%nat -> (List.length inp < fuel')%nat ->
    run_loop fuel v t inp = run_loop fuel' v t inp.
Proof.
  induction fuel as [|fuel IH]; intros fuel' t inp H H'; [lia|].
  destruct fuel' as [|fuel']; [lia|].
  destruct inp as [|line inp1]; cbn [run_loop]; [reflexivity|].
  simpl in H, H'. f_equal.
  destruct (String.eqb _ "1").
  { destruct (add_expense t inp1) as [[[t' inp2] out]|] eqn:E; [|reflexivity].
    apply add_expense_shorter in E.
    f_equal. apply press_enter_ext. intros inp' Hi. apply IH; lia. }
  destruct (String.eqb _ "2").
  { destruct (view_expenses t); [|reflexivity].
    f_equal. apply press_enter_ext. intros inp' Hi. apply IH; lia. }
  destruct (String.eqb _ "3").
  { destruct (set_budget t inp1) as [[[t' inp2] out]|] eqn:E; [|reflexivity].
    apply set_budget_shorter in E.
    f_equal. apply press_enter_ext. intros inp' Hi. apply IH; lia. }
  destruct (String.eqb _ "4").
  { destruct (track_budget v t); [|reflexivity].
    f_equal. apply press_enter_ext. intros inp' Hi. apply IH; lia. }
  destruct (String.eqb _ "5"); [reflexivity|].
  f_equal. apply press_enter_ext. intros inp' Hi. apply IH; lia.
Qed.

(** One round of the loop. *)
Lemma run_loop_round (fuel : nat) (v : cpython) (t : tracker) (line : string)
    (inp : list string) :
  run_loop (S fuel) v t (line :: inp) =
    printing (map Line show_menu ++ [Line "Enter your choice (1-5): "])
      (if String.eqb (PyStr.strip line) "1" then
         match add_expense t inp with
         | None => Some (Uncaught EOFError)
         | Some (t', inp2, out) =>
             printing (map Line out) (press_enter inp2 (run_loop fuel v t'))
         end
       else if String.eqb (PyStr.strip line) "2" then
         match view_expenses t with
         | None => Some (Uncaught TypeError)
         | Some out =>
             printing (map Line out) (press_enter inp (run_loop fuel v t))
         end
       else if String.eqb (PyStr.strip line) "3" then
         match set_budget t inp with
         | None => Some (Uncaught EOFError)
         | Some (t', inp2, out) =>
             printing (map Line out) (press_enter inp2 (run_loop fuel v t'))
         end
       else if String.eqb (PyStr.strip line) "4" then
         match track_budget v t with
         | None => Some (Uncaught TypeError)
         | Some out =>
             printing (map Line out) (press_enter inp (run_loop fuel v t))
         end
       else if String.eqb (PyStr.strip line) "5" then
         let '(ok, f) := _save_expenses t in
         Some (Exit t f inp
                 (if ok
                  then [Line (NL ++ "Expenses saved successfully. Goodbye!")]
                  else [SaveError;
                        Line (NL ++ "Warning: Expenses may not have saved correctly.")]))
       else
         printing [Line "Invalid choice. Please enter a number between 1-5."]
           (press_enter inp (run_loop fuel v t))).
Proof. reflexivity. Qed.

(** X12. The program always ends: whatever the file and the console
    entries, [main] returns through choice 5 or an exception leaves it, and
    the bound on the rounds of the loop is never what stops it. *)
Theorem main_ends (v : cpython) (f : file) (inp : list string) :
  exists o, main v f inp = Some o.
Proof.
  unfold main, run. destruct (init f) as [t err].
  apply printing_some, run_loop_some. lia.
Qed.

Lemma ask_used {A : Type} (prompt : string) (check : string -> A + string)
    (inp : list string) (a : A) (rest out : list string) :
  ask prompt check inp = Some (a, rest, out) ->
  exists used line,
    inp = (used ++ rest)%list /\ check (PyStr.strip line) = inl a.
Proof.
  intros H. apply ask_inv in H as (pre & line & -> & Hc & _).
  exists (pre ++ [line])%list, line. rewrite <- app_assoc. auto.
Qed.

Lemma add_expense_checked (t t' : tracker) (inp inp' out : list string) :
  add_expense t inp = Some (t', inp', out) ->
  exists d used,
    expenses t' = (expenses t ++ [d])%list /\ checked d /\
    monthly_budget t' = monthly_budget t /\
    inp = (used ++ inp')%list.
Proof.
  unfold add_expense. intros H.
  destruct (ask _ check_date inp) as [[[d i1] o1]|] eqn:E1; [|discriminate].
  destruct (ask _ check_category i1) as [[[c i2] o2]|] eqn:E2; [|discriminate].
  destruct (ask _ check_amount i2) as [[[x i3] o3]|] eqn:E3; [|discriminate].
  destruct (ask _ check_description i3) as [[[ds i4] o4]|] eqn:E4; [|discriminate].
  injection H as <- <- <-.
  apply ask_used in E1 as (u1 & l1 & -> & H1).
  apply ask_used in E2 as (u2 & l2 & -> & H2).
  apply ask_used in E3 as (u3 & l3 & -> & H3).
  apply ask_used in E4 as (u4 & l4 & -> & H4).
  apply check_date_inl in H1 as [-> V1].
  apply check_category_inl in H2 as (-> & N2 & A2).
  apply check_amount_inl in H3 as [F3 P3].
  apply check_description_inl in H4 as [-> N4].
  eexists _, (u1 ++ u2 ++ u3 ++ u4)%list. cbn [expenses monthly_budget].
  split; [reflexivity|]. split.
  - eexists _, _, _, _. split; [reflexivity|].
    repeat split; auto. apply capitalize_isalpha; assumption.
  - split; [reflexivity|]. rewrite <- !app_assoc. reflexivity.
Qed.

Lemma set_budget_inv (t t' : tracker) (inp inp' out : list string) :
  set_budget t inp = Some (t', inp', out) ->
  exists used,
    expenses t' = expenses t /\
    PyFloat.fltb (monthly_budget t') PyFloat.of_int_zero = false /\
    inp = (used ++ inp')%list.
Proof.
  unfold set_budget. intros H.
  destruct (ask _ check_budget inp) as [[[b i1] o1]|] eqn:E1; [|discriminate].
  injection H as <- <- <-.
  apply ask_used in E1 as (u1 & l1 & -> & H1).
  exists u1. cbn [expenses monthly_budget]. repeat split.
  unfold check_budget in H1.
  destruct (PyFloat.float_of_str _) as [x|]; [|discriminate].
  destruct (PyFloat.fltb x PyFloat.of_int_zero) eqn:E; [discriminate|].
  injection H1 as <-. exact E.
Qed.






Lemma view_rows_some (ds : list dict) :
  Forall presentable ds -> exists ls, view_rows ds = Some ls.
Proof.
  induction 1 as [|d ds [[l Hl] _] _ [ls IH]]; simpl; [eauto|].
  rewrite Hl, IH. eauto.
Qed.

Lemma amounts_some (ds : list dict) :
  Forall presentable ds -> exists xs, amounts ds = Some xs.
Proof.
  induction 1 as [|d ds [_ [x Hx]] _ [xs IH]]; simpl; [eauto|].
  rewrite Hx, IH. eauto.
Qed.

Lemma view_expenses_some (t : tracker) :
  Forall presentable (expenses t) -> exists out, view_expenses t = Some out.
Proof.
  intros H. unfold view_expenses.
  destruct (view_rows_some _ H) as [ls Hls]. rewrite Hls.
  destruct (expenses t); eauto.
Qed.

Lemma track_budget_some (v : cpython) (t : tracker) :
  Forall presentable (expenses t) -> exists out, track_budget v t = Some out.
Proof.
  intros H. unfold track_budget.
  destruct (amounts_some _ H) as [xs Hxs]. rewrite Hxs.
  destruct (PyFloat.fleb _ _); eauto.
Qed.

Lemma expense_presentable (date category : string) (amount : PyFloat.float)
    (description : string) :
  presentable (expense date category amount description).
Proof. split; eexists; reflexivity. Qed.

Lemma add_expense_presentable (t t' : tracker) (inp inp' out : list string) :
  add_expense t inp = Some (t', inp', out) ->
  Forall presentable (expenses t) -> Forall presentable (expenses t').
Proof.
  intros H Hp. apply add_expense_checked in H as (d & u & -> & Hd & _).
  apply Forall_app. split; [exact Hp|]. constructor; [|constructor].
  destruct Hd as (a & b & c & e & -> & _). apply expense_presentable.
Qed.

Lemma printing_uncaught (out : list printed) (x : option outcome) (e : exception) :
  printing out x = Some (Uncaught e) -> x = Some (Uncaught e).
Proof. destruct x as [[t0 f0 r0 o0|e0]|]; simpl; intros H; congruence. Qed.

Lemma press_enter_type_error (inp : list string) (next : list string -> option outcome) :
  press_enter inp next = Some (Uncaught TypeError) ->
  exists inp', next inp' = Some (Uncaught TypeError).
Proof.
  destruct inp as [|l inp']; simpl; intros H; [discriminate|].
  apply printing_uncaught in H. eauto.
Qed.

(** With expenses that can all be printed and added up, no round raises
    [TypeError]. *)
Lemma run_loop_no_type_error (v : cpython) (fuel : nat) :
  forall (t : tracker) (inp : list string),
    Forall presentable (expenses t) ->
    run_loop fuel v t inp <> Some (Uncaught TypeError).
Proof.
  induction fuel as [|fuel IH]; intros t inp Hp H; [discriminate|].
  destruct inp as [|line inp1]; cbn [run_loop] in H; [discriminate|].
  apply printing_uncaught in H.
  destruct (String.eqb _ "1").
  { destruct (add_expense t inp1) as [[[t1 inp2] o]|] eqn:E; [|discriminate].
    apply printing_uncaught, press_enter_type_error in H as [inp' H].
    revert H. apply IH. eapply add_expense_presentable; eassumption. }
  destruct (String.eqb _ "2").
  { destruct (view_expenses_some t Hp) as [o Ho]. rewrite Ho in H.
    apply printing_uncaught, press_enter_type_error in H as [inp' H].
    revert H. apply IH, Hp. }
  destruct (String.eqb _ "3").
  { destruct (set_budget t inp1) as [[[t1 inp2] o]|] eqn:E; [|discriminate].
    apply printing_uncaught, press_enter_type_error in H as [inp' H].
    revert H. apply IH. apply set_budget_inv in E as (u & -> & _). exact Hp. }
  destruct (String.eqb _ "4").
  { destruct (track_budget_some v t Hp) as [o Ho]. rewrite Ho in H.
    apply printing_uncaught, press_enter_type_error in H as [inp' H].
    revert H. apply IH, Hp. }
  destruct (String.eqb _ "5").
  { destruct (_save_expenses t). discriminate. }
  apply printing_uncaught, press_enter_type_error in H as [inp' H].
  revert H. apply IH, Hp.
Qed.

(** A record under the header [_save_expenses] writes: if it is loaded, it
    can be printed and added up. *)
Lemma load_row_presentable (r : list string) (d : dict) :
  load_row (DictCsv.row_dict fieldnames r) = Appended d -> presentable d.
Proof.
  destruct r as [|c1 [|c2 [|c3 [|c4 [|c5 r]]]]]; unfold load_row.
  - discriminate.
  - discriminate.
  - discriminate.
  - change (dict_get (DictCsv.row_dict fieldnames [c1; c2; c3]) (Some "amount"))
      with (Some (VStr c3)).
    unfold py_float. destruct (PyFloat.float_of_str c3) as [x|]; [|discriminate].
    intros [= <-]. split; eexists; reflexivity.
  - change (dict_get (DictCsv.row_dict fieldnames [c1; c2; c3; c4]) (Some "amount"))
      with (Some (VStr c3)).
    unfold py_float. destruct (PyFloat.float_of_str c3) as [x|]; [|discriminate].
    intros [= <-]. split; eexists; reflexivity.
  - change (dict_get (DictCsv.row_dict fieldnames (c1 :: c2 :: c3 :: c4 :: c5 :: r))
              (Some "amount"))
      with (Some (VStr c3)).
    unfold py_float. destruct (PyFloat.float_of_str c3) as [x|]; [|discriminate].
    intros [= <-]. split; eexists; reflexivity.
Qed.

Lemma load_rows_presentable (rs : list (list string)) :
  Forall presentable (fst (load_rows (map (DictCsv.row_dict fieldnames) rs))).
Proof.
  induction rs as [|r rs IH]; cbn [map load_rows]; [constructor|].
  destruct (load_row _) as [d| |e] eqn:E.
  - destruct (load_rows _) as [ds e']. cbn [fst] in *.
    constructor; [|exact IH]. eapply load_row_presentable, E.
  - exact IH.
  - constructor.
Qed.

End MenuLoop.

Section Header.
Import App Csv.

Lemma header_first (eol rest : string) :
  eol = NL \/ eol = line_terminator ->
  exists recs e,
    reader_rows (file_lines ("date,category,amount,description" ++ eol ++ rest)) =
      (fieldnames :: recs, e).
Proof.
  intros Heol. unfold reader_rows, file_lines.
  rewrite (read_lines_text _ "" parse_reset parse_reset eq_refl).
  rewrite (universal_newlines_no_cr "date,category,amount,description") by reflexivity.
  assert (E : universal_newlines (eol ++ rest) = String LF (universal_newlines rest)).
  { destruct Heol as [-> | ->]; reflexivity. }
  rewrite E.
  change "date,category,amount,description" with (join_fields fieldnames).
  rewrite read_fields.
  - destruct (read_text (universal_newlines rest) false parse_reset) as [recs e].
    eauto.
  - discriminate.
  - split; [right|]; reflexivity.
  - intros _. simpl. lia.
  - repeat constructor; unfold fits, field_limit; simpl; lia.
Qed.

Lemma init_presentable (f : file) :
  with_header f -> Forall presentable (expenses (fst (init f))).
Proof.
  destruct f as [content|]; [|constructor].
  intros (eol & rest & Heol & ->).
  unfold init, _load_expenses, DictCsv.rows.
  destruct (header_first eol rest Heol) as (recs & e & ->).
  pose proof (load_rows_presentable (filter (fun r => negb (DictCsv.is_blank r)) recs)) as H.
  destruct (load_rows _) as [ds err]. exact H.
Qed.

(** X14. If the file is absent, or starts with the header line that
    [_save_expenses] writes, then whatever follows the header and whatever
    is entered at the console, the program ends without a [TypeError]:
    [view_expenses] and [track_budget] can print every expense loaded or
    added. *)
Theorem no_type_error_with_header (v : cpython) (f : file) (inp : list string) :
  with_header f ->
  exists o, main v f inp = Some o /\ o <> Uncaught TypeError.
Proof.
  intros H. apply init_presentable in H. unfold main, run.
  destruct (init f) as [t err]. cbn [fst] in H.
  destruct (run_loop_some v (S (List.length inp)) t inp ltac:(lia)) as [o Ho].
  pose proof (run_loop_no_type_error v (S (List.length inp)) t inp H) as Hn.
  rewrite Ho in *.
  destruct o as [t' f' rest out|e]; cbn [printing].
  - eexists. split; [reflexivity | discriminate].
  - eexists. split; [reflexivity | congruence].
Qed.

Lemma no_type_error_with_header_witness :
  with_header (Some file_short_row) /\
  exists o,
    App.main From312 (Some file_short_row) ["2"; ""; "4"; ""; "5"] = Some o /\
    o <> App.Uncaught App.TypeError.
Proof.
  assert (H : with_header (Some file_short_row)).
  { exists NL, ("05-03-2024,Food" ++ NL ++ "06-03-2024,Travel,50.0,bus" ++ NL).
    split; [left|]; reflexivity. }
  split; [exact H|].
  exact (no_type_error_with_header From312 (Some file_short_row)
           ["2"; ""; "4"; ""; "5"] H).
Defined.

(** X15. A menu choice other than 1 to 5: the program prints that the choice
    is invalid, waits for the Enter key, and goes on with the same tracker
    as if the two entries had not been made. *)
Theorem invalid_choice_asks_again (v : cpython) (t : tracker) (line enter : string)
    (inp : list string) :
  PyStr.strip line <> "1" -> PyStr.strip line <> "2" -> PyStr.strip line <> "3" ->
  PyStr.strip line <> "4" -> PyStr.strip line <> "5" ->
  run v t (line :: enter :: inp) =
    printing (map Line show_menu ++
              [Line "Enter your choice (1-5): ";
               Line "Invalid choice. Please enter a number between 1-5.";
               Line (NL ++ "Press Enter to continue...")])
      (run v t inp).
Proof.
  intros H1 H2 H3 H4 H5. unfold run.
  change (List.length (line :: enter :: inp)) with (S (S (List.length inp))).
  rewrite run_loop_round.
  apply String.eqb_neq in H1, H2, H3, H4, H5. rewrite H1, H2, H3, H4, H5.
  cbn [press_enter].
  rewrite (run_loop_fuel v (S (S (List.length inp))) (S (List.length inp)) t inp) by lia.
  destruct (run_loop (S (List.length inp)) v t inp) as [[t' f' r o|e]|]; reflexivity.
Qed.

Lemma invalid_choice_asks_again_witness :
  PyStr.strip " 6 " <> "1" /\ PyStr.strip " 6 " <> "2" /\ PyStr.strip " 6 " <> "3" /\
  PyStr.strip " 6 " <> "4" /\ PyStr.strip " 6 " <> "5" /\
  App.run From312 tracker_120 [" 6 "; ""; "5"] =
    App.printing
      (map App.Line App.show_menu ++
       [App.Line "Enter your choice (1-5): ";
        App.Line "Invalid choice. Please enter a number between 1-5.";
        App.Line (NL ++ "Press Enter to continue...")])
      (App.run From312 tracker_120 ["5"]).
Proof.
  assert (H1 : PyStr.strip " 6 " <> "1") by discriminate.
  assert (H2 : PyStr.strip " 6 " <> "2") by discriminate.
  assert (H3 : PyStr.strip " 6 " <> "3") by discriminate.
  assert (H4 : PyStr.strip " 6 " <> "4") by discriminate.
  assert (H5 : PyStr.strip " 6 " <> "5") by discriminate.
  repeat (split; [assumption|]).
  exact (invalid_choice_asks_again From312 tracker_120 " 6 " "" ["5"] H1 H2 H3 H4 H5).
Defined.

End Header.

Section Sessions.
Import App.







End Sessions.
